(** * split_paper.py: section boundary detection and segment assembly

    A shallow embedding of [src/paper2llm-web/split_paper.py]
    ([find_section_boundaries], [extract_title] and the pure part of
    [split_paper]) together with the fragment of Python's [re] and [str]
    that these functions use, followed by the properties of the
    specification that are about them.

    Modelling choices.
    - A Python [str] is a [list ascii]; offsets, lengths and indices are
      [nat] (every integer the source computes is non-negative or guarded
      by [max(0, ...)]).  Characters are 8-bit code points, classified the
      way Python classifies the Latin-1 range of Unicode.
    - [re.search] explores every alternative of a pattern by backtracking,
      so the start offset of its result is the least offset at which the
      pattern has some match.  [ends] lists, in backtracking priority
      order, every end offset of a match that starts at a given offset;
      its head is the end of the match Python reports.
    - Python exceptions are an explicit [Raise] result: the comparison of
      an offset with [None], an index out of range, a malformed
      replacement template.
    - Reading and writing files is left out: [split_paper_core] goes from
      the content read to the contents written.

    Contents: results and exceptions; strings; the matcher; the patterns;
    [find_section_boundaries]; [re.sub]; [extract_title]; [split_paper];
    the vocabulary of the properties and the example documents; lemmas on
    the matcher, the search, the page-marker scan, the cleanup and the
    assembly; worked examples; the properties C1 to C10. *)

From Stdlib Require Import Ascii String List Arith Bool Lia PeanoNat.
Import ListNotations.

Local Open Scope string_scope.
Local Open Scope nat_scope.
Local Open Scope list_scope.

(** ** Results and exceptions *)

Inductive exn : Type :=
| TypeError
| IndexError
| TemplateError.   (* what [re.sub] raises on a malformed replacement:
                      [re.error], or [IndexError] for an unknown group name *)

Inductive result (A : Type) : Type :=
| Ok (a : A)
| Raise (e : exn).

Arguments Ok {A} a.
Arguments Raise {A} e.

Definition bind {A B : Type} (m : result A) (k : A -> result B) : result B :=
  match m with
  | Ok a => k a
  | Raise e => Raise e
  end.

Notation "x <- m ;; k" := (bind m (fun x => k))
  (at level 61, m at next level, right associativity).

Notation "' ( x , y ) <- m ;; k" := (bind m (fun p => let '(x, y) := p in k))
  (at level 61, x name, y name, m at next level, right associativity).

(** ** Python strings *)

Definition str : Type := list ascii.

Definition lit (s : string) : str := list_ascii_of_string s.

Definition nl : ascii := "010"%char.

Definition code (c : ascii) : nat := nat_of_ascii c.

Definition between (lo hi n : nat) : bool := (lo <=? n) && (n <=? hi).

(** [str.isspace] on one character, which is also the class [\s] of a
    [str] pattern: TAB..CR, FS..US, SPACE, NEL and NBSP. *)
Definition is_space (c : ascii) : bool :=
  let n := code c in
  between 9 13 n || between 28 32 n || (n =? 133) || (n =? 160).

(** The class [\d] of a [str] pattern: decimal digits. *)
Definition is_digit (c : ascii) : bool := between 48 57 (code c).

(** Word characters as [\b] sees them: alphanumerics and underscore. *)
Definition is_word (c : ascii) : bool :=
  let n := code c in
  between 48 57 n || between 65 90 n || between 97 122 n || (n =? 95)
  || (n =? 170) || (n =? 178) || (n =? 179) || (n =? 181)
  || (n =? 185) || (n =? 186) || between 188 190 n
  || between 192 214 n || between 216 246 n || between 248 255 n.

(** Case folding of the ASCII letters; the literals of the patterns below
    are ASCII, so no other folding can make a literal match. *)
Definition lower (c : ascii) : ascii :=
  if between 65 90 (code c) then ascii_of_nat (code c + 32) else c.

Definition slice_to (n : nat) (s : str) : str := firstn n s.
Definition slice_from (n : nat) (s : str) : str := skipn n s.

(** [s.split('\n')] *)
Fixpoint split_nl (s : str) : list str :=
  match s with
  | [] => [[]]
  | c :: s' =>
      if Ascii.eqb c nl then [] :: split_nl s'
      else match split_nl s' with
           | l :: ls => (c :: l) :: ls
           | [] => [[c]]
           end
  end.

Fixpoint starts_with (sub s : str) : bool :=
  match sub, s with
  | [], _ => true
  | a :: sub', b :: s' => Ascii.eqb a b && starts_with sub' s'
  | _ :: _, [] => false
  end.

(** [s.rfind(sub)]: the highest offset at which [sub] occurs in [s];
    [None] stands for Python's [-1]. *)
Fixpoint rfind_from (s sub : str) (p : nat) : option nat :=
  if starts_with sub (skipn p s) then Some p
  else match p with
       | 0 => None
       | S p' => rfind_from s sub p'
       end.

Definition rfind (s sub : str) : option nat :=
  rfind_from s sub (length s - length sub).

Fixpoint lstrip (s : str) : str :=
  match s with
  | c :: s' => if is_space c then lstrip s' else s
  | [] => []
  end.

Definition rstrip (s : str) : str := rev (lstrip (rev s)).

(** [s.strip()] *)
Definition strip (s : str) : str := rstrip (lstrip s).

(** ** The fragment of [re] used by the source *)

Inductive cset : Type :=
| CChar (c : ascii)      (* a literal character *)
| CSpace                 (* \s *)
| CDigit                 (* \d *)
| CDot                   (* .    any character but a newline *)
| CNot (c : ascii).      (* [^c] *)

(** Every repetition in the source's patterns ([#+], [\s+], [\d+], [\s*],
    [#{3,4}], [s?], [.*], [.+?], [[^}]*]) applies to a single-character
    item, which is what [Rep] holds. *)
Inductive regex : Type :=
| Eps
| One (c : cset)
| Rep (c : cset) (lo : nat) (hi : option nat) (greedy : bool)
| Bol                    (* ^ *)
| Eol                    (* $ *)
| WordB                  (* \b *)
| Seq (r1 r2 : regex)
| Alt (r1 r2 : regex).

Record flags : Type := { ignorecase : bool; multiline : bool }.

Definition no_flags : flags := {| ignorecase := false; multiline := false |}.
Definition IGNORECASE : flags := {| ignorecase := true; multiline := false |}.
Definition MULTILINE : flags := {| ignorecase := false; multiline := true |}.
Definition MULTILINE_IGNORECASE : flags :=
  {| ignorecase := true; multiline := true |}.

Section Matcher.

Variable fl : flags.
Variable s : str.

Definition cset_match (c : cset) (a : ascii) : bool :=
  match c with
  | CChar x =>
      if ignorecase fl then Ascii.eqb (lower x) (lower a) else Ascii.eqb x a
  | CSpace => is_space a
  | CDigit => is_digit a
  | CDot => negb (Ascii.eqb a nl)
  | CNot x =>
      negb (if ignorecase fl then Ascii.eqb (lower x) (lower a)
            else Ascii.eqb x a)
  end.

(** Length of the longest prefix of [l] made of characters of [c]. *)
Fixpoint run (c : cset) (l : str) : nat :=
  match l with
  | a :: l' => if cset_match c a then S (run c l') else 0
  | [] => 0
  end.

Definition word_at (p : nat) : bool :=
  match nth_error s p with
  | Some a => is_word a
  | None => false
  end.

Definition at_bol (p : nat) : bool :=
  match p with
  | 0 => true
  | S p' =>
      multiline fl &&
      match nth_error s p' with
      | Some a => Ascii.eqb a nl
      | None => false
      end
  end.

Definition at_eol (p : nat) : bool :=
  (p =? length s)
  || match nth_error s p with
     | Some a =>
         Ascii.eqb a nl && (multiline fl || (S p =? length s))
     | None => false
     end.

Definition at_wordb (p : nat) : bool :=
  xorb (match p with 0 => false | S p' => word_at p' end) (word_at p).

Definition rep_ends (c : cset) (lo : nat) (hi : option nat) (greedy : bool)
    (p : nat) : list nat :=
  let n := run c (skipn p s) in
  let m := match hi with Some h => Nat.min n h | None => n end in
  let counts := seq lo (S m - lo) in
  map (fun k => p + k) (if greedy then rev counts else counts).

(** End offsets of the matches of [r] that start at [p], in the order
    in which backtracking finds them. *)
Fixpoint ends (r : regex) (p : nat) : list nat :=
  match r with
  | Eps => [p]
  | One c =>
      match nth_error s p with
      | Some a => if cset_match c a then [S p] else []
      | None => []
      end
  | Rep c lo hi greedy => rep_ends c lo hi greedy p
  | Bol => if at_bol p then [p] else []
  | Eol => if at_eol p then [p] else []
  | WordB => if at_wordb p then [p] else []
  | Seq r1 r2 => flat_map (ends r2) (ends r1 p)
  | Alt r1 r2 => ends r1 p ++ ends r2 p
  end.

(** [pattern.match(s, p)]: the end of the match at [p], if any. *)
Definition match_at (r : regex) (p : nat) : option nat :=
  hd_error (ends r p).

(** Scan start offsets [p], [p+1], ... for the first one with a match. *)
Fixpoint search_from (r : regex) (fuel p : nat) : option (nat * nat) :=
  match match_at r p with
  | Some q => Some (p, q)
  | None =>
      match fuel with
      | 0 => None
      | S fuel' => search_from r fuel' (S p)
      end
  end.

(** [pattern.search(s, pos)]: start offsets [pos .. len(s)] are tried. *)
Definition search_pos (r : regex) (pos : nat) : option (nat * nat) :=
  search_from r (length s - pos) pos.

End Matcher.

(** [re.search(r, s, fl)] as the span [(m.start(), m.end())]. *)
Definition re_search (fl : flags) (r : regex) (s : str) : option (nat * nat) :=
  search_pos fl s r 0.

(** [re.search(r, s, fl)] observed through [m.start()] only. *)
Definition re_search_start (fl : flags) (r : regex) (s : str) : option nat :=
  option_map fst (re_search fl r s).

(** [re.match(r, s, fl)] observed through its truth value. *)
Definition re_match (fl : flags) (r : regex) (s : str) : bool :=
  match match_at fl s r 0 with
  | Some _ => true
  | None => false
  end.

(** ** Patterns of the source *)

Definition plus (c : cset) : regex := Rep c 1 None true.
Definition star (c : cset) : regex := Rep c 0 None true.
Definition opt (c : cset) : regex := Rep c 0 (Some 1) true.

Definition seqs (rs : list regex) : regex := fold_right Seq Eps rs.

Fixpoint alts (r : regex) (rs : list regex) : regex :=
  match rs with
  | [] => r
  | r' :: rs' => Alt r (alts r' rs')
  end.

(** A run of literal characters. *)
Definition chars (w : string) : regex :=
  seqs (map (fun c => One (CChar c)) (lit w)).

(** A parenthesised alternation of literal words. *)
Definition words (w : string) (ws : list string) : regex :=
  alts (chars w) (map chars ws).

(** A pattern keeps its source text, which the source compares with [==]. *)
Record pattern : Type := { source : string; re : regex }.

(** [^#+\s+] followed by [body]: the common shape of the heading patterns. *)
Definition heading (body : list regex) : regex :=
  Seq Bol (Seq (plus (CChar "#")) (Seq (plus CSpace) (seqs body))).

Definition ack_patterns : list pattern :=
  [ {| source := "^#+\s+(Acknowledgments?)\b";
       re := heading [chars "Acknowledgment"; opt (CChar "s"); WordB] |};
    {| source := "^#+\s+(Acknowledgements?)\b";
       re := heading [chars "Acknowledgement"; opt (CChar "s"); WordB] |};
    {| source := "^#+\s+Author\s+(Contributions|contributions)";
       re := heading [chars "Author"; plus CSpace;
                      words "Contributions" ["contributions"]] |};
    {| source := "^#+\s+Funding";
       re := heading [chars "Funding"] |};
    {| source := "^#+\s+Impact\s+(Statement|statement)";
       re := heading [chars "Impact"; plus CSpace;
                      words "Statement" ["statement"]] |};
    {| source := "^#+\s+Broader\s+(Impact|impact)";
       re := heading [chars "Broader"; plus CSpace;
                      words "Impact" ["impact"]] |};
    {| source := "^#+\s+Societal\s+(Impact|impact)";
       re := heading [chars "Societal"; plus CSpace;
                      words "Impact" ["impact"]] |};
    {| source := "^#+\s+Ethical\s+(Considerations|considerations)";
       re := heading [chars "Ethical"; plus CSpace;
                      words "Considerations" ["considerations"]] |} ].

Definition pat_A_space : pattern :=
  {| source := "^#+\s+A\s+";
     re := heading [chars "A"; plus CSpace] |}.

Definition pat_A_dot : pattern :=
  {| source := "^#+\s+A\.\s+";
     re := heading [chars "A."; plus CSpace] |}.

Definition appendix_patterns : list pattern :=
  [ {| source := "^#+\s+(Appendix|Appendices|appendix|appendices)\b";
       re := heading [words "Appendix" ["Appendices"; "appendix"; "appendices"];
                      WordB] |};
    {| source := "^#+\s+(Supplementary|Supporting|supplementary|supporting)\s+(Material|Materials|Information|Data|material|materials|information|data)";
       re := heading [words "Supplementary"
                        ["Supporting"; "supplementary"; "supporting"];
                      plus CSpace;
                      words "Material"
                        ["Materials"; "Information"; "Data"; "material";
                         "materials"; "information"; "data"]] |};
    {| source := "^#+\s+(Supplemental|supplemental)\s+";
       re := heading [words "Supplemental" ["supplemental"]; plus CSpace] |};
    {| source := "^#+\s+SI\s+";
       re := heading [chars "SI"; plus CSpace] |};
    {| source := "^#+\s+S\d+\.\s+";
       re := heading [chars "S"; plus CDigit; chars "."; plus CSpace] |};
    pat_A_space;
    pat_A_dot ].

(** [^#{3,4}\s+Page\s+\d+\s*$] *)
Definition page_marker_pattern : regex :=
  seqs [Bol; Rep (CChar "#") 3 (Some 4) true; plus CSpace; chars "Page";
        plus CSpace; plus CDigit; star CSpace; Eol].

(** ** find_section_boundaries *)

(** [re.search(pattern, content, re.MULTILINE | re.IGNORECASE)], of which
    the source only reads [match.start()]. *)
Definition search_start (p : pattern) (content : str) : option nat :=
  re_search_start MULTILINE_IGNORECASE (re p) content.

(** One iteration of the loop of lines 73-77.  [ack_match] and [ack_start]
    are assigned together, so [ack_match.start()] is [ack_start]. *)
Definition ack_step (content : str) (ack_start : option nat) (p : pattern)
    : option nat :=
  match search_start p content with
  | Some m =>
      match ack_start with
      | None => Some m
      | Some a => if m <? a then Some m else ack_start
      end
  | None => ack_start
  end.

(** The loop of lines 73-77, over the pattern list [ps]: the least start
    offset among the first matches of the patterns of [ps]. *)
Definition category_search (ps : list pattern) (content : str) : option nat :=
  fold_left (ack_step content) ps None.

Fixpoint for_each {A St : Type} (f : St -> A -> result St) (l : list A)
    (st : St) : result St :=
  match l with
  | [] => Ok st
  | x :: l' => st' <- f st x ;; for_each f l' st'
  end.

Definition is_generic (p : pattern) : bool :=
  String.eqb (source p) "^#+\s+A\s+" || String.eqb (source p) "^#+\s+A\.\s+".

Definition is_some {A : Type} (o : option A) : bool :=
  match o with Some _ => true | None => false end.

(** One iteration of the loop of lines 82-94.  Comparing an offset with
    [None] would raise [TypeError]; the source guards it. *)
Definition appendix_step (content : str) (ack_start : option nat)
    (appendix_start : option nat) (p : pattern) : result (option nat) :=
  match search_start p content with
  | Some m =>
      if match appendix_start with None => true | Some a => m <? a end then
        if is_generic p && is_some ack_start then
          match ack_start with
          | Some k => Ok (if k <? m then Some m else appendix_start)
          | None => Raise TypeError
          end
        else Ok (Some m)
      else Ok appendix_start
  | None => Ok appendix_start
  end.

Definition find_appendix (content : str) (ack_start : option nat)
    : result (option nat) :=
  for_each (appendix_step content ack_start) appendix_patterns None.

(** [range(hi, lo, -1)]: [hi], [hi - 1], ..., [lo + 1]. *)
Definition range_down (hi lo : nat) : list nat := rev (seq (S lo) (hi - lo)).

(** The loop of lines 103-109: the first scanned line that is a page
    marker decides, and ends the loop. *)
Fixpoint scan_lines (before : str) (lines : list str) (idx : list nat)
    (start : nat) : result nat :=
  match idx with
  | [] => Ok start
  | i :: idx' =>
      match nth_error lines i with
      | None => Raise IndexError
      | Some line =>
          if re_match IGNORECASE page_marker_pattern line then
            match rfind before line with
            | Some line_pos => Ok line_pos
            | None => Ok start
            end
          else scan_lines before lines idx' start
      end
  end.

(** Lines 99-109 (and 113-123, 137-144): [len(lines) - 5] may be negative
    in Python and [max(0, .)] clamps it, as truncated subtraction does. *)
Definition absorb_page_marker (content : str) (start : nat) : result nat :=
  let content_before := slice_to start content in
  let lines_before := split_nl content_before in
  let n := length lines_before in
  scan_lines content_before lines_before
    (range_down (n - 1) (Nat.max 0 (n - 5))) start.

Definition absorb_opt (content : str) (start : option nat)
    : result (option nat) :=
  match start with
  | Some b => b' <- absorb_page_marker content b ;; Ok (Some b')
  | None => Ok None
  end.

(** The loop of lines 132-145: the first pattern of the list that matches
    in [ack_content] decides, and ends the loop. *)
Fixpoint research_ack (content ack_content : str) (ps : list pattern)
    : result (option nat) :=
  match ps with
  | [] => Ok None
  | p :: ps' =>
      match search_start p ack_content with
      | Some m => b <- absorb_page_marker content m ;; Ok (Some b)
      | None => research_ack content ack_content ps'
      end
  end.

(** Lines 126-145: the ordering-conflict correction. *)
Definition correct_order (content : str) (pair : option nat * option nat)
    : result (option nat * option nat) :=
  match pair with
  | (Some b, Some a) =>
      if a <? b then
        ack_start <- research_ack content (slice_to a content) ack_patterns ;;
        Ok (ack_start, Some a)
      else Ok pair
  | _ => Ok pair
  end.

(** Lines 70-123: both candidates, located and page-marker-adjusted. *)
Definition locate_adjusted (content : str)
    : result (option nat * option nat) :=
  let ack_start := category_search ack_patterns content in
  appendix_start <- find_appendix content ack_start ;;
  ack_start <- absorb_opt content ack_start ;;
  appendix_start <- absorb_opt content appendix_start ;;
  Ok (ack_start, appendix_start).

Definition find_section_boundaries (content : str)
    : result (option nat * option nat) :=
  pair <- locate_adjusted content ;;
  correct_order content pair.


(** ** re.sub *)

(** A parsed replacement template: literal characters and references to
    group 0, the whole match.  The patterns that the source substitutes
    have no capturing group, so any other group reference is an error. *)
Inductive piece : Type :=
| PLit (c : ascii)
| PGroup0.

Definition is_octdigit (c : ascii) : bool := between 48 55 (code c).
Definition is_ascii_letter (c : ascii) : bool :=
  between 65 90 (code c) || between 97 122 (code c).
Definition digit_val (c : ascii) : nat := code c - 48.

(** The table [ESCAPES] of the template parser: [\a \b \f \n \r \t \v \\]. *)
Definition template_escape (c : ascii) : option ascii :=
  match c with
  | "a" => Some "007" | "b" => Some "008" | "f" => Some "012"
  | "n" => Some "010" | "r" => Some "013" | "t" => Some "009"
  | "v" => Some "011" | "\" => Some "\"
  | _ => None
  end%char.

(** The name of [\g<name>] up to the closing [>], and what follows it. *)
Fixpoint until_gt (l : str) : option (str * str) :=
  match l with
  | [] => None
  | c :: l' =>
      if Ascii.eqb c ">" then Some ([], l')
      else match until_gt l' with
           | Some (name, rest) => Some (c :: name, rest)
           | None => None
           end
  end.

(** [parse_template] of CPython's [re], for a pattern without groups.
    [fuel] bounds the number of tokens.  A group name is accepted when it
    is a run of the digit [0]; names that only older interpreters read as
    the number 0 (with a deprecation warning) are rejected, as by 3.12. *)
Fixpoint parse_template (fuel : nat) (l : str) : result (list piece) :=
  match fuel with
  | 0 => Ok []
  | S fuel' =>
      match l with
      | [] => Ok []
      | "\"%char :: [] => Raise TemplateError
      | "\"%char :: c :: l1 =>
          if Ascii.eqb c "g" then
            match l1 with
            | "<"%char :: l2 =>
                match until_gt l2 with
                | Some (d :: name, rest) =>
                    if forallb (Ascii.eqb "0") (d :: name) then
                      ps <- parse_template fuel' rest ;; Ok (PGroup0 :: ps)
                    else Raise TemplateError
                | _ => Raise TemplateError
                end
            | _ => Raise TemplateError
            end
          else if Ascii.eqb c "0" then
            match l1 with
            | d1 :: l2 =>
                if is_octdigit d1 then
                  match l2 with
                  | d2 :: l3 =>
                      if is_octdigit d2 then
                        ps <- parse_template fuel' l3 ;;
                        Ok (PLit (ascii_of_nat
                                    ((digit_val d1 * 8 + digit_val d2)
                                     mod 256)) :: ps)
                      else
                        ps <- parse_template fuel' l2 ;;
                        Ok (PLit (ascii_of_nat (digit_val d1)) :: ps)
                  | [] => Ok [PLit (ascii_of_nat (digit_val d1))]
                  end
                else ps <- parse_template fuel' l1 ;; Ok (PLit zero :: ps)
            | [] => Ok [PLit zero]
            end
          else if is_digit c then
            match l1 with
            | d1 :: d2 :: l3 =>
                if is_octdigit c && is_octdigit d1 && is_octdigit d2 then
                  let v := (digit_val c * 8 + digit_val d1) * 8
                           + digit_val d2 in
                  if 255 <? v then Raise TemplateError
                  else ps <- parse_template fuel' l3 ;;
                       Ok (PLit (ascii_of_nat v) :: ps)
                else Raise TemplateError
            | _ => Raise TemplateError
            end
          else
            match template_escape c with
            | Some e => ps <- parse_template fuel' l1 ;; Ok (PLit e :: ps)
            | None =>
                if is_ascii_letter c then Raise TemplateError
                else ps <- parse_template fuel' l1 ;;
                     Ok (PLit "\" :: PLit c :: ps)
            end
      | c :: l1 => ps <- parse_template fuel' l1 ;; Ok (PLit c :: ps)
      end
  end.

Definition expand (tpl : list piece) (matched : str) : str :=
  flat_map (fun p => match p with PLit c => [c] | PGroup0 => matched end) tpl.

Section Sub.

Variable fl : flags.
Variable r : regex.
Variable tpl : list piece.
Variable s : str.
Variable count : nat.    (* 0: replace every match *)

(** Replace the matches found from [pos] on, [n] being the number of
    replacements already made.  The substituted patterns of the source
    match at least two characters; after an empty match the model copies
    one character and moves on. *)
Fixpoint sub_loop (fuel n pos : nat) : str :=
  match fuel with
  | 0 => skipn pos s
  | S fuel' =>
      if negb (count =? 0) && (count <=? n) then skipn pos s
      else
        match search_pos fl s r pos with
        | None => skipn pos s
        | Some (p, q) =>
            firstn (p - pos) (skipn pos s)
            ++ expand tpl (firstn (q - p) (skipn p s))
            ++ (if q =? p
                then firstn 1 (skipn p s) ++ sub_loop fuel' (S n) (S p)
                else sub_loop fuel' (S n) q)
        end
  end.

End Sub.

(** [re.sub(r, repl, s, count, fl)]: the template is parsed, and may
    raise, before any match is looked for. *)
Definition re_sub (fl : flags) (r : regex) (repl s : str) (count : nat)
    : result str :=
  tpl <- parse_template (S (length repl)) repl ;;
  Ok (sub_loop fl r tpl s count (S (length s)) 0 0).

(** ** extract_title *)

(** [^# (.+?)$]: group 1 runs from two characters after the start of the
    match to its end. *)
Definition title_pattern : regex :=
  seqs [Bol; chars "# "; Rep CDot 1 None false; Eol].

(** The BibTeX pattern: [title={], then group 1, a greedy run of [[^}]],
    then [}].  Group 1 runs from seven characters after the start of the
    match to one character before its end. *)
Definition bibtex_pattern : regex :=
  seqs [chars "title={"; star (CNot "}"); chars "}"].

Definition slice (i j : nat) (s : str) : str := firstn (j - i) (skipn i s).

Definition extract_title (content : str) : str :=
  match re_search MULTILINE title_pattern content with
  | Some (p, q) => strip (slice (p + 2) q content)
  | None =>
      match re_search no_flags bibtex_pattern content with
      | Some (p, q) => strip (slice (p + 7) (q - 1) content)
      | None => lit "Untitled_Paper"
      end
  end.

(** ** split_paper, from the located boundaries to the written files *)

(** [---\s*$] *)
Definition separator_pattern : regex := seqs [chars "---"; star CSpace; Eol].

(** [^# .*$] *)
Definition h1_pattern : regex := seqs [Bol; chars "# "; star CDot; Eol].

(** Truth value of a variable that holds [None] or a string. *)
Definition truthy (o : option str) : bool :=
  match o with
  | Some (_ :: _) => true
  | _ => false
  end.

(** Lines 187-206: [(main_content, backmatter_content, appendix_content)]. *)
Definition raw_split (content : str) (ack_start appendix_start : option nat)
    : str * option str * option str :=
  let '(main_content, appendix_content) :=
    match appendix_start with
    | Some a => (slice_to a content, Some (slice_from a content))
    | None => (content, None)
    end in
  match ack_start with
  | Some b =>
      if match appendix_start with Some a => a <? b | None => false end
      then (main_content, None, appendix_content)
      else (slice_to b main_content, Some (slice_from b main_content),
            appendix_content)
  | None => (main_content, None, appendix_content)
  end.

(** [re.sub(r'---\s*$', '', text).strip()] *)
Definition cleanup (text : str) : result str :=
  t <- re_sub no_flags separator_pattern [] text 0 ;; Ok (strip t).

(** Lines 210-213: the cleanup is applied under [if segment:]. *)
Definition cleanup_opt (segment : option str) : result (option str) :=
  match segment with
  | Some (c :: text) => t <- cleanup (c :: text) ;; Ok (Some t)
  | _ => Ok segment
  end.

(** [f"# {title} - {label}\n\n---\n\n{text}"] *)
Definition with_header (title : str) (label : string) (text : str) : str :=
  lit "# " ++ title ++ lit " - " ++ lit label ++ [nl; nl] ++ lit "---"
  ++ [nl; nl] ++ text.

(** Lines 216-219: the header is added under [if segment:]. *)
Definition add_header (title : str) (label : string) (segment : option str)
    : option str :=
  match segment with
  | Some (c :: text) => Some (with_header title label (c :: text))
  | _ => segment
  end.

(** The files written by lines 226-242: the main file always, the other
    two under [if segment:]. *)
Record outputs : Type :=
  { main_file : str;
    backmatter_file : option str;
    appendix_file : option str }.

Definition written (segment : option str) : option str :=
  if truthy segment then segment else None.

(** Lines 208-213. *)
Definition clean_segments (segments : str * option str * option str)
    : result (str * option str * option str) :=
  let '(main_content, backmatter_content, appendix_content) := segments in
  main_content <- cleanup main_content ;;
  backmatter_content <- cleanup_opt backmatter_content ;;
  appendix_content <- cleanup_opt appendix_content ;;
  Ok (main_content, backmatter_content, appendix_content).

(** Lines 215-219. *)
Definition add_headers (title : str)
    (segments : str * option str * option str)
    : str * option str * option str :=
  let '(main_content, backmatter_content, appendix_content) := segments in
  (main_content,
   add_header title "Backmatter" backmatter_content,
   add_header title "Appendix" appendix_content).

(** Lines 187-219: the three segments, split, cleaned and labelled. *)
Definition labelled_segments (content : str)
    (ack_start appendix_start : option nat) (title : str)
    : result (str * option str * option str) :=
  segments <- clean_segments (raw_split content ack_start appendix_start) ;;
  Ok (add_headers title segments).

(** Line 222: [re.sub(r'^# .*$', f"# {title}", main_content, count=1,
    flags=re.MULTILINE)]. *)
Definition retitle (title main_content : str) : result str :=
  re_sub MULTILINE h1_pattern (lit "# " ++ title) main_content 1.

(** Lines 224-242. *)
Definition write_files (segments : str * option str * option str) : outputs :=
  let '(main_content, backmatter_content, appendix_content) := segments in
  {| main_file := main_content;
     backmatter_file := written backmatter_content;
     appendix_file := written appendix_content |}.

(** Lines 187-242 of [split_paper]. *)
Definition assemble (content : str) (ack_start appendix_start : option nat)
    (title : str) : result outputs :=
  segments <- labelled_segments content ack_start appendix_start title ;;
  let '(main_content, backmatter_content, appendix_content) := segments in
  main_content <- retitle title main_content ;;
  Ok (write_files (main_content, backmatter_content, appendix_content)).

(** [split_paper] without its file system: the content read, the title,
    the boundaries, the files to write. *)
Definition split_paper_core (content : str) : result outputs :=
  let title := extract_title content in
  '(ack_start, appendix_start) <- find_section_boundaries content ;;
  assemble content ack_start appendix_start title.


(** ** get_base_filename and the output paths *)

(** The fragment of [os.path] that the source uses, in its POSIX form
    ([posixpath]): the separator is [/], the extension separator [.]. *)

Definition sep : ascii := "/"%char.
Definition extsep : ascii := "."%char.

(** [p.rfind(c) + 1] for a one-character [c]: [rfind] gives [-1] when
    [c] does not occur. *)
Definition after_last (c : ascii) (p : str) : nat :=
  match rfind p [c] with
  | Some k => S k
  | None => 0
  end.

(** [os.path.basename(p)]: [i = p.rfind('/') + 1; return p[i:]]. *)
Definition basename (p : str) : str := slice_from (after_last sep p) p.

(** [head.rstrip('/')] *)
Fixpoint lstrip_char (c : ascii) (s : str) : str :=
  match s with
  | x :: s' => if Ascii.eqb x c then lstrip_char c s' else s
  | [] => []
  end.

Definition rstrip_char (c : ascii) (s : str) : str :=
  rev (lstrip_char c (rev s)).

(** [os.path.dirname(p)]: the head up to the last [/], without its
    trailing slashes unless it is made of slashes only. *)
Definition dirname (p : str) : str :=
  let head := slice_to (after_last sep p) p in
  if negb (forallb (Ascii.eqb sep) head) then rstrip_char sep head else head.

(** [path.endswith('/')] *)
Definition endswith_sep (path : str) : bool :=
  match rev path with
  | c :: _ => Ascii.eqb c sep
  | [] => false
  end.

(** [os.path.join(a, b)]: [b] alone when it starts with [/]; else [a]
    and [b], with a [/] between them unless [a] is empty or ends with
    one. *)
Definition join (a b : str) : str :=
  if starts_with [sep] b then b
  else if match a with [] => true | _ => false end || endswith_sep a
       then a ++ b
       else a ++ [sep] ++ b.

(** The loop of [genericpath._splitext] that skips the leading dots of
    the file name: the first character other than a dot between
    [filenameIndex] and [dotIndex] makes the split. *)
Fixpoint splitext_loop (p : str) (dotIndex filenameIndex fuel : nat)
    : str * str :=
  match fuel with
  | 0 => (p, [])
  | S fuel' =>
      if filenameIndex <? dotIndex then
        match nth_error p filenameIndex with
        | Some c =>
            if Ascii.eqb c extsep
            then splitext_loop p dotIndex (S filenameIndex) fuel'
            else (slice_to dotIndex p, slice_from dotIndex p)
        | None => (slice_to dotIndex p, slice_from dotIndex p)
        end
      else (p, [])
  end.

(** [os.path.splitext(p)]: [dotIndex > sepIndex] is tested on
    [sepIndex + 1]; a missing dot gives [(p, '')]. *)
Definition splitext (p : str) : str * str :=
  match rfind p [extsep] with
  | Some dotIndex =>
      if after_last sep p <=? dotIndex
      then splitext_loop p dotIndex (after_last sep p) (length p)
      else (p, [])
  | None => (p, [])
  end.

(** Lines 30-35. *)
Definition get_base_filename (input_file : str) : str :=
  fst (splitext (basename input_file)).

(** Lines 167-182 of [split_paper]: the paths of the main, backmatter and
    appendix files.  [output_dir] is [None] when no directory is given. *)
Definition output_paths (input_file : str) (output_dir : option str)
    : str * str * str :=
  let base_filename := get_base_filename input_file in
  let output_dir :=
    match output_dir with
    | None =>
        match dirname input_file with
        | [] => lit "."
        | d => d
        end
    | Some d => d
    end in
  (join output_dir (base_filename ++ lit ".md"),
   join output_dir (base_filename ++ lit "_backmatter.md"),
   join output_dir (base_filename ++ lit "_appendix.md")).


(** * Vocabulary of the properties *)

(** ** Patterns and boundaries *)

(** A heading pattern is [^#+\s+] followed by a body. *)
Definition is_heading (p : pattern) : Prop := exists body, re p = heading body.

(** Patterns without [$]: apart from [\b], what they match at an offset
    does not depend on the text after the match. *)
Fixpoint no_eol (r : regex) : bool :=
  match r with
  | Eol => false
  | Seq r1 r2 | Alt r1 r2 => no_eol r1 && no_eol r2
  | _ => true
  end.

(** An offset, when present, is the offset of a [#] of the document. *)
Definition at_hash (content : str) (o : option nat) : Prop :=
  match o with
  | Some b => nth_error content b = Some "#"%char
  | None => True
  end.

(** An offset, when present, is a valid offset of the document. *)
Definition in_doc (content : str) (o : option nat) : Prop :=
  match o with
  | Some b => b < length content
  | None => True
  end.

(** The backmatter offset is not after the appendix offset. *)
Definition ordered (ack_start appendix_start : option nat) : Prop :=
  match ack_start, appendix_start with
  | Some b, Some a => b <= a
  | _, _ => True
  end.

(** The backmatter offset is before the appendix offset. *)
Definition strictly_ordered (ack_start appendix_start : option nat) : Prop :=
  match ack_start, appendix_start with
  | Some b, Some a => b < a
  | _, _ => True
  end.

(** Absorption can only move a candidate back. *)
Definition moved_back (raw adjusted : option nat) : Prop :=
  match raw, adjusted with
  | Some b0, Some b => b <= b0
  | None, None => True
  | _, _ => False
  end.

(** ** Lines *)

(** The offset at which line [j] starts in the text split into [lines]. *)
Fixpoint line_start (lines : list str) (j : nat) : nat :=
  match j, lines with
  | S j', l :: ls => S (length l) + line_start ls j'
  | _, _ => 0
  end.

(** Whether line [j] matches the Page Marker pattern. *)
Definition is_marker (lines : list str) (j : nat) : bool :=
  match nth_error lines j with
  | Some line => re_match IGNORECASE page_marker_pattern line
  | None => false
  end.

(** Whether [sub] occurs in [s] at some offset greater than [p]. *)
Definition occurs_after (sub s : str) (p : nat) : bool :=
  existsb (fun q => starts_with sub (skipn q s)) (seq (S p) (length s - p)).

(** ** Segments *)

(** The text of a segment, the empty text when it is absent. *)
Definition seg (segment : option str) : str :=
  match segment with
  | Some text => text
  | None => []
  end.

(** The text that [cleanup] computes. *)
Definition clean (text : str) : str :=
  strip (sub_loop no_flags separator_pattern [] text 0 (S (length text)) 0 0).

(** The three dashes of a separator at offset [p] of [text], with nothing
    but whitespace after them. *)
Definition separator_at (text : str) (p : nat) : Prop :=
  firstn 3 (skipn p text) = lit "---"
  /\ forallb is_space (skipn (p + 3) text) = true.

(** Whether [s] ends with [suffix]. *)
Definition ends_with (suffix s : str) : bool :=
  starts_with (rev suffix) (rev s).

(** [s] without its last [n] characters. *)
Definition drop_last (n : nat) (s : str) : str := firstn (length s - n) s.

(** A text with one trailing [---] separator and the surrounding
    whitespace trimmed: the whitespace that ends the text is set aside,
    a [---] that then ends it is removed (three dashes, no more), and
    what is left is stripped of whitespace at both ends.  To be compared
    with [cleanup], which works by [re.sub]. *)
Definition trim_separator (text : str) : str :=
  let t := rstrip text in
  if ends_with (lit "---") t then strip (drop_last 3 t) else strip text.

(** The slice of a segment after cleanup, empty when the segment is
    absent or empty. *)
Definition seg_clean (segment : option str) : str :=
  match segment with
  | Some (c :: text) => trim_separator (c :: text)
  | _ => []
  end.

(** The heading put before a backmatter or appendix segment, line by
    line: the heading line, a blank line, a [---] separator line and a
    further blank line, each ended by a newline.  To be compared with
    the f-strings of lines 217 and 219. *)
Definition heading_text (title : str) (label : string) : str :=
  concat (map (fun line => line ++ [nl])
            [lit "# " ++ title ++ lit " - " ++ lit label; []; lit "---"; []]).

(** A non-empty segment with one trailing separator trimmed, put under
    its heading; an absent or empty one is left as it is. *)
Definition labelled (title : str) (label : string) (segment : option str)
    : option str :=
  match segment with
  | Some (c :: text) =>
      Some (heading_text title label ++ trim_separator (c :: text))
  | _ => segment
  end.

(** The file written for a segment: none when it is absent or empty. *)
Definition emitted (title : str) (label : string) (segment : option str)
    : option str :=
  match segment with
  | Some (c :: text) =>
      Some (heading_text title label ++ trim_separator (c :: text))
  | _ => None
  end.

(** In the words of the specification, a text with its trailing run of
    [---] and the surrounding whitespace trimmed: as long as the text,
    trailing whitespace set aside, ends with [---], these are removed. *)
Fixpoint drop_separator_run (fuel : nat) (t : str) : str :=
  match fuel with
  | 0 => t
  | S fuel' =>
      let t' := rstrip t in
      if ends_with (lit "---") t'
      then drop_separator_run fuel' (drop_last 3 t')
      else t'
  end.

Definition trim_separator_run (text : str) : str :=
  strip (drop_separator_run (length text) text).

(** In the words of the specification, the heading of a segment: the
    heading line, a blank line and a [---] separator line. *)
Definition claimed_heading (title : str) (label : string) : str :=
  concat (map (fun line => line ++ [nl])
            [lit "# " ++ title ++ lit " - " ++ lit label; []; lit "---"]).

(** In the words of the specification, the output for a non-empty
    segment. *)
Definition claimed_segment (title : str) (label : string) (segment : str)
    : str :=
  claimed_heading title label ++ trim_separator_run segment.

(** In the words of the specification, [text] with its first level-1
    heading line, if any, replaced by ["# " ++ title]. *)
Definition retitled (title text : str) : str :=
  match re_search MULTILINE h1_pattern text with
  | Some (p, q) => firstn p text ++ lit "# " ++ title ++ skipn q text
  | None => text
  end.

Definition no_backslash (text : str) : Prop := ~ In "\"%char text.

(** * Example documents *)

(** The lines [ls], each ended by a newline. *)
Definition lines_of (ls : list string) : str :=
  concat (map (fun l => lit l ++ [nl]) ls).

(** Example 1 of the specification. *)
Definition doc_three_regions : str :=
  lines_of ["## Acknowledgments"; "Thanks..."; "## Appendix"]
  ++ lit "More text".

(** Example 2 of the specification, after a line of text. *)
Definition doc_marker_before_ack : str :=
  lines_of ["Intro"; "### Page 5"; "## Acknowledgments"] ++ lit "Thanks".

(** Example 4 of the specification. *)
Definition doc_title_and_funding : str :=
  lines_of ["# My Paper"; "Text"; "## Funding"] ++ lit "Grant 1".

(** A single heading of the generic form, and nothing else. *)
Definition doc_lone_A : str := lit "# A proofs".

(** A page marker that is within reach of two consecutive headings. *)
Definition doc_shared_marker : str :=
  lines_of ["x"; "### Page 5"; "## Acknowledgments"] ++ lit "## Appendix".

(** An acknowledgments heading that only occurs after the appendix. *)
Definition doc_ack_in_appendix : str :=
  lines_of ["## Appendix"] ++ lit "## Acknowledgments".

(** A page marker four lines above a heading. *)
Definition doc_marker_four_up : str :=
  lines_of ["x"; "### Page 5"; EmptyString; EmptyString; EmptyString]
  ++ lit "## Funding".

(** A page marker three lines above a heading. *)
Definition doc_marker_three_up : str :=
  lines_of ["x"; "### Page 5"; EmptyString; EmptyString] ++ lit "## Funding".

(** A page marker on the first line of the document. *)
Definition doc_marker_first_line : str :=
  lines_of ["### Page 5"] ++ lit "## Funding".

(** A page marker whose text occurs again inside the next line. *)
Definition doc_marker_recurs : str :=
  lines_of ["x"; "### Page 5"; "see ### Page 5"] ++ lit "## Funding".

(** A level-1 heading with a blank after its title. *)
Definition doc_title_blank : str := lines_of ["# T "] ++ lit "body".

(** A level-1 heading whose title holds a backslash and a digit. *)
Definition doc_title_backslash : str := lit "# Chapter\1".

(** A document that starts with its appendix. *)
Definition doc_appendix_only : str := lit "## Appendix".

(** A backmatter section that ends with two separators in a row. *)
Definition doc_double_separator : str :=
  lines_of ["## Funding"; "Grant 1"] ++ lit "------".

(** A [#] alone on its line, followed by a line that names a Backmatter
    section: no line is a heading, the two lines together are one. *)
Definition doc_heading_across_lines : str := lines_of ["#"] ++ lit "Funding".

(** ** Further vocabulary *)

(** A text without leading or trailing whitespace. *)
Definition stripped (t : str) : Prop := lstrip t = t /\ rstrip t = t.

(** Whitespace only. *)
Definition blank (t : str) : Prop := forallb is_space t = true.

(** Whitespace and dashes only. *)
Definition blank_or_dash (t : str) : Prop :=
  forallb (fun c => is_space c || Ascii.eqb c "-") t = true.

(** A path is a directory prefix when it is empty or ends with [/]. *)
Definition dir_prefix (prefix : str) : Prop :=
  prefix = [] \/ exists d, prefix = d ++ [sep].

(** Whether a backmatter file is written for the returned boundaries:
    a backmatter boundary that is not the appendix boundary. *)
Definition backmatter_expected (ack_start appendix_start : option nat) : bool :=
  match ack_start, appendix_start with
  | Some b, Some a => b <? a
  | Some _, None => true
  | None, _ => false
  end.

(** A generic heading on each side of a backmatter heading. *)
Definition doc_generic_both_sides : str :=
  lines_of ["## A intro"; "## Funding"] ++ lit "## A proofs".

(** A text without heading. *)
Definition doc_plain : str := lines_of ["Some text"; "---"].

(** The rest of a line: empty, or starting with a newline. *)
Definition line_end (rest : str) : Prop := rest = [] \/ exists r, rest = nl :: r.

(** Dots only. *)
Definition all_dots (t : str) : Prop := forallb (Ascii.eqb extsep) t = true.

(** A file name that has a character other than a dot. *)
Definition has_non_dot (name : str) : Prop :=
  exists c, In c name /\ c <> extsep.

(** A document that starts with a level-1 heading and holds a BibTeX
    title as well. *)
Definition doc_heading_and_bibtex : str :=
  lines_of ["#  My Paper "; "text"] ++ lit "title={Other}".

(** A segment that is present and starts with [#]. *)
Definition starts_with_hash (segment : option str) : Prop :=
  exists text, segment = Some ("#"%char :: text).

(** * Properties *)

(** ** Characters *)

Lemma cset_match_hash fl a : cset_match fl (CChar "#") a = true -> a = "#"%char.
Proof.
  destruct fl as [[] ml]; simpl;
    destruct a as [[] [] [] [] [] [] [] []]; vm_compute; congruence.
Qed.

Lemma cset_match_dash fl a : cset_match fl (CChar "-") a = true -> a = "-"%char.
Proof.
  destruct fl as [[] ml]; simpl;
    destruct a as [[] [] [] [] [] [] [] []]; vm_compute; congruence.
Qed.

(** ** The matcher *)

Section MatcherFacts.

Variable fl : flags.
Variable s : str.

Lemma run_le c l : run fl c l <= length l.
Proof.
  induction l as [|a l IH]; simpl; [lia|].
  destruct (cset_match fl c a); simpl; lia.
Qed.

Lemma run_pos c l :
  1 <= run fl c l -> exists a l', l = a :: l' /\ cset_match fl c a = true.
Proof.
  destruct l as [|a l]; simpl; [lia|].
  destruct (cset_match fl c a) eqn:E; [eauto | lia].
Qed.

Lemma in_rep_ends c lo hi g p q :
  In q (rep_ends fl s c lo hi g p) <->
  exists k, q = p + k /\ lo <= k /\ k <= run fl c (skipn p s)
            /\ match hi with Some h => k <= h | None => True end.
Proof.
  unfold rep_ends. rewrite in_map_iff. split.
  - intros (k & <- & Hk). exists k.
    assert (Hin : In k (seq lo (S (match hi with
               | Some h => Nat.min (run fl c (skipn p s)) h
               | None => run fl c (skipn p s) end) - lo))).
    { destruct g; [apply in_rev|]; exact Hk. }
    apply in_seq in Hin. destruct hi; repeat split; lia.
  - intros (k & -> & Hlo & Hrun & Hhi). exists k. split; [reflexivity|].
    assert (Hin : In k (seq lo (S (match hi with
               | Some h => Nat.min (run fl c (skipn p s)) h
               | None => run fl c (skipn p s) end) - lo))).
    { apply in_seq. destruct hi; lia. }
    destruct g; [apply in_rev; rewrite rev_involutive|]; exact Hin.
Qed.

(** A match ends no earlier than it starts, and inside the string. *)
Lemma ends_bounds r : forall p q,
  In q (ends fl s r p) -> p <= q /\ (p <= length s -> q <= length s).
Proof.
  induction r as [|c|c lo hi g| | | |r1 IH1 r2 IH2|r1 IH1 r2 IH2];
    intros p q H; simpl in H.
  - destruct H as [<-|[]]. lia.
  - destruct (nth_error s p) as [a|] eqn:E; [|contradiction].
    destruct (cset_match fl c a); [|contradiction].
    destruct H as [<-|[]].
    assert (p < length s) by (apply nth_error_Some; congruence). lia.
  - apply in_rep_ends in H. destruct H as (k & -> & _ & Hk & _).
    pose proof (run_le c (skipn p s)) as Hr. rewrite length_skipn in Hr.
    lia.
  - destruct (at_bol fl s p); [|contradiction]. destruct H as [<-|[]]. lia.
  - destruct (at_eol fl s p); [|contradiction]. destruct H as [<-|[]]. lia.
  - destruct (at_wordb s p); [|contradiction]. destruct H as [<-|[]]. lia.
  - apply in_flat_map in H. destruct H as (m & Hm & Hq).
    destruct (IH1 _ _ Hm), (IH2 _ _ Hq). lia.
  - apply in_app_or in H. destruct H as [H|H]; [apply IH1|apply IH2]; exact H.
Qed.

Lemma in_ends_seq r1 r2 p q :
  In q (ends fl s (Seq r1 r2) p) <->
  exists m, In m (ends fl s r1 p) /\ In q (ends fl s r2 m).
Proof. simpl. apply in_flat_map. Qed.

(** A heading pattern only matches where a [#] stands. *)
Lemma ends_heading_hash body p q :
  In q (ends fl s (heading body) p) -> nth_error s p = Some "#"%char.
Proof.
  unfold heading. intros H.
  apply in_ends_seq in H. destruct H as (m & Hm & H).
  simpl in Hm. destruct (at_bol fl s p); [|contradiction].
  destruct Hm as [<-|[]].
  apply in_ends_seq in H. destruct H as (m & Hm & _).
  simpl in Hm. apply in_rep_ends in Hm.
  destruct Hm as (k & _ & Hlo & Hrun & _).
  destruct (run_pos (CChar "#") (skipn p s)) as (a & l' & El & Ea); [lia|].
  apply cset_match_hash in Ea. subst a.
  rewrite <- (firstn_skipn p s) at 1.
  pose proof (run_le (CChar "#") (skipn p s)) as Hr.
  rewrite length_skipn in Hr.
  rewrite nth_error_app2; rewrite length_firstn; [|lia].
  replace (p - Nat.min p (length s)) with 0 by lia.
  rewrite El. reflexivity.
Qed.

Lemma match_at_some r p q :
  match_at fl s r p = Some q -> In q (ends fl s r p).
Proof.
  unfold match_at. destruct (ends fl s r p); simpl; [discriminate|].
  intros [= ->]. now left.
Qed.

Lemma match_at_none r p :
  match_at fl s r p = None <-> ends fl s r p = [].
Proof.
  unfold match_at. destruct (ends fl s r p); simpl; split; congruence.
Qed.

Lemma search_from_some r : forall fuel p m q,
  search_from fl s r fuel p = Some (m, q) ->
  p <= m <= p + fuel /\ match_at fl s r m = Some q
  /\ forall m', p <= m' < m -> match_at fl s r m' = None.
Proof.
  induction fuel as [|fuel IH]; intros p m q; simpl;
    destruct (match_at fl s r p) as [q0|] eqn:E.
  - intros [= <- <-]. repeat split; try lia. exact E.
  - discriminate.
  - intros [= <- <-]. repeat split; try lia. exact E.
  - intros H. apply IH in H. destruct H as (Hr & Hm & Hmin).
    repeat split; try lia; [exact Hm|].
    intros m' Hm'. destruct (Nat.eq_dec m' p) as [->|]; [exact E|].
    apply Hmin. lia.
Qed.

Lemma search_from_none r : forall fuel p,
  search_from fl s r fuel p = None ->
  forall m, p <= m <= p + fuel -> match_at fl s r m = None.
Proof.
  induction fuel as [|fuel IH]; intros p; simpl;
    destruct (match_at fl s r p) as [q0|] eqn:E; try discriminate;
    intros H m Hm.
  - replace m with p by lia. exact E.
  - destruct (Nat.eq_dec m p) as [->|]; [exact E|].
    apply (IH (S p) H). lia.
Qed.

End MatcherFacts.

(** ** re.search *)

Lemma re_search_start_some fl r s m :
  re_search_start fl r s = Some m ->
  m <= length s /\ (exists q, In q (ends fl s r m))
  /\ forall m', m' < m -> ends fl s r m' = [].
Proof.
  unfold re_search_start, re_search, search_pos.
  destruct (search_from fl s r (length s - 0) 0) as [[m0 q]|] eqn:E;
    simpl; [|discriminate].
  intros [= ->]. apply search_from_some in E. destruct E as (Hr & Hm & Hmin).
  repeat split; [lia | exists q; now apply match_at_some |].
  intros m' Hm'. apply match_at_none. apply Hmin. lia.
Qed.

Lemma re_search_start_none fl r s :
  re_search_start fl r s = None ->
  forall m, m <= length s -> ends fl s r m = [].
Proof.
  unfold re_search_start, re_search, search_pos.
  destruct (search_from fl s r (length s - 0) 0) as [[m0 q]|] eqn:E;
    simpl; [discriminate|].
  intros _ m Hm. apply match_at_none.
  eapply search_from_none; [exact E | lia].
Qed.

(** The leftmost match starts no later than any match. *)
Lemma re_search_start_le fl r s m q :
  m <= length s -> In q (ends fl s r m) ->
  exists m', re_search_start fl r s = Some m' /\ m' <= m.
Proof.
  intros Hm Hq. destruct (re_search_start fl r s) as [m'|] eqn:E.
  - exists m'. split; [reflexivity|].
    destruct (le_lt_dec m' m) as [|Hlt]; [assumption|].
    apply re_search_start_some in E. destruct E as (_ & _ & Hmin).
    rewrite (Hmin m Hlt) in Hq. contradiction.
  - rewrite (re_search_start_none _ _ _ E m Hm) in Hq. contradiction.
Qed.

(** ** The heading patterns *)

Lemma ack_patterns_heading : Forall is_heading ack_patterns.
Proof. repeat constructor; eexists; reflexivity. Qed.

Lemma appendix_patterns_heading : Forall is_heading appendix_patterns.
Proof. repeat constructor; eexists; reflexivity. Qed.

Lemma search_start_hash p content m :
  is_heading p -> search_start p content = Some m ->
  nth_error content m = Some "#"%char.
Proof.
  intros [body Hb] H. unfold search_start in H. rewrite Hb in H.
  apply re_search_start_some in H. destruct H as (_ & (q & Hq) & _).
  eapply ends_heading_hash; eassumption.
Qed.

(** ** The candidate search of one category *)

(** [fold_left (ack_step content)] keeps the least start offset seen. *)
Lemma fold_ack_step content ps : forall acc,
  match fold_left (ack_step content) ps acc with
  | Some b =>
      (acc = Some b \/ exists p, In p ps /\ search_start p content = Some b)
      /\ (forall a, acc = Some a -> b <= a)
      /\ (forall p m, In p ps -> search_start p content = Some m -> b <= m)
  | None =>
      acc = None /\ forall p, In p ps -> search_start p content = None
  end.
Proof.
  induction ps as [|p ps IH]; intros acc; simpl.
  - destruct acc as [a|].
    + repeat split; [now left | intros ? [= <-]; lia | intros ? ? []].
    + split; [reflexivity | intros ? []].
  - specialize (IH (ack_step content acc p)).
    destruct (fold_left (ack_step content) ps (ack_step content acc p))
      as [b|].
    + destruct IH as (Hsrc & Hacc & Hps). unfold ack_step in Hsrc, Hacc.
      destruct (search_start p content) as [m|] eqn:Em.
      * destruct acc as [a|].
        -- destruct (m <? a) eqn:Elt.
           ++ apply Nat.ltb_lt in Elt. repeat split.
              ** destruct Hsrc as [[= <-]|(p' & Hin & Hp')]; eauto 6.
              ** intros a' [= <-]. specialize (Hacc m eq_refl). lia.
              ** intros p' m' [<-|Hin] Hp'; [|eauto].
                 rewrite Em in Hp'. injection Hp' as <-. now apply Hacc.
           ++ apply Nat.ltb_ge in Elt. repeat split.
              ** destruct Hsrc as [->|(p' & Hin & Hp')]; eauto 6.
              ** intros a' [= <-]. now apply Hacc.
              ** intros p' m' [<-|Hin] Hp'; [|eauto].
                 rewrite Em in Hp'. injection Hp' as <-.
                 specialize (Hacc a eq_refl). lia.
        -- repeat split.
           ++ destruct Hsrc as [[= <-]|(p' & Hin & Hp')]; eauto 6.
           ++ discriminate.
           ++ intros p' m' [<-|Hin] Hp'; [|eauto].
              rewrite Em in Hp'. injection Hp' as <-. now apply Hacc.
      * repeat split.
        -- destruct Hsrc as [->|(p' & Hin & Hp')]; eauto 6.
        -- exact Hacc.
        -- intros p' m' [<-|Hin] Hp'; [congruence|eauto].
    + destruct IH as (Hsrc & Hps). unfold ack_step in Hsrc.
      destruct (search_start p content) as [m|] eqn:Em.
      * destruct acc as [a|]; [destruct (m <? a)|]; discriminate.
      * split; [assumption|]. intros p' [<-|Hin]; eauto.
Qed.

Lemma category_search_some ps content b :
  category_search ps content = Some b ->
  (exists p, In p ps /\ search_start p content = Some b)
  /\ forall p m, In p ps -> search_start p content = Some m -> b <= m.
Proof.
  unfold category_search. intros H.
  pose proof (fold_ack_step content ps None) as F.
  rewrite H in F. destruct F as ([[=]|Hsrc] & _ & Hmin). now split.
Qed.

Lemma category_search_none ps content :
  category_search ps content = None ->
  forall p, In p ps -> search_start p content = None.
Proof.
  unfold category_search. intros H.
  pose proof (fold_ack_step content ps None) as F.
  rewrite H in F. apply F.
Qed.

Lemma category_search_none_iff ps content :
  category_search ps content = None <->
  forall p, In p ps -> search_start p content = None.
Proof.
  split; [apply category_search_none|].
  intros H. destruct (category_search ps content) as [b|] eqn:E; [|reflexivity].
  apply category_search_some in E. destruct E as ((p & Hin & Hp) & _).
  rewrite (H p Hin) in Hp. discriminate.
Qed.

Lemma category_search_hash ps content b :
  Forall is_heading ps -> category_search ps content = Some b ->
  nth_error content b = Some "#"%char.
Proof.
  intros Hh H. apply category_search_some in H.
  destruct H as ((p & Hin & Hp) & _).
  rewrite Forall_forall in Hh. eapply search_start_hash; eauto.
Qed.

(** With no backmatter candidate the guard of the generic patterns is
    off, and the appendix loop is the plain leftmost-match reduction. *)
Lemma for_each_appendix_unguarded content ps : forall acc,
  for_each (appendix_step content None) ps acc
  = Ok (fold_left (ack_step content) ps acc).
Proof.
  induction ps as [|p ps IH]; intros acc; simpl; [reflexivity|].
  unfold appendix_step at 1, ack_step at 2.
  destruct (search_start p content) as [m|]; simpl; [|apply IH].
  rewrite andb_false_r.
  destruct acc as [a|]; [destruct (m <? a)|]; simpl; apply IH.
Qed.

(** The appendix loop never raises, and its result is a first match of
    one of its patterns. *)
Lemma for_each_appendix content ack ps : forall acc,
  exists r, for_each (appendix_step content ack) ps acc = Ok r
  /\ match r with
     | Some a =>
         acc = Some a \/ exists p, In p ps /\ search_start p content = Some a
     | None => acc = None
     end.
Proof.
  induction ps as [|p ps IH]; intros acc; simpl.
  - exists acc. split; [reflexivity|]. destruct acc; auto.
  - assert (Hstep : exists acc',
      appendix_step content ack acc p = Ok acc'
      /\ (acc' = acc \/ (acc' <> None /\ search_start p content = acc'))).
    { unfold appendix_step.
      destruct (search_start p content) as [m|]; [|eauto].
      destruct (match acc with None => true | Some a => m <? a end); [|eauto].
      destruct (is_generic p && is_some ack) eqn:G.
      - destruct ack as [k|].
        + destruct (k <? m); eexists; split; try reflexivity; auto.
          right. split; [discriminate|reflexivity].
        + rewrite andb_false_r in G. discriminate.
      - eexists; split; [reflexivity|]. right.
        split; [discriminate|reflexivity]. }
    destruct Hstep as (acc' & -> & Hacc'). simpl.
    destruct (IH acc') as (r & Hr & Hsrc). exists r. split; [exact Hr|].
    destruct r as [a|].
    + destruct Hsrc as [->|(p' & Hin & Hp')]; [|eauto 6].
      destruct Hacc' as [<-|(_ & Hp)]; [now left|eauto 6].
    + subst acc'. destruct Hacc' as [<-|(Hn & _)]; congruence.
Qed.

Lemma find_appendix_ok content ack :
  exists r, find_appendix content ack = Ok r
  /\ forall a, r = Some a -> nth_error content a = Some "#"%char.
Proof.
  unfold find_appendix.
  destruct (for_each_appendix content ack appendix_patterns None)
    as (r & Hr & Hsrc).
  exists r. split; [exact Hr|]. intros a ->.
  destruct Hsrc as [[=]|(p & Hin & Hp)].
  pose proof appendix_patterns_heading as Hh. rewrite Forall_forall in Hh.
  eapply search_start_hash; eauto.
Qed.

(** ** Strings *)

Lemma split_nl_length s : 1 <= length (split_nl s).
Proof.
  induction s as [|c s IH]; simpl; [lia|].
  destruct (Ascii.eqb c nl); simpl; [lia|].
  destruct (split_nl s); simpl in *; lia.
Qed.

Lemma in_range_down hi lo i : In i (range_down hi lo) <-> lo < i <= hi.
Proof.
  unfold range_down. rewrite <- in_rev, in_seq. lia.
Qed.

Lemma starts_with_spec sub : forall l,
  starts_with sub l = true <-> firstn (length sub) l = sub.
Proof.
  induction sub as [|a sub IH]; intros [|b l]; simpl;
    try (split; [reflexivity|reflexivity]);
    try (split; [discriminate|discriminate]).
  rewrite andb_true_iff, IH. split.
  - intros [Hab ->]. apply Ascii.eqb_eq in Hab. now subst.
  - intros [= <- ->]. split; [apply Ascii.eqb_refl|reflexivity].
Qed.

Lemma rfind_from_eq s sub p :
  rfind_from s sub p
  = if starts_with sub (skipn p s) then Some p
    else match p with 0 => None | S p' => rfind_from s sub p' end.
Proof. destruct p; reflexivity. Qed.

Lemma rfind_from_some s sub : forall p0 p,
  rfind_from s sub p0 = Some p ->
  p <= p0 /\ starts_with sub (skipn p s) = true
  /\ forall p', p < p' <= p0 -> starts_with sub (skipn p' s) = false.
Proof.
  induction p0 as [|p0 IH]; intros p; rewrite rfind_from_eq;
    match goal with |- context [starts_with sub ?l] =>
      destruct (starts_with sub l) eqn:E end.
  - intros [= <-]. repeat split; [lia|exact E|intros; lia].
  - discriminate.
  - intros [= <-]. repeat split; [lia|exact E|intros; lia].
  - intros H. apply IH in H. destruct H as (Hle & Hs & Hmax).
    repeat split; [lia|exact Hs|].
    intros p' Hp'. destruct (Nat.eq_dec p' (S p0)) as [->|]; [exact E|].
    apply Hmax. lia.
Qed.

Lemma rfind_from_none s sub : forall p0,
  rfind_from s sub p0 = None ->
  forall p, p <= p0 -> starts_with sub (skipn p s) = false.
Proof.
  induction p0 as [|p0 IH]; rewrite rfind_from_eq;
    match goal with |- context [starts_with sub ?l] =>
      destruct (starts_with sub l) eqn:E end; try discriminate;
    intros H p Hp.
  - replace p with 0 by lia. exact E.
  - destruct (Nat.eq_dec p (S p0)) as [->|]; [exact E|].
    apply IH; [exact H|lia].
Qed.

(** What [rfind] finds is an occurrence that lies inside the string. *)
Lemma rfind_some s sub p :
  rfind s sub = Some p ->
  p + length sub <= length s /\ firstn (length sub) (skipn p s) = sub.
Proof.
  unfold rfind. intros H. apply rfind_from_some in H.
  destruct H as (Hle & Hs & _). apply starts_with_spec in Hs.
  split; [|exact Hs].
  assert (Hl : length (firstn (length sub) (skipn p s)) = length sub)
    by now rewrite Hs.
  rewrite length_firstn, length_skipn in Hl. lia.
Qed.

Lemma nth_error_firstn_some {A} (l : list A) n i x :
  nth_error (firstn n l) i = Some x -> i < n /\ nth_error l i = Some x.
Proof.
  intros H.
  assert (Hi : i < length (firstn n l)) by (apply nth_error_Some; congruence).
  rewrite length_firstn in Hi. split; [lia|].
  rewrite <- (firstn_skipn n l). rewrite nth_error_app1; [exact H|].
  rewrite length_firstn. lia.
Qed.

Lemma nth_error_skipn_0 {A} (l : list A) p x l' :
  skipn p l = x :: l' -> nth_error l p = Some x.
Proof.
  revert l. induction p as [|p IH]; intros [|a l]; simpl; try discriminate.
  - now intros [= -> ->].
  - apply IH.
Qed.

(** ** Page-marker absorption *)

(** A page-marker line starts with [#]. *)
Lemma page_marker_hash line :
  re_match IGNORECASE page_marker_pattern line = true ->
  exists l', line = "#"%char :: l'.
Proof.
  unfold re_match.
  destruct (match_at IGNORECASE line page_marker_pattern 0) as [q|] eqn:E;
    [intros _|discriminate].
  apply match_at_some in E. unfold page_marker_pattern, seqs in E.
  simpl fold_right in E.
  apply in_ends_seq in E. destruct E as (m & Hm & E).
  simpl in Hm. destruct Hm as [<-|[]].
  apply in_ends_seq in E. destruct E as (m & Hm & _).
  simpl in Hm. apply in_rep_ends in Hm.
  destruct Hm as (k & _ & Hlo & Hrun & _). simpl skipn in Hrun.
  destruct (run_pos IGNORECASE (CChar "#") line) as (a & l' & -> & Ea); [lia|].
  apply cset_match_hash in Ea. subst a. eauto.
Qed.

Lemma scan_lines_spec before lines start : forall idx,
  (forall i, In i idx -> i < length lines) ->
  exists b, scan_lines before lines idx start = Ok b
  /\ (b = start
      \/ exists line, re_match IGNORECASE page_marker_pattern line = true
                      /\ rfind before line = Some b).
Proof.
  induction idx as [|i idx IH]; intros Hidx; simpl.
  - eauto.
  - destruct (nth_error lines i) as [line|] eqn:E.
    + destruct (re_match IGNORECASE page_marker_pattern line) eqn:Em.
      * destruct (rfind before line) as [pos|] eqn:Er; eauto 6.
      * apply IH. intros j Hj. apply Hidx. now right.
    + apply nth_error_None in E. specialize (Hidx i (or_introl eq_refl)). lia.
Qed.

(** Absorption never raises; it leaves the boundary where it is or moves
    it back to an earlier [#]. *)
Lemma absorb_page_marker_spec content start :
  exists b, absorb_page_marker content start = Ok b
  /\ (b = start \/ (b < start /\ nth_error content b = Some "#"%char)).
Proof.
  unfold absorb_page_marker, slice_to.
  set (before := firstn start content). set (lines := split_nl before).
  destruct (scan_lines_spec before lines start
              (range_down (length lines - 1) (Nat.max 0 (length lines - 5))))
    as (b & Hb & Hsrc).
  { intros i Hi. apply in_range_down in Hi.
    pose proof (split_nl_length before). fold lines in H. lia. }
  exists b. split; [exact Hb|].
  destruct Hsrc as [->|(line & Hm & Hr)]; [now left|right].
  apply page_marker_hash in Hm. destruct Hm as (l' & ->).
  apply rfind_some in Hr. destruct Hr as (_ & Hocc).
  simpl length in Hocc.
  destruct (skipn b before) as [|x rest] eqn:Es; [discriminate|].
  simpl in Hocc. injection Hocc as -> _.
  apply nth_error_skipn_0 in Es. apply nth_error_firstn_some in Es. exact Es.
Qed.

Lemma absorb_opt_spec content start :
  exists r, absorb_opt content start = Ok r
  /\ match start, r with
     | Some b, Some b' =>
         b' = b \/ (b' < b /\ nth_error content b' = Some "#"%char)
     | None, None => True
     | _, _ => False
     end.
Proof.
  destruct start as [b|]; simpl; [|exists None; auto].
  destruct (absorb_page_marker_spec content b) as (b' & -> & H). simpl.
  exists (Some b'). auto.
Qed.

(** ** The located boundaries *)

Lemma at_hash_in_doc content o : at_hash content o -> in_doc content o.
Proof.
  destruct o as [b|]; simpl; [|trivial].
  intros H. apply nth_error_Some. congruence.
Qed.

Lemma locate_adjusted_spec content :
  exists raw_app ack app,
    find_appendix content (category_search ack_patterns content) = Ok raw_app
    /\ locate_adjusted content = Ok (ack, app)
    /\ moved_back (category_search ack_patterns content) ack
    /\ moved_back raw_app app
    /\ at_hash content ack /\ at_hash content app.
Proof.
  unfold locate_adjusted.
  destruct (find_appendix_ok content (category_search ack_patterns content))
    as (raw_app & -> & Happ).
  pose proof (category_search_hash ack_patterns content) as Hack.
  destruct (absorb_opt_spec content (category_search ack_patterns content))
    as (ack & Ea & Hack').
  destruct (absorb_opt_spec content raw_app) as (app & Eb & Happ').
  exists raw_app, ack, app. simpl. rewrite Ea. simpl. rewrite Eb. simpl.
  split; [reflexivity|]. split; [reflexivity|].
  destruct (category_search ack_patterns content) as [b0|], ack as [b|];
    try contradiction;
    destruct raw_app as [a0|], app as [a|]; try contradiction; simpl;
    repeat split; trivial;
    try (destruct Hack' as [->|[? ?]]; [|lia || assumption]);
    try (destruct Happ' as [->|[? ?]]; [|lia || assumption]);
    try lia; auto using ack_patterns_heading.
Qed.

(** The second search never raises; what it finds lies strictly before
    the appendix boundary. *)
Lemma research_ack_spec content a ps :
  Forall is_heading ps ->
  exists r, research_ack content (slice_to a content) ps = Ok r
  /\ match r with
     | Some b => b < a /\ nth_error content b = Some "#"%char
     | None => forall p, In p ps -> search_start p (slice_to a content) = None
     end.
Proof.
  unfold slice_to. induction 1 as [|p ps Hp Hps IH]; simpl.
  - exists None. split; [reflexivity|]. intros ? [].
  - destruct (search_start p (firstn a content)) as [m|] eqn:Em.
    + eapply search_start_hash in Em; [|exact Hp].
      apply nth_error_firstn_some in Em. destruct Em as [Hlt Hm].
      destruct (absorb_page_marker_spec content m) as (b & -> & Hb).
      simpl. exists (Some b). split; [reflexivity|].
      destruct Hb as [->|[Hb1 Hb2]]; split; (lia || assumption).
    + destruct IH as (r & -> & Hr). exists r. split; [reflexivity|].
      destruct r as [b|]; [exact Hr|].
      intros p' [<-|Hin]; auto.
Qed.

Lemma correct_order_spec content ack app :
  exists ack', correct_order content (ack, app) = Ok (ack', app)
  /\ (ordered ack app -> ack' = ack)
  /\ (at_hash content ack -> at_hash content ack')
  /\ match ack, app with
     | Some b, Some a => a < b -> strictly_ordered ack' app
     | _, _ => True
     end.
Proof.
  unfold correct_order.
  destruct ack as [b|]; [|exists None; simpl; auto].
  destruct app as [a|]; [|exists (Some b); simpl; auto].
  destruct (a <? b) eqn:E.
  - apply Nat.ltb_lt in E.
    destruct (research_ack_spec content a _ ack_patterns_heading)
      as (r & -> & Hr).
    exists r. simpl. repeat split.
    + intros. lia.
    + intros _. destruct r; [apply Hr|exact I].
    + intros _. destruct r; [apply Hr|exact I].
  - apply Nat.ltb_ge in E. exists (Some b). simpl. repeat split; auto.
    intros. lia.
Qed.

Lemma find_section_boundaries_spec content :
  exists ack0 app ack,
    locate_adjusted content = Ok (ack0, app)
    /\ find_section_boundaries content = Ok (ack, app)
    /\ at_hash content ack /\ at_hash content app /\ ordered ack app.
Proof.
  unfold find_section_boundaries.
  destruct (locate_adjusted_spec content)
    as (raw_app & ack0 & app & _ & -> & _ & _ & Hack & Happ).
  destruct (correct_order_spec content ack0 app)
    as (ack & Hc & Hsame & Hhash & Hfix).
  exists ack0, app, ack. cbn [bind]. rewrite Hc.
  repeat split; auto.
  destruct ack0 as [b|], app as [a|]; simpl in *;
    try (destruct ack; exact I).
  - destruct (le_lt_dec b a) as [Hle|Hlt].
    + rewrite (Hsame Hle). exact Hle.
    + specialize (Hfix Hlt). destruct ack; simpl in *; [lia|exact I].
  - rewrite (Hsame I). exact I.
Qed.

(** ** Raw slices *)

Lemma firstn_firstn_le {A} (l : list A) i j :
  i <= j -> firstn i (firstn j l) = firstn i l.
Proof. intros H. rewrite firstn_firstn. f_equal. lia. Qed.

Lemma skipn_firstn_slice (content : str) i j :
  skipn i (firstn j content) = slice i j content.
Proof. unfold slice. now rewrite skipn_firstn_comm. Qed.

Lemma skipn_slice_end (content : str) j :
  skipn j content = slice j (length content) content.
Proof.
  unfold slice. rewrite <- (length_skipn j content). now rewrite firstn_all.
Qed.

Lemma slice_0 (content : str) i : slice 0 i content = firstn i content.
Proof. unfold slice. simpl. now rewrite Nat.sub_0_r. Qed.

Lemma slice_empty (content : str) i : slice i i content = [].
Proof. unfold slice. now rewrite Nat.sub_diag. Qed.

Lemma raw_split_concat content ack_start appendix_start :
  let '(main, back, app) := raw_split content ack_start appendix_start in
  main ++ seg back ++ seg app = content.
Proof.
  unfold raw_split, slice_to, slice_from.
  destruct appendix_start as [a|], ack_start as [b|]; simpl;
    try destruct (a <? b); simpl;
    rewrite ?app_nil_r, ?app_assoc, ?firstn_skipn; reflexivity.
Qed.

(** ** Matching in a prefix of the document *)

Section Prefix.

Variable fl : flags.
Variable s : str.
Variable a : nat.
Hypothesis a_le : a <= length s.
Hypothesis a_not_word : word_at s a = false.

Lemma nth_error_prefix i : i < a -> nth_error (firstn a s) i = nth_error s i.
Proof.
  intros Hi. rewrite <- (firstn_skipn a s) at 2.
  rewrite nth_error_app1; [reflexivity|]. rewrite length_firstn. lia.
Qed.

Lemma word_at_prefix i : i <= a -> word_at (firstn a s) i = word_at s i.
Proof.
  intros Hi. unfold word_at. destruct (Nat.eq_dec i a) as [->|Hne].
  - fold (word_at s a). rewrite a_not_word.
    replace (nth_error (firstn a s) a) with (@None ascii); [reflexivity|].
    symmetry. apply nth_error_None. rewrite length_firstn. lia.
  - rewrite nth_error_prefix by lia. reflexivity.
Qed.

Lemma run_firstn c n : forall l, run fl c (firstn n l) <= run fl c l.
Proof.
  induction n as [|n IH]; intros [|x l]; simpl; try lia.
  destruct (cset_match fl c x); [|lia]. specialize (IH l). lia.
Qed.

(** A match found in [s[:a]] is a match in [s]. *)
Lemma ends_prefix r : no_eol r = true ->
  forall p q, p <= a ->
    In q (ends fl (firstn a s) r p) -> In q (ends fl s r p).
Proof.
  induction r as [|c|c lo hi g| | | |r1 IH1 r2 IH2|r1 IH1 r2 IH2];
    intros Hr p q Hp H; simpl in *.
  - exact H.
  - destruct (nth_error (firstn a s) p) as [x|] eqn:E; [|contradiction].
    apply nth_error_firstn_some in E. destruct E as [_ ->]. exact H.
  - apply in_rep_ends in H. apply in_rep_ends.
    destruct H as (k & -> & Hlo & Hrun & Hhi). exists k.
    repeat split; [exact Hlo| |exact Hhi].
    rewrite skipn_firstn_comm in Hrun.
    pose proof (run_firstn c (a - p) (skipn p s)). lia.
  - destruct p as [|p]; [exact H|]. simpl in *.
    rewrite nth_error_prefix in H by lia. exact H.
  - discriminate.
  - unfold at_wordb in *. rewrite word_at_prefix in H by lia.
    destruct p as [|p]; [exact H|].
    rewrite word_at_prefix in H by lia. exact H.
  - apply andb_true_iff in Hr. destruct Hr as [Hr1 Hr2].
    apply in_flat_map in H. destruct H as (m & Hm & Hq).
    apply in_flat_map. exists m. split; [now apply IH1|].
    apply IH2; [exact Hr2| |exact Hq].
    apply ends_bounds in Hm. destruct Hm as [_ Hm].
    rewrite length_firstn in Hm. lia.
  - apply andb_true_iff in Hr. destruct Hr as [Hr1 Hr2].
    apply in_or_app. apply in_app_or in H.
    destruct H as [H|H]; [left; now apply IH1|right; now apply IH2].
Qed.

Lemma re_search_start_prefix r m :
  no_eol r = true ->
  re_search_start fl r (firstn a s) = Some m ->
  exists m', re_search_start fl r s = Some m' /\ m' <= m.
Proof.
  intros Hr H. apply re_search_start_some in H.
  destruct H as (Hm & (q & Hq) & _). rewrite length_firstn in Hm.
  apply (re_search_start_le fl r s m q); [lia|].
  apply ends_prefix; [exact Hr|lia|exact Hq].
Qed.

End Prefix.

Lemma ack_patterns_no_eol : Forall (fun p => no_eol (re p) = true) ack_patterns.
Proof. repeat constructor. Qed.

(** A backmatter heading found in [content[:a]], where [content[a]] is a
    [#], is also found in [content], at the same offset or before. *)
Lemma search_start_prefix p content a m :
  In p ack_patterns ->
  nth_error content a = Some "#"%char ->
  search_start p (slice_to a content) = Some m ->
  m < a /\ exists m', search_start p content = Some m' /\ m' <= m.
Proof.
  intros Hin Ha H. unfold slice_to in *.
  pose proof ack_patterns_heading as Hh. rewrite Forall_forall in Hh.
  pose proof ack_patterns_no_eol as Hn. rewrite Forall_forall in Hn.
  split.
  - eapply search_start_hash in H; [|now apply Hh].
    now apply nth_error_firstn_some in H.
  - unfold search_start in *.
    apply re_search_start_prefix with (a := a); auto.
    + apply Nat.lt_le_incl. apply nth_error_Some. congruence.
    + unfold word_at. rewrite Ha. reflexivity.
Qed.

Lemma research_ack_none content ack_content ps :
  (forall p, In p ps -> search_start p ack_content = None) ->
  research_ack content ack_content ps = Ok None.
Proof.
  induction ps as [|p ps IH]; intros H; simpl; [reflexivity|].
  rewrite (H p (or_introl eq_refl)). apply IH. intros q Hq. apply H. now right.
Qed.

(** When the adjusted backmatter offset lies after the adjusted appendix
    offset, no Backmatter pattern matches before the appendix boundary. *)
Lemma no_backmatter_before_appendix content b a :
  locate_adjusted content = Ok (Some b, Some a) -> a < b ->
  forall p, In p ack_patterns -> search_start p (slice_to a content) = None.
Proof.
  intros Hloc Hlt p Hin.
  destruct (locate_adjusted_spec content)
    as (raw_app & ack & app & _ & Hloc' & Hmb & _ & _ & Hhash).
  rewrite Hloc in Hloc'. injection Hloc' as <- <-. simpl in Hhash.
  destruct (search_start p (slice_to a content)) as [m|] eqn:Em;
    [exfalso|reflexivity].
  apply search_start_prefix in Em; [|assumption..].
  destruct Em as (Hma & m' & Hm' & Hle).
  destruct (category_search ack_patterns content) as [b0|] eqn:Eb0;
    [|contradiction].
  simpl in Hmb. apply category_search_some in Eb0. destruct Eb0 as (_ & Hmin).
  specialize (Hmin p m' Hin Hm'). lia.
Qed.

(** ** The cleanup, in the words of the specification *)

Lemma lstrip_snoc x : is_space x = false ->
  forall l, exists m, lstrip (l ++ [x]) = m ++ [x].
Proof.
  intros Hx. induction l as [|c l IH]; simpl.
  - rewrite Hx. now exists [].
  - destruct (is_space c); [exact IH|]. now exists (c :: l).
Qed.

Lemma strip_cons x l : is_space x = false -> exists m, strip (x :: l) = x :: m.
Proof.
  intros Hx. unfold strip, rstrip. simpl lstrip. rewrite Hx. simpl rev.
  destruct (lstrip_snoc x Hx (rev l)) as (m & ->).
  rewrite rev_app_distr. simpl. eauto.
Qed.

Lemma separator_at_dash fl s p q :
  In q (ends fl s separator_pattern p) -> nth_error s p = Some "-"%char.
Proof.
  unfold separator_pattern, seqs, chars. simpl fold_right. intros H.
  apply in_ends_seq in H. destruct H as (m & Hm & _).
  apply in_ends_seq in Hm. destruct Hm as (m' & Hm' & _).
  cbn [ends] in Hm'. destruct (nth_error s p) as [x|]; [|contradiction].
  destruct (cset_match fl (CChar "-") x) eqn:E; [|contradiction].
  now apply cset_match_dash in E as ->.
Qed.

(** Cleaning keeps the leading [#] of a segment. *)
Lemma clean_hash text : exists m, clean ("#"%char :: text) = "#"%char :: m.
Proof.
  unfold clean. cbn [sub_loop]. simpl negb. simpl andb. cbv iota.
  destruct (search_pos no_flags ("#"%char :: text) separator_pattern 0)
    as [[p q]|] eqn:E.
  - unfold search_pos in E. apply search_from_some in E.
    destruct E as (_ & Hm & _). apply match_at_some in Hm.
    apply separator_at_dash in Hm.
    destruct p as [|p]; [discriminate|].
    simpl. now apply strip_cons.
  - simpl skipn. now apply strip_cons.
Qed.

Lemma lstrip_split l :
  exists w, l = w ++ lstrip l /\ forallb is_space w = true
            /\ match lstrip l with
               | x :: _ => is_space x = false
               | [] => True
               end.
Proof.
  induction l as [|c l IH]; simpl.
  - now exists [].
  - destruct (is_space c) eqn:Ec.
    + destruct IH as (w & Hl & Hw & Hx). exists (c :: w). simpl.
      rewrite Ec, Hw. repeat split; [now f_equal|exact Hx].
    + exists []. simpl. auto.
Qed.

(** [text] is [rstrip text] followed by whitespace, and [rstrip text]
    does not end with whitespace. *)
Lemma rstrip_split text :
  exists w, text = rstrip text ++ w /\ forallb is_space w = true
            /\ (rstrip text = []
                \/ exists u x, rstrip text = u ++ [x] /\ is_space x = false).
Proof.
  unfold rstrip. destruct (lstrip_split (rev text)) as (w & Hl & Hw & Hx).
  exists (rev w). repeat split.
  - rewrite <- rev_app_distr, <- Hl. now rewrite rev_involutive.
  - rewrite forallb_forall in *. intros x Hin. apply Hw. now apply in_rev.
  - destruct (lstrip (rev text)) as [|x l]; [now left|right].
    exists (rev l), x. now split.
Qed.

Lemma run_all fl c l :
  forallb (cset_match fl c) l = true -> run fl c l = length l.
Proof.
  induction l as [|a l IH]; simpl; [reflexivity|].
  intros H. apply andb_true_iff in H. destruct H as [-> H]. now rewrite IH.
Qed.

Lemma run_firstn_all fl c : forall l k,
  k <= run fl c l -> forallb (cset_match fl c) (firstn k l) = true.
Proof.
  induction l as [|a l IH]; intros [|k]; simpl; try reflexivity; try lia.
  destruct (cset_match fl c a); simpl; [|lia]. intros H. apply IH. lia.
Qed.

Lemma hd_error_flat_map {A B} (f : A -> list B) x l y :
  hd_error (f x) = Some y -> hd_error (flat_map f (x :: l)) = Some y.
Proof. simpl. destruct (f x); simpl; [discriminate|auto]. Qed.

Lemma nth_error_skipn_add {A} (l : list A) p i :
  nth_error (skipn p l) i = nth_error l (p + i).
Proof.
  revert l. induction p as [|p IH]; intros [|a l]; simpl; auto.
  now destruct i.
Qed.

Lemma ends_seq_one fl s c r p a :
  nth_error s p = Some a -> cset_match fl c a = true ->
  ends fl s (Seq (One c) r) p = ends fl s r (S p).
Proof.
  intros H1 H2. cbn [ends]. rewrite H1, H2. cbn [flat_map]. apply app_nil_r.
Qed.

Section Separator.

Variable text : str.

Lemma dashes_at p m :
  In m (ends no_flags text (chars "---") p) ->
  m = p + 3 /\ firstn 3 (skipn p text) = lit "---".
Proof.
  unfold chars, seqs. simpl map. simpl fold_right. intros H.
  apply in_ends_seq in H. destruct H as (m1 & H1 & H).
  apply in_ends_seq in H. destruct H as (m2 & H2 & H).
  apply in_ends_seq in H. destruct H as (m3 & H3 & H).
  cbn [ends] in *.
  destruct (nth_error text p) as [x1|] eqn:E1; [|contradiction].
  destruct (cset_match no_flags (CChar "-") x1) eqn:C1; [|contradiction].
  destruct H1 as [<-|[]].
  destruct (nth_error text (S p)) as [x2|] eqn:E2; [|contradiction].
  destruct (cset_match no_flags (CChar "-") x2) eqn:C2; [|contradiction].
  destruct H2 as [<-|[]].
  destruct (nth_error text (S (S p))) as [x3|] eqn:E3; [|contradiction].
  destruct (cset_match no_flags (CChar "-") x3) eqn:C3; [|contradiction].
  destruct H3 as [<-|[]]. destruct H as [<-|[]].
  apply cset_match_dash in C1, C2, C3. subst.
  split; [lia|].
  assert (N0 : nth_error (skipn p text) 0 = Some "-"%char)
    by (rewrite nth_error_skipn_add, Nat.add_0_r; exact E1).
  assert (N1 : nth_error (skipn p text) 1 = Some "-"%char)
    by (rewrite nth_error_skipn_add, Nat.add_1_r; exact E2).
  assert (N2 : nth_error (skipn p text) 2 = Some "-"%char)
    by (rewrite nth_error_skipn_add; replace (p + 2) with (S (S p)) by lia;
        exact E3).
  destruct (skipn p text) as [|y1 [|y2 [|y3 l]]]; simpl in *; try discriminate.
  congruence.
Qed.

Lemma separator_match p q :
  In q (ends no_flags text separator_pattern p) -> separator_at text p.
Proof.
  unfold separator_pattern, seqs. simpl fold_right. intros H.
  apply in_ends_seq in H. destruct H as (m & Hm & H).
  apply dashes_at in Hm. destruct Hm as [-> Hd]. split; [exact Hd|].
  apply in_ends_seq in H. destruct H as (m & Hm & H).
  apply in_rep_ends in Hm. destruct Hm as (k & -> & _ & Hk & _).
  apply in_ends_seq in H. destruct H as (m & Hm & _).
  cbn [ends] in Hm.
  destruct (at_eol no_flags text (p + 3 + k)) eqn:He; [|contradiction].
  clear Hm. set (l := skipn (p + 3) text) in *.
  pose proof (run_firstn_all no_flags CSpace l k Hk) as Hsp.
  change (forallb is_space (firstn k l) = true) in Hsp.
  rewrite <- (firstn_skipn k l). rewrite forallb_app, Hsp. simpl.
  unfold at_eol in He. rewrite <- nth_error_skipn_add in He. fold l in He.
  assert (Hlen : length l = length text - (p + 3))
    by (unfold l; apply length_skipn).
  pose proof (run_le no_flags CSpace l) as Hrl.
  apply orb_true_iff in He. destruct He as [He|He].
  - apply Nat.eqb_eq in He. rewrite skipn_all2 by lia. reflexivity.
  - destruct (nth_error l k) as [x|] eqn:Ex; [|discriminate].
    apply andb_true_iff in He. destruct He as [Hx He].
    cbn [multiline no_flags orb] in He.
    apply Ascii.eqb_eq in Hx. apply Nat.eqb_eq in He. subst x.
    assert (Hk1 : skipn k l = [nl]).
    { assert (Hlk : length (skipn k l) = 1) by (rewrite length_skipn; lia).
      destruct (skipn k l) as [|y [|z r]] eqn:Es; simpl in Hlk; try lia.
      apply nth_error_skipn_0 in Es. congruence. }
    rewrite Hk1. reflexivity.
Qed.

(** Where the separator stands, the pattern matches to the end of the
    text. *)
Lemma separator_match_at p :
  separator_at text p ->
  match_at no_flags text separator_pattern p = Some (length text).
Proof.
  intros [Hd Hw]. unfold match_at, separator_pattern, seqs.
  simpl fold_right.
  assert (Hp : p + 3 <= length text).
  { assert (H : length (firstn 3 (skipn p text)) = 3) by now rewrite Hd.
    rewrite length_firstn, length_skipn in H. lia. }
  assert (E1 : ends no_flags text (chars "---") p = [p + 3]).
  { destruct (skipn p text) as [|y1 [|y2 [|y3 l]]] eqn:Es;
      simpl in Hd; try discriminate.
    injection Hd as -> -> ->.
    pose proof (nth_error_skipn_add text p 0) as N0.
    pose proof (nth_error_skipn_add text p 1) as N1.
    pose proof (nth_error_skipn_add text p 2) as N2.
    rewrite Es in N0, N1, N2. cbn [nth_error] in N0, N1, N2.
    rewrite Nat.add_0_r in N0. rewrite Nat.add_1_r in N1.
    replace (p + 2) with (S (S p)) in N2 by lia.
    unfold chars, seqs. simpl map. simpl fold_right.
    rewrite (ends_seq_one no_flags text _ _ p "-"%char) by auto.
    rewrite (ends_seq_one no_flags text _ _ (S p) "-"%char) by auto.
    rewrite (ends_seq_one no_flags text _ _ (S (S p)) "-"%char) by auto.
    cbn [ends]. f_equal. lia. }
  unfold star. cbn [ends]. rewrite E1. cbn [flat_map]. rewrite app_nil_r.
  unfold rep_ends.
  change (forallb (cset_match no_flags CSpace) (skipn (p + 3) text) = true)
    in Hw.
  rewrite (run_all no_flags CSpace _ Hw).
  rewrite length_skipn. rewrite Nat.sub_0_r.
  rewrite seq_S, rev_app_distr. simpl rev at 1. cbn [app map].
  apply hd_error_flat_map.
  cbn [ends flat_map].
  replace (p + 3 + (length text - (p + 3))) with (length text) by lia.
  unfold at_eol. rewrite Nat.eqb_refl. reflexivity.
Qed.

End Separator.

Lemma lstrip_spaces w l :
  forallb is_space w = true -> lstrip (w ++ l) = lstrip l.
Proof.
  induction w as [|c w IH]; simpl; [reflexivity|].
  intros H. apply andb_true_iff in H. destruct H as [-> H]. now apply IH.
Qed.

(** What [rstrip] returns is determined by any split of the text into a
    part that does not end with whitespace and a run of whitespace. *)
Lemma rstrip_app_spaces u x w :
  is_space x = false -> forallb is_space w = true ->
  rstrip ((u ++ [x]) ++ w) = u ++ [x].
Proof.
  intros Hx Hw. unfold rstrip. rewrite rev_app_distr.
  rewrite lstrip_spaces.
  - rewrite rev_app_distr. simpl. rewrite Hx. simpl.
    now rewrite rev_involutive.
  - rewrite forallb_forall in *. intros y Hy. apply Hw. now apply in_rev.
Qed.

Lemma ends_with_spec suffix s :
  ends_with suffix s = true <-> exists v, s = v ++ suffix.
Proof.
  unfold ends_with. rewrite starts_with_spec. split.
  - intros H. exists (rev (skipn (length (rev suffix)) (rev s))).
    pose proof (firstn_skipn (length (rev suffix)) (rev s)) as E.
    rewrite H in E. apply (f_equal (@rev ascii)) in E.
    rewrite rev_app_distr, !rev_involutive in E. now symmetry.
  - intros [v ->]. rewrite rev_app_distr.
    rewrite firstn_app, Nat.sub_diag, firstn_all. simpl. apply app_nil_r.
Qed.

Lemma separator_split text p :
  separator_at text p ->
  text = (firstn p text ++ lit "---") ++ skipn (p + 3) text.
Proof.
  intros [Hd _]. rewrite <- app_assoc.
  rewrite <- (firstn_skipn p text) at 1. f_equal.
  rewrite <- (firstn_skipn 3 (skipn p text)) at 1. rewrite Hd. f_equal.
  rewrite skipn_skipn. f_equal. lia.
Qed.

(** A separator can only stand at the end of [rstrip text]. *)
Lemma separator_rstrip text p :
  separator_at text p -> rstrip text = firstn p text ++ lit "---".
Proof.
  intros H. pose proof (separator_split text p H) as Hs.
  destruct H as [_ Hw]. rewrite Hs at 1.
  change (firstn p text ++ lit "---")
    with (firstn p text ++ (lit "--" ++ ["-"%char])).
  rewrite (app_assoc (firstn p text)).
  now apply rstrip_app_spaces.
Qed.

Lemma rstrip_separator text v :
  rstrip text = v ++ lit "---" -> separator_at text (length v).
Proof.
  intros Hr. destruct (rstrip_split text) as (w & Ht & Hw & _).
  rewrite Hr in Ht. unfold separator_at. rewrite Ht at 1 2.
  rewrite <- !app_assoc.
  rewrite skipn_app, skipn_all, Nat.sub_diag. simpl skipn at 1.
  split; [reflexivity|].
  rewrite skipn_app, skipn_all2 by lia.
  replace (length v + 3 - length v) with 3 by lia. simpl. exact Hw.
Qed.

Lemma search_pos_first fl s r p0 q0 :
  p0 <= length s ->
  match_at fl s r p0 = Some q0 ->
  (forall p, p < p0 -> match_at fl s r p = None) ->
  search_pos fl s r 0 = Some (p0, q0).
Proof.
  intros Hp Hm Hmin. unfold search_pos.
  destruct (search_from fl s r (length s - 0) 0) as [[m q]|] eqn:E.
  - apply search_from_some in E. destruct E as (Hr & Hq & Hfirst).
    destruct (Nat.lt_trichotomy m p0) as [Hlt|[->|Hgt]].
    + rewrite (Hmin m Hlt) in Hq. discriminate.
    + congruence.
    + rewrite (Hfirst p0) in Hm by lia. discriminate.
  - rewrite (search_from_none fl s r _ _ E p0) in Hm by lia. discriminate.
Qed.

Lemma search_pos_none fl s r pos :
  pos <= length s ->
  (forall p, pos <= p <= length s -> match_at fl s r p = None) ->
  search_pos fl s r pos = None.
Proof.
  intros Hpos H. unfold search_pos.
  destruct (search_from fl s r (length s - pos) pos) as [[m q]|] eqn:E;
    [|reflexivity].
  apply search_from_some in E. destruct E as (Hr & Hq & _).
  rewrite H in Hq by lia. discriminate.
Qed.

Lemma separator_no_match_at_end text :
  match_at no_flags text separator_pattern (length text) = None.
Proof.
  apply match_at_none.
  destruct (ends no_flags text separator_pattern (length text)) as [|q l] eqn:E;
    [reflexivity|].
  assert (H : In q (ends no_flags text separator_pattern (length text)))
    by (rewrite E; now left).
  apply separator_at_dash in H.
  assert (length text < length text) by (apply nth_error_Some; congruence).
  lia.
Qed.

Lemma sub_separator_at_end text fuel n :
  sub_loop no_flags separator_pattern [] text 0 fuel n (length text) = [].
Proof.
  destruct fuel as [|fuel]; cbn [sub_loop]; [apply skipn_all|].
  simpl negb. simpl andb. cbv iota.
  rewrite search_pos_none; [apply skipn_all|lia|].
  intros p Hp. replace p with (length text) by lia.
  apply separator_no_match_at_end.
Qed.

(** The substitution of [cleanup] removes the [---] that ends
    [rstrip text], with the whitespace after it, and nothing else. *)
Lemma sub_separator text :
  sub_loop no_flags separator_pattern [] text 0 (S (length text)) 0 0
  = if ends_with (lit "---") (rstrip text)
    then drop_last 3 (rstrip text)
    else text.
Proof.
  destruct (ends_with (lit "---") (rstrip text)) eqn:E.
  - apply ends_with_spec in E. destruct E as [v Hv].
    pose proof (rstrip_separator text v Hv) as Hsep.
    pose proof (separator_split text (length v) Hsep) as Hsplit.
    assert (Hlen : length v + 3 <= length text).
    { destruct Hsep as [Hd _].
      assert (H : length (firstn 3 (skipn (length v) text)) = 3)
        by now rewrite Hd.
      rewrite length_firstn, length_skipn in H. lia. }
    assert (Hfirst : firstn (length v) text = v).
    { destruct (rstrip_split text) as (w & Ht & _). rewrite Hv in Ht.
      rewrite Ht, <- app_assoc, firstn_app, Nat.sub_diag, firstn_all.
      simpl. apply app_nil_r. }
    assert (Hs : search_pos no_flags text separator_pattern 0
                 = Some (length v, length text)).
    { apply search_pos_first; [lia|now apply separator_match_at|].
      intros p Hp.
      destruct (match_at no_flags text separator_pattern p) as [q|] eqn:Em;
        [exfalso|reflexivity].
      apply match_at_some, separator_match, separator_rstrip in Em.
      rewrite Hv in Em. apply (f_equal (@length ascii)) in Em.
      rewrite !length_app, length_firstn in Em. lia. }
    cbn [sub_loop]. simpl negb. simpl andb. cbv iota. rewrite Hs.
    assert (Eq : (length text =? length v) = false)
      by (apply Nat.eqb_neq; lia).
    rewrite Eq, sub_separator_at_end. simpl skipn. simpl expand.
    rewrite Nat.sub_0_r, app_nil_r, Hfirst.
    unfold drop_last. rewrite Hv, length_app. simpl length.
    replace (length v + 3 - 3) with (length v) by lia.
    rewrite firstn_app, Nat.sub_diag, firstn_all. simpl.
    now rewrite app_nil_r.
  - cbn [sub_loop]. simpl negb. simpl andb. cbv iota.
    rewrite search_pos_none; [reflexivity|lia|].
    intros p _.
    destruct (match_at no_flags text separator_pattern p) as [q|] eqn:Em;
      [exfalso|reflexivity].
    apply match_at_some, separator_match, separator_rstrip in Em.
    assert (Ht : ends_with (lit "---") (rstrip text) = true)
      by (apply ends_with_spec; eauto).
    congruence.
Qed.

(** [cleanup] computes the trimmed text of the specification. *)
Lemma clean_trim_separator text : clean text = trim_separator text.
Proof.
  unfold clean, trim_separator. rewrite sub_separator.
  destruct (ends_with (lit "---") (rstrip text)); reflexivity.
Qed.

(** Cleaning keeps the leading [#] of a segment. *)
Lemma trim_separator_hash text :
  exists m, trim_separator ("#"%char :: text) = "#"%char :: m.
Proof. rewrite <- clean_trim_separator. apply clean_hash. Qed.

(** ** Replacement templates *)

Lemma parse_template_literal : forall repl fuel,
  no_backslash repl -> length repl < fuel ->
  parse_template fuel repl = Ok (map PLit repl).
Proof.
  induction repl as [|c repl IH]; intros [|fuel] Hb Hf; simpl in *;
    try lia; [reflexivity|].
  assert (Hc : c <> "\"%char) by (intros ->; apply Hb; now left).
  assert (Hr : no_backslash repl) by (intros H; apply Hb; now right).
  rewrite (IH fuel Hr) by lia.
  destruct c as [[] [] [] [] [] [] [] []]; try reflexivity.
  exfalso. apply Hc. reflexivity.
Qed.

Lemma expand_literal repl matched : expand (map PLit repl) matched = repl.
Proof.
  unfold expand. induction repl as [|c repl IH]; simpl; [reflexivity|].
  now rewrite IH.
Qed.

(** ** re.sub *)

(** One substitution with a literal replacement, for a pattern that has
    no empty match at its first match. *)
Lemma re_sub_once fl r repl s :
  no_backslash repl ->
  (forall p q, re_search fl r s = Some (p, q) -> p < q) ->
  re_sub fl r repl s 1
  = Ok (match re_search fl r s with
        | Some (p, q) => firstn p s ++ repl ++ skipn q s
        | None => s
        end).
Proof.
  intros Hb Hne. unfold re_sub.
  rewrite parse_template_literal by (auto; lia). cbn [bind]. f_equal.
  unfold re_search in *. cbn [sub_loop]. simpl negb. simpl andb.
  destruct (search_pos fl s r 0) as [[p q]|]; [|reflexivity].
  specialize (Hne p q eq_refl).
  rewrite expand_literal. simpl skipn. rewrite Nat.sub_0_r.
  assert (E : (q =? p) = false) by (apply Nat.eqb_neq; lia). rewrite E.
  destruct (length s); reflexivity.
Qed.

Lemma cleanup_ok text : cleanup text = Ok (trim_separator text).
Proof. rewrite <- clean_trim_separator. reflexivity. Qed.

Lemma cleanup_opt_ok segment :
  cleanup_opt segment
  = Ok (match segment with
        | Some (c :: text) => Some (trim_separator (c :: text))
        | _ => segment
        end).
Proof.
  destruct segment as [[|c text]|]; try reflexivity.
  cbn [cleanup_opt]. now rewrite cleanup_ok.
Qed.

Lemma clean_segments_ok main back app :
  clean_segments (main, back, app)
  = Ok (trim_separator main,
        match back with
        | Some (c :: text) => Some (trim_separator (c :: text))
        | _ => back
        end,
        match app with
        | Some (c :: text) => Some (trim_separator (c :: text))
        | _ => app
        end).
Proof.
  unfold clean_segments. rewrite cleanup_ok. cbn [bind].
  rewrite !cleanup_opt_ok. reflexivity.
Qed.


(** ** The labelled segments *)

Lemma labelled_segments_any content ack app title :
  labelled_segments content ack app title
  = let '(main, back, appx) := raw_split content ack app in
    Ok (trim_separator main,
        add_header title "Backmatter"
          match back with
          | Some (c :: text) => Some (trim_separator (c :: text))
          | _ => back
          end,
        add_header title "Appendix"
          match appx with
          | Some (c :: text) => Some (trim_separator (c :: text))
          | _ => appx
          end).
Proof.
  unfold labelled_segments.
  destruct (raw_split content ack app) as [[main back] appx].
  rewrite clean_segments_ok. reflexivity.
Qed.

(** The text built by the f-strings of lines 217 and 219 is the heading,
    line by line, followed by the segment. *)
Lemma with_header_heading_text title label text :
  with_header title label text = heading_text title label ++ text.
Proof.
  unfold with_header, heading_text. cbn [map concat].
  repeat rewrite <- app_assoc. reflexivity.
Qed.

(** A segment that starts with [#] is emitted under its heading. *)
Lemma add_header_hash title label segment :
  match segment with
  | Some (c :: _) => c = "#"%char
  | _ => True
  end ->
  add_header title label
    match segment with
    | Some (c :: text) => Some (trim_separator (c :: text))
    | _ => segment
    end
  = labelled title label segment
  /\ written (labelled title label segment) = emitted title label segment.
Proof.
  destruct segment as [[|c text]|]; cbn [add_header labelled emitted]; auto.
  intros Hc. subst c. destruct (trim_separator_hash text) as (m & Hm).
  unfold written, truthy. rewrite Hm. cbn [add_header].
  rewrite with_header_heading_text. split; reflexivity.
Qed.

(** The raw backmatter and appendix slices at located boundaries are
    absent, empty, or start with [#]. *)
Lemma raw_split_hash content ack app :
  at_hash content ack -> at_hash content app ->
  let '(_, back, appx) := raw_split content ack app in
  match back with Some (c :: _) => c = "#"%char | _ => True end
  /\ match appx with Some (c :: _) => c = "#"%char | _ => True end.
Proof.
  intros Hack Happ. unfold raw_split, slice_to, slice_from.
  assert (Hskip : forall (s : str) n c l x,
             nth_error s n = Some x -> skipn n s = c :: l -> c = x).
  { intros s n c l x Hn Hs. apply nth_error_skipn_0 in Hs. congruence. }
  assert (Hskipf : forall (s : str) n k c l x,
             nth_error s n = Some x -> skipn n (firstn k s) = c :: l -> c = x).
  { intros s n k c l x Hn Hs. apply nth_error_skipn_0 in Hs.
    apply nth_error_firstn_some in Hs. destruct Hs. congruence. }
  destruct app as [a|], ack as [b|]; simpl in *;
    try destruct (a <? b); simpl; split; trivial;
    match goal with
    | |- match ?s with _ => _ end => destruct s eqn:Es; eauto
    end.
Qed.

(** ** The assembled files *)

Lemma written_add_header title label segment :
  written (add_header title label
             match segment with
             | Some (c :: text) => Some (trim_separator (c :: text))
             | _ => segment
             end)
  = match seg_clean segment with
    | [] => None
    | c :: text => Some (with_header title label (c :: text))
    end.
Proof.
  destruct segment as [[|c text]|]; cbn [seg_clean]; try reflexivity.
  destruct (trim_separator (c :: text)); reflexivity.
Qed.

(** [assemble] at any pair of boundaries: it raises exactly when the
    substitution of line 222 does. *)
Lemma assemble_any content ack app title :
  assemble content ack app title
  = let '(main, back, appx) := raw_split content ack app in
    main' <- retitle title (trim_separator main) ;;
    Ok {| main_file := main';
          backmatter_file :=
            match seg_clean back with
            | [] => None
            | c :: text => Some (with_header title "Backmatter" (c :: text))
            end;
          appendix_file :=
            match seg_clean appx with
            | [] => None
            | c :: text => Some (with_header title "Appendix" (c :: text))
            end |}.
Proof.
  unfold assemble. rewrite labelled_segments_any.
  destruct (raw_split content ack app) as [[main back] appx].
  cbn [bind]. destruct (retitle title (trim_separator main)) as [main'|e];
    [|reflexivity].
  cbn [bind write_files]. now rewrite !written_add_header.
Qed.

Lemma h1_match_nonempty s p q :
  re_search MULTILINE h1_pattern s = Some (p, q) -> p < q.
Proof.
  unfold re_search, search_pos. intros H. apply search_from_some in H.
  destruct H as (_ & H & _). apply match_at_some in H.
  unfold h1_pattern, seqs, chars in H. simpl fold_right in H.
  apply in_ends_seq in H. destruct H as (m & Hm & H).
  apply ends_bounds in Hm. destruct Hm as [Hm _].
  apply in_ends_seq in H. destruct H as (m1 & Hm1 & H).
  apply ends_bounds in H. destruct H as [H _].
  apply in_ends_seq in Hm1. destruct Hm1 as (m2 & Hm2 & Hm1).
  apply ends_bounds in Hm1. destruct Hm1 as [Hm1 _].
  cbn [ends] in Hm2. destruct (nth_error s m); [|contradiction].
  destruct (cset_match MULTILINE (CChar "#") a); [|contradiction].
  destruct Hm2 as [<-|[]]. lia.
Qed.

(** With a title free of backslashes the substitution of line 222 never
    raises and replaces the first level-1 heading line. *)
Lemma retitle_ok title main :
  no_backslash title -> retitle title main = Ok (retitled title main).
Proof.
  intros Hb. unfold retitle, retitled. rewrite re_sub_once.
  - destruct (re_search MULTILINE h1_pattern main) as [[p q]|];
      [|reflexivity].
    now rewrite <- app_assoc.
  - intros [H|[H|H]]; [discriminate..|]. now apply Hb.
  - apply h1_match_nonempty.
Qed.

Lemma no_match_boundaries content :
  (forall p, In p (ack_patterns ++ appendix_patterns) ->
             search_start p content = None) ->
  find_section_boundaries content = Ok (None, None).
Proof.
  intros H.
  assert (Ea : category_search ack_patterns content = None).
  { apply category_search_none_iff. intros p Hp. apply H.
    apply in_or_app. now left. }
  assert (Eb : category_search appendix_patterns content = None).
  { apply category_search_none_iff. intros p Hp. apply H.
    apply in_or_app. now right. }
  unfold find_section_boundaries, locate_adjusted. rewrite Ea.
  unfold find_appendix. rewrite for_each_appendix_unguarded.
  fold (category_search appendix_patterns content). rewrite Eb. reflexivity.
Qed.

(** The locator never raises, and with a title free of backslashes
    neither does the assembler. *)
Lemma split_paper_core_total content :
  no_backslash (extract_title content) ->
  exists out, split_paper_core content = Ok out.
Proof.
  intros Hb. unfold split_paper_core.
  destruct (find_section_boundaries_spec content)
    as (ack0 & app & ack & _ & -> & _).
  cbn [bind]. rewrite assemble_any.
  destruct (raw_split content ack app) as [[main back] appx].
  rewrite retitle_ok by exact Hb. cbn [bind]. eauto.
Qed.

(** ** Lines and their offsets *)

Lemma split_nl_app_nl s1 s2 :
  split_nl (s1 ++ nl :: s2) = split_nl s1 ++ split_nl s2.
Proof.
  induction s1 as [|c s1 IH]; simpl; [reflexivity|].
  destruct (Ascii.eqb c nl); [now rewrite IH|].
  rewrite IH. pose proof (split_nl_length s1) as Hl.
  destruct (split_nl s1); simpl in *; [lia|reflexivity].
Qed.

Lemma firstn_S_nth {A} (l : list A) : forall n x,
  nth_error l n = Some x -> firstn (S n) l = firstn n l ++ [x].
Proof.
  induction l as [|a l IH]; intros [|n] x; simpl; try discriminate.
  - now intros [= ->].
  - intros H. f_equal. now apply IH.
Qed.

(** The text before an offset that starts a line splits into complete
    lines followed by the empty string. *)
Lemma split_nl_before_line_start content b :
  at_bol MULTILINE content b = true ->
  exists ls, split_nl (firstn b content) = ls ++ [[]].
Proof.
  destruct b as [|b]; unfold at_bol; cbn [multiline MULTILINE andb].
  - intros _. now exists [].
  - destruct (nth_error content b) as [x|] eqn:E; [|discriminate].
    intros Hx. apply Ascii.eqb_eq in Hx. subst x.
    rewrite (firstn_S_nth content b nl E).
    exists (split_nl (firstn b content)).
    now rewrite split_nl_app_nl.
Qed.

(** Line [j] occurs at its start offset. *)
Lemma split_nl_occurs : forall s j line,
  nth_error (split_nl s) j = Some line ->
  starts_with line (skipn (line_start (split_nl s) j) s) = true.
Proof.
  induction s as [|c s IH]; intros j line; simpl.
  - destruct j as [|[|j]]; simpl; try discriminate. now intros [= <-].
  - destruct (Ascii.eqb c nl) eqn:Ec.
    + destruct j as [|j]; simpl; [now intros [= <-]|]. apply IH.
    + destruct (split_nl s) as [|l ls] eqn:Es.
      * pose proof (split_nl_length s) as Hl. rewrite Es in Hl.
        simpl in Hl. lia.
      * destruct j as [|j]; cbn [nth_error line_start].
        -- intros [= <-]. cbn [skipn starts_with].
           rewrite Ascii.eqb_refl. exact (IH 0 l eq_refl).
        -- intros H. specialize (IH (S j) line H).
           cbn [line_start] in IH. exact IH.
Qed.

Lemma starts_with_length sub l :
  starts_with sub l = true -> length sub <= length l.
Proof.
  revert l. induction sub as [|a sub IH]; intros [|b l]; simpl;
    try lia; try discriminate.
  intros H. apply andb_true_iff in H. destruct H as [_ H].
  apply IH in H. lia.
Qed.

(** [rfind] finds the last occurrence. *)
Lemma rfind_last s sub p :
  sub <> [] ->
  starts_with sub (skipn p s) = true ->
  occurs_after sub s p = false ->
  rfind s sub = Some p.
Proof.
  intros Hne Hocc Hlast.
  assert (Hp : p + length sub <= length s).
  { apply starts_with_length in Hocc. rewrite length_skipn in Hocc.
    destruct sub; [congruence|]. simpl in *. lia. }
  unfold rfind. destruct (rfind_from s sub (length s - length sub))
    as [p'|] eqn:E.
  - apply rfind_from_some in E. destruct E as (Hle & Hs & Hmax).
    destruct (Nat.lt_trichotomy p p') as [Hlt|[->|Hgt]]; [|reflexivity|].
    + exfalso. unfold occurs_after in Hlast.
      assert (Hin : In p' (seq (S p) (length s - p))) by (apply in_seq; lia).
      assert (Hex : existsb (fun q => starts_with sub (skipn q s))
                      (seq (S p) (length s - p)) = true)
        by (apply existsb_exists; eauto).
      congruence.
    + rewrite (Hmax p) in Hocc by lia. discriminate.
  - rewrite (rfind_from_none s sub _ E p) in Hocc by lia. discriminate.
Qed.

(** ** The scan for a page marker *)

Lemma range_down_split hi lo j :
  lo < j <= hi ->
  range_down hi lo = range_down hi j ++ j :: range_down (j - 1) lo.
Proof.
  intros H. unfold range_down.
  replace (hi - lo) with ((j - 1 - lo) + (1 + (hi - j))) by lia.
  rewrite seq_app, rev_app_distr.
  replace (S lo + (j - 1 - lo)) with j by lia.
  rewrite seq_app. simpl seq at 2. rewrite rev_app_distr. simpl rev at 2.
  replace (j + 1) with (S j) by lia.
  rewrite <- app_assoc. reflexivity.
Qed.

Lemma scan_lines_skip before lines start rest : forall pre,
  (forall i, In i pre -> i < length lines /\ is_marker lines i = false) ->
  scan_lines before lines (pre ++ rest) start
  = scan_lines before lines rest start.
Proof.
  induction pre as [|i pre IH]; intros H; simpl; [reflexivity|].
  destruct (H i (or_introl eq_refl)) as [Hi Hm]. unfold is_marker in Hm.
  destruct (nth_error lines i) as [line|] eqn:E.
  - rewrite Hm. apply IH. intros k Hk. apply H. now right.
  - apply nth_error_None in E. lia.
Qed.

Lemma empty_line_no_marker : re_match IGNORECASE page_marker_pattern [] = false.
Proof. reflexivity. Qed.

Lemma is_marker_last ls : is_marker (ls ++ [[]]) (length ls) = false.
Proof.
  unfold is_marker. rewrite nth_error_app2 by lia. rewrite Nat.sub_diag.
  reflexivity.
Qed.

(** A heading pattern matches at the start of a line. *)
Lemma search_start_bol p content b :
  is_heading p -> search_start p content = Some b ->
  at_bol MULTILINE content b = true.
Proof.
  intros [body Hb] H. unfold search_start in H. rewrite Hb in H.
  apply re_search_start_some in H. destruct H as (_ & (q & Hq) & _).
  unfold heading in Hq. apply in_ends_seq in Hq.
  destruct Hq as (m & Hm & _). cbn [ends] in Hm.
  destruct (at_bol MULTILINE_IGNORECASE content b) eqn:E; [|contradiction].
  exact E.
Qed.

(** * Worked examples *)

Example three_regions_boundaries :
  find_section_boundaries doc_three_regions = Ok (Some 0, Some 29).
Proof. vm_compute. reflexivity. Qed.

Example three_regions_files :
  split_paper_core doc_three_regions
  = Ok {| main_file := [];
          backmatter_file :=
            Some (lit "# Untitled_Paper - Backmatter" ++ [nl; nl]
                  ++ lit "---" ++ [nl; nl]
                  ++ lit "## Acknowledgments" ++ [nl] ++ lit "Thanks...");
          appendix_file :=
            Some (lit "# Untitled_Paper - Appendix" ++ [nl; nl]
                  ++ lit "---" ++ [nl; nl]
                  ++ lit "## Appendix" ++ [nl] ++ lit "More text") |}.
Proof. vm_compute. reflexivity. Qed.

Example marker_before_ack_absorbed :
  find_section_boundaries doc_marker_before_ack = Ok (Some 6, None)
  /\ line_start (split_nl doc_marker_before_ack) 1 = 6.
Proof. split; vm_compute; reflexivity. Qed.

Example title_and_funding_files :
  split_paper_core doc_title_and_funding
  = Ok {| main_file := lit "# My Paper" ++ [nl] ++ lit "Text";
          backmatter_file :=
            Some (lit "# My Paper - Backmatter" ++ [nl; nl]
                  ++ lit "---" ++ [nl; nl]
                  ++ lit "## Funding" ++ [nl] ++ lit "Grant 1");
          appendix_file := None |}.
Proof. vm_compute. reflexivity. Qed.

(** The scan stops above index 0: a page marker on the first line of the
    document is not absorbed. *)
Example marker_on_first_line_not_absorbed :
  find_section_boundaries doc_marker_first_line = Ok (Some 11, None).
Proof. vm_compute. reflexivity. Qed.

(** [rfind] looks for the text of the marker line: when that text occurs
    again later, the boundary lands there, inside a line. *)
Example marker_text_found_inside_line :
  absorb_page_marker doc_marker_recurs 27 = Ok 17
  /\ line_start (split_nl (slice_to 27 doc_marker_recurs)) 1 = 2.
Proof. split; vm_compute; reflexivity. Qed.

(** A slice that the cleanup empties is not emitted. *)
Example emptied_segment_not_emitted :
  assemble (lit "ab---") (Some 2) None (lit "T")
  = Ok {| main_file := lit "ab";
          backmatter_file := None;
          appendix_file := None |}.
Proof. vm_compute. reflexivity. Qed.

(** No line of [doc_heading_across_lines] matches a Backmatter or
    Appendix pattern, yet a Backmatter pattern matches the document: its
    whitespace runs across the line break, and a backmatter file is
    written. *)
Example heading_across_lines_located :
  (forall line p, In line (split_nl doc_heading_across_lines) ->
                  In p (ack_patterns ++ appendix_patterns) ->
                  search_start p line = None)
  /\ find_section_boundaries doc_heading_across_lines = Ok (Some 0, None)
  /\ exists out, split_paper_core doc_heading_across_lines = Ok out
                 /\ main_file out = []
                 /\ backmatter_file out
                    = Some (lines_of ["# Untitled_Paper - Backmatter";
                                      EmptyString; "---"; EmptyString; "#"]
                            ++ lit "Funding").
Proof.
  split; [|split].
  - intros line p Hl Hp. apply in_app_or in Hp.
    destruct Hl as [<-|[<-|[]]];
      (destruct Hp as [Hp|Hp]; revert p Hp; apply category_search_none;
       vm_compute; reflexivity).
  - vm_compute. reflexivity.
  - eexists. split; [vm_compute; reflexivity|].
    split; vm_compute; reflexivity.
Qed.

(** * The claims *)

Lemma doc_lone_A_generic_match :
  (forall q, In q ack_patterns -> search_start q doc_lone_A = None)
  /\ In pat_A_space appendix_patterns
  /\ is_generic pat_A_space = true
  /\ search_start pat_A_space doc_lone_A = Some 0.
Proof.
  split; [apply category_search_none; vm_compute; reflexivity|].
  split; [simpl; tauto|]. split; vm_compute; reflexivity.
Qed.

(** C1, as stated, fails: in [doc_lone_A] no Backmatter pattern matches,
    the generic pattern [^#+\s+A\s+] matches at offset 0, and that match
    is reported as the appendix boundary. *)
Lemma generic_heading_not_skipped_counterexample :
  (forall q, In q ack_patterns -> search_start q doc_lone_A = None)
  /\ search_start pat_A_space doc_lone_A = Some 0
  /\ find_section_boundaries doc_lone_A = Ok (None, Some 0).
Proof.
  split; [apply doc_lone_A_generic_match|].
  split; vm_compute; reflexivity.
Qed.

(** C1, amended: when no Backmatter pattern matches, the two generic
    Appendix patterns take part in the candidate search like the other
    five (the candidate is the leftmost first match among all seven), so
    a heading that matches a generic pattern yields an appendix boundary
    at or before that heading, and no backmatter boundary. *)
Theorem generic_heading_reported_without_backmatter content p m :
  (forall q, In q ack_patterns -> search_start q content = None) ->
  In p appendix_patterns ->
  is_generic p = true ->
  search_start p content = Some m ->
  find_appendix content None = Ok (category_search appendix_patterns content)
  /\ exists a, find_section_boundaries content = Ok (None, Some a)
               /\ a <= m /\ nth_error content a = Some "#"%char.
Proof.
  intros Hack Hin _ Hm.
  assert (Eack : category_search ack_patterns content = None)
    by now apply category_search_none_iff.
  assert (Eapp : find_appendix content None
                 = Ok (category_search appendix_patterns content))
    by apply for_each_appendix_unguarded.
  split; [exact Eapp|].
  destruct (locate_adjusted_spec content)
    as (raw_app & ack & app & Hraw & Hloc & Hmb1 & Hmb2 & _ & Hhash).
  rewrite Eack in Hraw, Hmb1. rewrite Eapp in Hraw. injection Hraw as <-.
  destruct ack as [b|]; [contradiction|].
  destruct (category_search appendix_patterns content) as [a0|] eqn:Ea0.
  - apply category_search_some in Ea0. destruct Ea0 as (_ & Hmin).
    specialize (Hmin p m Hin Hm).
    destruct app as [a|]; [|contradiction]. simpl in Hmb2, Hhash.
    exists a. unfold find_section_boundaries. rewrite Hloc.
    repeat split; [lia|exact Hhash].
  - rewrite (category_search_none _ _ Ea0 p Hin) in Hm. discriminate.
Qed.

Lemma generic_heading_reported_witness :
  find_appendix doc_lone_A None = Ok (category_search appendix_patterns doc_lone_A)
  /\ exists a, find_section_boundaries doc_lone_A = Ok (None, Some a)
               /\ a <= 0 /\ nth_error doc_lone_A a = Some "#"%char.
Proof.
  apply (generic_heading_reported_without_backmatter
           doc_lone_A pat_A_space 0).
  - apply category_search_none. vm_compute. reflexivity.
  - simpl. tauto.
  - vm_compute. reflexivity.
  - vm_compute. reflexivity.
Defined.

(** C2, as stated, fails: in [doc_shared_marker] both headings absorb the
    same page-marker line, and the two offsets returned are equal. *)
Lemma boundaries_strict_order_counterexample :
  exists b a,
    find_section_boundaries doc_shared_marker = Ok (Some b, Some a)
    /\ ~ b < a.
Proof. exists 2, 2. split; [vm_compute; reflexivity|lia]. Qed.

(** C2, amended: for every document, each offset returned by
    [find_section_boundaries], if present, lies in [0, len(document)),
    and whenever both are present [backmatter_start <= appendix_start]
    (they are equal when both headings absorb the same page marker). *)
Theorem boundaries_in_document_and_ordered content :
  match find_section_boundaries content with
  | Ok (ack_start, appendix_start) =>
      in_doc content ack_start /\ in_doc content appendix_start
      /\ ordered ack_start appendix_start
  | Raise _ => False
  end.
Proof.
  destruct (find_section_boundaries_spec content)
    as (ack0 & app & ack & _ & -> & Hack & Happ & Hord).
  auto using at_hash_in_doc.
Qed.

(** C6: the ordering-conflict correction (lines 126-145, with its
    page-marker re-absorption) is idempotent: applied to the pair that one
    application produced, from any document and any pair, it returns that
    pair unchanged. *)
Theorem correct_order_idempotent content pair :
  (pair' <- correct_order content pair ;; correct_order content pair')
  = correct_order content pair.
Proof.
  destruct pair as [ack app].
  destruct (correct_order_spec content ack app)
    as (ack' & Hc & Hsame & _ & Hfix).
  rewrite Hc. cbn [bind].
  destruct (correct_order_spec content ack' app)
    as (ack'' & Hc' & Hsame' & _ & _).
  rewrite Hc'. rewrite Hsame'; [reflexivity|].
  destruct ack as [b|], app as [a|];
    try (rewrite (Hsame I); exact I); try (destruct ack'; exact I).
  destruct (le_lt_dec b a) as [Hle|Hlt].
  - rewrite (Hsame Hle). exact Hle.
  - specialize (Hfix Hlt). destruct ack'; simpl in *; [lia|exact I].
Qed.

(** C10: for every document, the raw slices that [split_paper] takes at
    the boundaries returned by [find_section_boundaries] (lines 187-206,
    before any cleanup) are consecutive intervals [0,i), [i,j), [j,len) of
    the document, hence non-overlapping and in document order, and their
    concatenation is the document; an absent segment counts as empty. *)
Theorem raw_slices_partition content :
  match find_section_boundaries content with
  | Ok (ack_start, appendix_start) =>
      let '(main, back, app) := raw_split content ack_start appendix_start in
      (exists i j,
          i <= j <= length content
          /\ main = slice 0 i content
          /\ seg back = slice i j content
          /\ seg app = slice j (length content) content)
      /\ main ++ seg back ++ seg app = content
  | Raise _ => False
  end.
Proof.
  destruct (find_section_boundaries_spec content)
    as (ack0 & app & ack & _ & -> & Hack & Happ & Hord).
  apply at_hash_in_doc in Hack, Happ.
  pose proof (raw_split_concat content ack app) as Hcat.
  destruct (raw_split content ack app) as [[main back] appx] eqn:E.
  split; [|exact Hcat].
  unfold raw_split, slice_to, slice_from in E.
  destruct app as [a|], ack as [b|]; simpl in *.
  - assert (Hab : (a <? b) = false) by (apply Nat.ltb_ge; lia).
    rewrite Hab in E. injection E as <- <- <-. exists b, a.
    rewrite firstn_firstn_le by lia. rewrite skipn_firstn_slice, slice_0.
    repeat split; try lia. apply skipn_slice_end.
  - injection E as <- <- <-. exists a, a.
    rewrite slice_0, slice_empty.
    repeat split; try lia. apply skipn_slice_end.
  - injection E as <- <- <-. exists b, (length content).
    rewrite slice_0, slice_empty.
    repeat split; try lia. apply skipn_slice_end.
  - injection E as <- <- <-. exists (length content), (length content).
    rewrite slice_0, slice_empty, firstn_all. repeat split; lia.
Qed.

(** C3: for every document in which the located (page-marker-adjusted)
    backmatter offset exceeds the located appendix offset, the corrected
    backmatter boundary is the result of the Backmatter category search
    (the least start offset among the first matches of all Backmatter
    patterns, [None] if none matches) on [document[:appendix_start]]. *)
Theorem correction_is_category_search content b a :
  locate_adjusted content = Ok (Some b, Some a) ->
  a < b ->
  find_section_boundaries content
  = Ok (category_search ack_patterns (slice_to a content), Some a).
Proof.
  intros Hloc Hlt.
  pose proof (no_backmatter_before_appendix _ _ _ Hloc Hlt) as Hnone.
  unfold find_section_boundaries. rewrite Hloc. cbn [bind].
  unfold correct_order.
  assert (E : (a <? b) = true) by now apply Nat.ltb_lt.
  rewrite E. rewrite (research_ack_none _ _ _ Hnone). cbn [bind].
  apply category_search_none_iff in Hnone. rewrite Hnone. reflexivity.
Qed.

Lemma correction_is_category_search_witness :
  find_section_boundaries doc_ack_in_appendix
  = Ok (category_search ack_patterns (slice_to 0 doc_ack_in_appendix), Some 0).
Proof.
  apply (correction_is_category_search doc_ack_in_appendix 12 0).
  - vm_compute. reflexivity.
  - lia.
Defined.

(** C5, as stated, fails: [doc_title_blank] has no Backmatter or Appendix
    heading, yet its main segment is not the trimmed input, because the
    first level-1 heading line is rewritten from the extracted title. *)
Lemma main_is_trimmed_input_counterexample :
  (forall p, In p (ack_patterns ++ appendix_patterns) ->
             search_start p doc_title_blank = None)
  /\ exists out, split_paper_core doc_title_blank = Ok out
                 /\ main_file out <> trim_separator doc_title_blank.
Proof.
  split.
  - intros p Hp. apply in_app_or in Hp.
    destruct Hp as [Hp|Hp]; revert p Hp; apply category_search_none;
      vm_compute; reflexivity.
  - eexists. split; [vm_compute; reflexivity|].
    vm_compute. discriminate.
Qed.

(** C5, amended: for every document in which no Backmatter pattern and
    no Appendix pattern matches, each pattern being searched in the
    document as a whole, as the code does (the whitespace of a pattern
    may run across a line break, see [heading_across_lines_located]),
    [find_section_boundaries] returns [(None, None)] and, for a title
    without backslash, assembly produces exactly one segment, the main
    segment, equal to the trimmed input in which the first level-1
    heading line, if any, is replaced by ["# " ++ title]; there is no
    backmatter or appendix segment. *)
Theorem no_headings_main_only content title :
  (forall p, In p (ack_patterns ++ appendix_patterns) ->
             search_start p content = None) ->
  no_backslash title ->
  find_section_boundaries content = Ok (None, None)
  /\ assemble content None None title
     = Ok {| main_file := retitled title (trim_separator content);
             backmatter_file := None;
             appendix_file := None |}.
Proof.
  intros Hnone Hb. split; [now apply no_match_boundaries|].
  rewrite assemble_any. cbn [raw_split seg_clean].
  rewrite retitle_ok by exact Hb. reflexivity.
Qed.

Lemma no_headings_main_only_witness :
  find_section_boundaries doc_title_blank = Ok (None, None)
  /\ assemble doc_title_blank None None (lit "T")
     = Ok {| main_file := retitled (lit "T") (trim_separator doc_title_blank);
             backmatter_file := None;
             appendix_file := None |}.
Proof.
  apply (no_headings_main_only doc_title_blank (lit "T")).
  - intros p Hp. apply in_app_or in Hp.
    destruct Hp as [Hp|Hp]; revert p Hp; apply category_search_none;
      vm_compute; reflexivity.
  - intros [H|[]]. discriminate.
Defined.

(** C7 fails on the code: on [doc_title_backslash] the extracted title is
    [Chapter\1], the replacement template of line 222 refers to a group
    that the pattern does not have, and [re.sub] raises. *)
Theorem core_raises_on_backslash_title :
  extract_title doc_title_backslash = lit "Chapter\1"
  /\ split_paper_core doc_title_backslash = Raise TemplateError.
Proof. split; vm_compute; reflexivity. Qed.

(** C8, as stated, fails: for [doc_double_separator], whose backmatter
    segment ends with [------], lines 208-219 remove the last three
    dashes only and put a blank line after the [---] line of the heading;
    the claim has the whole run trimmed and the segment right after the
    [---] line. *)
Lemma segment_trailing_run_counterexample :
  find_section_boundaries doc_double_separator = Ok (Some 0, None)
  /\ raw_split doc_double_separator (Some 0) None
     = ([], Some doc_double_separator, None)
  /\ labelled_segments doc_double_separator (Some 0) None (lit "T")
     = Ok ([],
           Some (lines_of ["# T - Backmatter"; EmptyString; "---";
                           EmptyString; "## Funding"; "Grant 1"]
                 ++ lit "---"),
           None)
  /\ claimed_segment (lit "T") "Backmatter" doc_double_separator
     = lines_of ["# T - Backmatter"; EmptyString; "---"; "## Funding"]
       ++ lit "Grant 1"
  /\ labelled_segments doc_double_separator (Some 0) None (lit "T")
     <> Ok ([],
            Some (claimed_segment (lit "T") "Backmatter"
                    doc_double_separator),
            None).
Proof.
  repeat split; try (vm_compute; reflexivity).
  vm_compute. discriminate.
Qed.

(** C8, amended: for every document and every title, each non-empty
    backmatter or appendix slice taken at the located boundaries comes
    out of lines 208-219 as the heading line ["# <title> - Backmatter"]
    (respectively [Appendix]), a blank line, a [---] line and a further
    blank line, followed by the slice with one trailing [---] (three
    dashes, no more) and the surrounding whitespace trimmed; this is the
    text written for it. *)
Theorem segments_cleaned_and_labelled content title :
  match find_section_boundaries content with
  | Ok (ack_start, appendix_start) =>
      let '(main, back, app) := raw_split content ack_start appendix_start in
      labelled_segments content ack_start appendix_start title
      = Ok (trim_separator main,
            labelled title "Backmatter" back,
            labelled title "Appendix" app)
      /\ written (labelled title "Backmatter" back)
         = emitted title "Backmatter" back
      /\ written (labelled title "Appendix" app)
         = emitted title "Appendix" app
  | Raise _ => False
  end.
Proof.
  destruct (find_section_boundaries_spec content)
    as (ack0 & app & ack & _ & -> & Hack & Happ & _).
  pose proof (raw_split_hash content ack app Hack Happ) as Hh.
  rewrite labelled_segments_any.
  destruct (raw_split content ack app) as [[main back] appx].
  destruct Hh as [Hb Ha].
  destruct (add_header_hash title "Backmatter" back Hb) as [Eb Wb].
  destruct (add_header_hash title "Appendix" appx Ha) as [Ea Wa].
  repeat split; try assumption.
  f_equal. f_equal; [f_equal|]; assumption.
Qed.

(** C9, as stated, fails: the main file is written whatever its text;
    for [doc_appendix_only] it is written empty. *)
Lemma main_emitted_empty_counterexample :
  exists out, split_paper_core doc_appendix_only = Ok out
              /\ main_file out = [].
Proof. eexists. split; vm_compute; reflexivity. Qed.

(** C9, amended: for every document, boundary pair and title, no emitted
    backmatter or appendix segment is empty: a backmatter or appendix
    segment whose slice is empty after cleanup is absent, and any other
    is emitted under its heading.  The main segment is emitted always,
    even when it is empty. *)
Theorem no_empty_backmatter_or_appendix content ack_start appendix_start title :
  match assemble content ack_start appendix_start title with
  | Ok out =>
      let '(_, back, app) := raw_split content ack_start appendix_start in
      backmatter_file out
      = match seg_clean back with
        | [] => None
        | c :: text => Some (with_header title "Backmatter" (c :: text))
        end
      /\ appendix_file out
         = match seg_clean app with
           | [] => None
           | c :: text => Some (with_header title "Appendix" (c :: text))
           end
      /\ backmatter_file out <> Some [] /\ appendix_file out <> Some []
  | Raise _ => True
  end.
Proof.
  rewrite assemble_any.
  destruct (raw_split content ack_start appendix_start) as [[main back] app].
  destruct (retitle title (trim_separator main)) as [main'|e]; cbn [bind];
    [|exact I].
  cbn [backmatter_file appendix_file].
  destruct (seg_clean back), (seg_clean app); repeat split; discriminate.
Qed.

(** C4, as stated, fails: in [doc_marker_four_up] the Backmatter boundary
    is located at offset 16, on line 5; line 1, four lines above, is a
    page marker that starts at offset 2; the boundary stays at 16. *)
Lemma page_marker_window_counterexample :
  category_search ack_patterns doc_marker_four_up = Some 16
  /\ (let lines := split_nl (slice_to 16 doc_marker_four_up) in
      length lines - 1 = 5
      /\ is_marker lines (5 - 4) = true
      /\ line_start lines (5 - 4) = 2)
  /\ absorb_page_marker doc_marker_four_up 16 = Ok 16
  /\ find_section_boundaries doc_marker_four_up = Ok (Some 16, None).
Proof. repeat split; vm_compute; reflexivity. Qed.

(** C4, amended: for every boundary at the start of a line (every located
    boundary is), the lines examined are among the 3 lines immediately
    preceding the boundary's line ([boundary_line - 3] through
    [boundary_line - 1], nearest first).  If none of those 3 lines matches
    the Page Marker pattern, the boundary is unchanged.  If one does, and
    the nearest such line is not the first line of the document and its
    text does not occur again before the boundary, the boundary is moved
    back to the start offset of that line. *)
Theorem page_marker_absorption content b :
  at_bol MULTILINE content b = true ->
  let before := slice_to b content in
  let lines := split_nl before in
  let L := length lines - 1 in
  ((forall j, L - 3 <= j < L -> is_marker lines j = false) ->
   absorb_page_marker content b = Ok b)
  /\ (forall j line,
         L - 3 <= j < L -> 1 <= j ->
         nth_error lines j = Some line ->
         re_match IGNORECASE page_marker_pattern line = true ->
         (forall i, j < i < L -> is_marker lines i = false) ->
         occurs_after line before (line_start lines j) = false ->
         absorb_page_marker content b = Ok (line_start lines j)).
Proof.
  intros Hbol before lines L.
  destruct (split_nl_before_line_start content b Hbol) as (ls & Els).
  assert (HL : length lines = S L).
  { pose proof (split_nl_length before). fold lines in H. lia. }
  assert (HLs : L = length ls).
  { unfold L, lines, before, slice_to. rewrite Els, length_app. simpl. lia. }
  assert (Hlast : is_marker lines L = false).
  { unfold lines, before, slice_to. rewrite Els, HLs. apply is_marker_last. }
  unfold absorb_page_marker. fold before. fold lines. rewrite HL.
  split.
  - intros Hnone.
    rewrite <- (app_nil_r (range_down _ _)). rewrite scan_lines_skip.
    + reflexivity.
    + intros i Hi. apply in_range_down in Hi. split; [lia|].
      destruct (Nat.eq_dec i L) as [->|Hne]; [exact Hlast|].
      apply Hnone. lia.
  - intros j line Hj Hj1 Hline Hm Hnear Hocc.
    rewrite (range_down_split (S L - 1) (Nat.max 0 (S L - 5)) j) by lia.
    rewrite scan_lines_skip.
    + cbn [scan_lines]. rewrite Hline, Hm.
      rewrite (rfind_last before line (line_start lines j)).
      * reflexivity.
      * apply page_marker_hash in Hm. destruct Hm as (l' & ->). discriminate.
      * now apply split_nl_occurs.
      * exact Hocc.
    + intros i Hi. apply in_range_down in Hi. split; [lia|].
      destruct (Nat.eq_dec i L) as [->|Hne]; [exact Hlast|].
      apply Hnear. lia.
Qed.

Lemma page_marker_absorption_witness :
  absorb_page_marker doc_marker_three_up 15 = Ok 2.
Proof.
  apply (proj2 (page_marker_absorption doc_marker_three_up 15 eq_refl)
           1 (lit "### Page 5")); try reflexivity; try (simpl; lia).
  intros i Hi. simpl in Hi.
  destruct i as [|[|[|[|i]]]]; try lia; reflexivity.
Defined.

(** * Further properties *)

(** ** Stripping *)

Lemma lstrip_head l :
  match lstrip l with
  | x :: _ => is_space x = false
  | [] => True
  end.
Proof. destruct (lstrip_split l) as (w & _ & _ & H). exact H. Qed.

Lemma lstrip_fixed l :
  match l with x :: _ => is_space x = false | [] => True end ->
  lstrip l = l.
Proof. destruct l as [|x l]; simpl; [reflexivity|]. now intros ->. Qed.

Lemma lstrip_idem l : lstrip (lstrip l) = lstrip l.
Proof. apply lstrip_fixed. apply lstrip_head. Qed.

Lemma rstrip_idem l : rstrip (rstrip l) = rstrip l.
Proof. unfold rstrip. now rewrite rev_involutive, lstrip_idem. Qed.

Lemma strip_stripped t : stripped (strip t).
Proof.
  unfold stripped, strip. split; [|apply rstrip_idem].
  pose proof (lstrip_head t) as Hh.
  destruct (lstrip t) as [|x m] eqn:E; [reflexivity|].
  destruct (strip_cons x m Hh) as (m' & Hm').
  unfold strip in Hm'. simpl lstrip in Hm'. rewrite Hh in Hm'.
  rewrite Hm'. simpl. now rewrite Hh.
Qed.

(** Stripping removes whitespace at the two ends and nothing else. *)
Lemma strip_infix t :
  exists w1 w2, t = w1 ++ strip t ++ w2 /\ blank w1 /\ blank w2.
Proof.
  destruct (lstrip_split t) as (w1 & Ht & Hw1 & _).
  destruct (rstrip_split (lstrip t)) as (w2 & Hu & Hw2 & _).
  exists w1, w2. unfold strip, blank. repeat split; try assumption.
  rewrite <- Hu. exact Ht.
Qed.

Lemma blank_app a b : blank a -> blank b -> blank (a ++ b).
Proof. unfold blank. intros Ha Hb. now rewrite forallb_app, Ha, Hb. Qed.

Lemma blank_blank_or_dash a : blank a -> blank_or_dash a.
Proof.
  unfold blank, blank_or_dash. rewrite !forallb_forall.
  intros H x Hx. now rewrite (H x Hx).
Qed.

Lemma blank_or_dash_app a b :
  blank_or_dash a -> blank_or_dash b -> blank_or_dash (a ++ b).
Proof. unfold blank_or_dash. intros Ha Hb. now rewrite forallb_app, Ha, Hb. Qed.

(** The trimmed text is a part of the text; what is cut before it is
    whitespace, what is cut after it is whitespace and dashes. *)
Lemma trim_separator_infix text :
  exists pre post,
    text = pre ++ trim_separator text ++ post
    /\ blank pre /\ blank_or_dash post.
Proof.
  unfold trim_separator.
  destruct (ends_with (lit "---") (rstrip text)) eqn:E.
  - apply ends_with_spec in E. destruct E as [v Hv].
    destruct (rstrip_split text) as (w & Ht & Hw & _).
    assert (Hd : drop_last 3 (rstrip text) = v).
    { unfold drop_last. rewrite Hv, length_app. simpl length.
      replace (length v + 3 - 3) with (length v) by lia.
      rewrite firstn_app, Nat.sub_diag, firstn_all. simpl. apply app_nil_r. }
    rewrite Hd. destruct (strip_infix v) as (w1 & w2 & Hsv & Hw1 & Hw2).
    exists w1, (w2 ++ lit "---" ++ w). repeat split; [|exact Hw1|].
    + rewrite Ht at 1. rewrite Hv. rewrite Hsv at 1.
      now rewrite <- !app_assoc.
    + apply blank_or_dash_app; [now apply blank_blank_or_dash|].
      apply blank_or_dash_app; [reflexivity|now apply blank_blank_or_dash].
  - destruct (strip_infix text) as (w1 & w2 & Hs & Hw1 & Hw2).
    exists w1, w2. repeat split;
      [exact Hs|exact Hw1|now apply blank_blank_or_dash].
Qed.

Lemma trim_separator_stripped text : stripped (trim_separator text).
Proof.
  unfold trim_separator.
  destruct (ends_with (lit "---") (rstrip text)); apply strip_stripped.
Qed.

Lemma in_trim_separator x text : In x (trim_separator text) -> In x text.
Proof.
  intros H. destruct (trim_separator_infix text) as (pre & post & Ht & _).
  rewrite Ht. apply in_or_app. right. apply in_or_app. now left.
Qed.

Lemma in_strip x t : In x (strip t) -> In x t.
Proof.
  intros H. destruct (strip_infix t) as (w1 & w2 & Ht & _).
  rewrite Ht. apply in_or_app. right. apply in_or_app. now left.
Qed.

(** ** Headings and the main segment *)

Lemma appendix_patterns_no_eol :
  Forall (fun p => no_eol (re p) = true) appendix_patterns.
Proof. repeat constructor. Qed.

Lemma all_patterns_heading p :
  In p (ack_patterns ++ appendix_patterns) ->
  is_heading p /\ no_eol (re p) = true.
Proof.
  intros H. apply in_app_or in H.
  pose proof ack_patterns_heading as H1. rewrite Forall_forall in H1.
  pose proof ack_patterns_no_eol as H2. rewrite Forall_forall in H2.
  pose proof appendix_patterns_heading as H3. rewrite Forall_forall in H3.
  pose proof appendix_patterns_no_eol as H4. rewrite Forall_forall in H4.
  destruct H as [H|H]; auto.
Qed.

(** A heading found in [content[:e]], where [content[e]] is a [#], is
    also found in [content], at the same offset or before. *)
Lemma search_start_prefix_heading p content e m :
  is_heading p -> no_eol (re p) = true ->
  nth_error content e = Some "#"%char ->
  search_start p (slice_to e content) = Some m ->
  m < e /\ exists m', search_start p content = Some m' /\ m' <= m.
Proof.
  intros Hh Hn He H. unfold slice_to in *. split.
  - eapply search_start_hash in H; [|exact Hh].
    now apply nth_error_firstn_some in H.
  - unfold search_start in *.
    apply re_search_start_prefix with (a := e); auto.
    + apply Nat.lt_le_incl. apply nth_error_Some. congruence.
    + unfold word_at. rewrite He. reflexivity.
Qed.

(** A heading that matches somewhere bounds the category candidate. *)
Lemma category_search_le ps content p m :
  In p ps -> search_start p content = Some m ->
  exists k, category_search ps content = Some k /\ k <= m.
Proof.
  intros Hin Hm. destruct (category_search ps content) as [k|] eqn:E.
  - exists k. split; [reflexivity|].
    apply category_search_some in E. destruct E as (_ & Hmin). eauto.
  - rewrite (category_search_none _ _ E p Hin) in Hm. discriminate.
Qed.

(** One iteration of the appendix loop never moves the candidate
    forward, and a match of a pattern that is not generic bounds it. *)
Lemma appendix_step_le content ack acc p :
  exists acc',
    appendix_step content ack acc p = Ok acc'
    /\ (forall x, acc = Some x -> exists y, acc' = Some y /\ y <= x)
    /\ (is_generic p = false ->
        forall m, search_start p content = Some m ->
                  exists y, acc' = Some y /\ y <= m).
Proof.
  unfold appendix_step.
  destruct (search_start p content) as [m|] eqn:Em.
  - destruct acc as [x|].
    + destruct (m <? x) eqn:Elt.
      * apply Nat.ltb_lt in Elt.
        destruct (is_generic p) eqn:G; simpl.
        -- destruct ack as [k|]; simpl.
           ++ destruct (k <? m); eexists; split; try reflexivity;
                split; try discriminate;
                intros y [= <-]; eexists; split; try reflexivity; lia.
           ++ eexists; split; [reflexivity|]. split; [|discriminate].
              intros y [= <-]. eexists; split; [reflexivity|lia].
        -- eexists; split; [reflexivity|]. split.
           ++ intros y [= <-]. eexists; split; [reflexivity|lia].
           ++ intros _ m' [= <-]. eauto.
      * apply Nat.ltb_ge in Elt. eexists; split; [reflexivity|]. split.
        -- intros y [= <-]. eauto.
        -- intros _ m' [= <-]. eauto.
    + destruct (is_generic p) eqn:G; simpl.
      * destruct ack as [k|]; simpl.
        -- eexists; split; [reflexivity|]. split; discriminate.
        -- eexists; split; [reflexivity|]. split; discriminate.
      * eexists; split; [reflexivity|]. split; [discriminate|].
        intros _ m' [= <-]. eauto.
  - eexists; split; [reflexivity|]. split; [eauto|discriminate].
Qed.

Lemma for_each_appendix_le content ack ps : forall acc,
  exists r,
    for_each (appendix_step content ack) ps acc = Ok r
    /\ (forall x, acc = Some x -> exists y, r = Some y /\ y <= x)
    /\ (forall p m, In p ps -> is_generic p = false ->
                    search_start p content = Some m ->
                    exists y, r = Some y /\ y <= m).
Proof.
  induction ps as [|p ps IH]; intros acc; simpl.
  - exists acc. split; [reflexivity|]. split; [eauto|intros ? ? []].
  - destruct (appendix_step_le content ack acc p) as (acc' & -> & Hacc & Hp).
    simpl. destruct (IH acc') as (r & Hr & Hmono & Hps).
    exists r. split; [exact Hr|]. split.
    + intros x Hx. destruct (Hacc x Hx) as (y & Hy & Hle).
      destruct (Hmono y Hy) as (z & Hz & Hle'). exists z. split; [exact Hz|lia].
    + intros q m [<-|Hin] G Hm; [|eauto].
      destruct (Hp G m Hm) as (y & Hy & Hle).
      destruct (Hmono y Hy) as (z & Hz & Hle'). exists z. split; [exact Hz|lia].
Qed.

(** With a backmatter candidate at [k], a generic match that is not
    after [k] is turned down. *)
Lemma for_each_appendix_rejected content k ps :
  (forall p, In p ps -> is_generic p = false -> search_start p content = None) ->
  (forall p m, In p ps -> is_generic p = true ->
               search_start p content = Some m -> m <= k) ->
  for_each (appendix_step content (Some k)) ps None = Ok None.
Proof.
  induction ps as [|p ps IH]; intros Hn Hg; simpl; [reflexivity|].
  assert (Hstep : appendix_step content (Some k) None p = Ok None).
  { unfold appendix_step.
    destruct (search_start p content) as [m|] eqn:Em; [|reflexivity].
    destruct (is_generic p) eqn:G.
    - simpl. specialize (Hg p m (or_introl eq_refl) G Em).
      assert (E : (k <? m) = false) by (apply Nat.ltb_ge; lia).
      now rewrite E.
    - rewrite (Hn p (or_introl eq_refl) G) in Em. discriminate. }
  rewrite Hstep. simpl. apply IH.
  - intros q Hq. apply Hn. now right.
  - intros q m Hq. apply Hg. now right.
Qed.

(** What [find_section_boundaries] returns, from the adjusted pair: the
    pair itself when it is in order; else the backmatter offset is
    dropped, the second search finding nothing. *)
Lemma boundaries_from_adjusted content ack0 app :
  locate_adjusted content = Ok (ack0, app) ->
  (find_section_boundaries content = Ok (ack0, app) /\ ordered ack0 app)
  \/ (find_section_boundaries content = Ok (None, app)
      /\ exists b a, ack0 = Some b /\ app = Some a /\ a < b).
Proof.
  intros Hloc. unfold find_section_boundaries. rewrite Hloc. cbn [bind].
  unfold correct_order.
  destruct ack0 as [b|]; [|left; split; [reflexivity|exact I]].
  destruct app as [a|]; [|left; split; [reflexivity|exact I]].
  destruct (a <? b) eqn:E.
  - apply Nat.ltb_lt in E. right.
    rewrite (research_ack_none _ _ _
               (no_backmatter_before_appendix _ _ _ Hloc E)).
    cbn [bind]. split; [reflexivity|]. eauto.
  - apply Nat.ltb_ge in E. left. split; [reflexivity|exact E].
Qed.

(** The raw main segment is the text before the first boundary. *)
Lemma raw_split_main content ack app :
  ordered ack app ->
  fst (fst (raw_split content ack app))
  = match ack, app with
    | Some b, _ => slice_to b content
    | None, Some a => slice_to a content
    | None, None => content
    end.
Proof.
  unfold raw_split, slice_to, slice_from.
  destruct ack as [b|], app as [a|]; simpl; try reflexivity.
  intros H. assert (E : (a <? b) = false) by (apply Nat.ltb_ge; lia).
  rewrite E. simpl. apply firstn_firstn_le. exact H.
Qed.

(** Where the headings that match are, with respect to the adjusted
    candidates. *)
Lemma adjusted_bounds content :
  exists ack0 app,
    locate_adjusted content = Ok (ack0, app)
    /\ at_hash content ack0 /\ at_hash content app
    /\ (forall p m, In p ack_patterns -> search_start p content = Some m ->
                    exists b, ack0 = Some b /\ b <= m)
    /\ (forall p m, In p appendix_patterns -> is_generic p = false ->
                    search_start p content = Some m ->
                    exists a, app = Some a /\ a <= m).
Proof.
  destruct (locate_adjusted_spec content)
    as (raw_app & ack0 & app & Hraw & Hloc & Hmb1 & Hmb2 & Hh1 & Hh2).
  exists ack0, app. repeat split; try assumption.
  - intros p m Hin Hm.
    destruct (category_search_le ack_patterns content p m Hin Hm)
      as (k & Ek & Hk).
    rewrite Ek in Hmb1. destruct ack0 as [b|]; [|contradiction].
    simpl in Hmb1. exists b. split; [reflexivity|lia].
  - intros p m Hin G Hm. unfold find_appendix in Hraw.
    destruct (for_each_appendix_le content
                (category_search ack_patterns content) appendix_patterns None)
      as (r & Hr & _ & Hps).
    rewrite Hr in Hraw. injection Hraw as <-.
    destruct (Hps p m Hin G Hm) as (y & -> & Hy).
    destruct app as [a|]; [|contradiction]. simpl in Hmb2.
    exists a. split; [reflexivity|lia].
Qed.

(** ** A document without heading, and the files that are written *)

Lemma h1_match_hash s p q :
  re_search MULTILINE h1_pattern s = Some (p, q) ->
  nth_error s p = Some "#"%char.
Proof.
  unfold re_search, search_pos. intros H. apply search_from_some in H.
  destruct H as (_ & H & _). apply match_at_some in H.
  unfold h1_pattern, seqs, chars in H. simpl fold_right in H.
  apply in_ends_seq in H. destruct H as (m & Hm & H).
  cbn [ends] in Hm. destruct (at_bol MULTILINE s p); [|contradiction].
  destruct Hm as [<-|[]].
  apply in_ends_seq in H. destruct H as (m1 & Hm1 & _).
  apply in_ends_seq in Hm1. destruct Hm1 as (m2 & Hm2 & _).
  cbn [ends] in Hm2. destruct (nth_error s p) as [a|]; [|contradiction].
  destruct (cset_match MULTILINE (CChar "#") a) eqn:E; [|contradiction].
  now apply cset_match_hash in E as ->.
Qed.

Lemma no_hash_no_heading content p :
  ~ In "#"%char content -> is_heading p -> search_start p content = None.
Proof.
  intros Hn Hh. destruct (search_start p content) as [m|] eqn:E;
    [exfalso|reflexivity].
  apply (search_start_hash p content m Hh) in E.
  apply Hn. eapply nth_error_In. exact E.
Qed.

Lemma no_hash_retitled title text :
  ~ In "#"%char text -> retitled title text = text.
Proof.
  intros Hn. unfold retitled.
  destruct (re_search MULTILINE h1_pattern text) as [[p q]|] eqn:E;
    [exfalso|reflexivity].
  apply h1_match_hash in E. apply Hn. eapply nth_error_In. exact E.
Qed.

(** The raw slices at boundaries that point at a [#], in order and
    inside the document. *)
Lemma raw_split_nonempty content ack app :
  at_hash content ack -> at_hash content app -> ordered ack app ->
  let '(_, back, appx) := raw_split content ack app in
  is_some (match seg_clean back with [] => None | t => Some t end)
  = backmatter_expected ack app
  /\ is_some (match seg_clean appx with [] => None | t => Some t end)
     = is_some app.
Proof.
  intros Hack Happ Hord.
  assert (Hskip : forall (s : str) n,
             nth_error s n = Some "#"%char ->
             exists l, skipn n s = "#"%char :: l).
  { intros s n Hn. destruct (skipn n s) as [|c l] eqn:Es.
    - assert (length (skipn n s) = 0) by now rewrite Es.
      rewrite length_skipn in H.
      assert (n < length s) by (apply nth_error_Some; congruence). lia.
    - apply nth_error_skipn_0 in Es. exists l. congruence. }
  assert (Hclean : forall l,
             is_some (match seg_clean (Some ("#"%char :: l)) with
                      | [] => None | t => Some t end) = true).
  { intros l. cbn [seg_clean].
    destruct (trim_separator_hash l) as (m & ->). reflexivity. }
  unfold raw_split, slice_to, slice_from.
  destruct app as [a|], ack as [b|]; simpl in Hack, Happ, Hord;
    cbn [backmatter_expected is_some].
  - assert (E : (a <? b) = false) by (apply Nat.ltb_ge; lia). rewrite E.
    destruct (Hskip content a Happ) as (la & ->). split; [|apply Hclean].
    destruct (b <? a) eqn:Eba.
    + apply Nat.ltb_lt in Eba.
      assert (Hb : nth_error (firstn a content) b = Some "#"%char).
      { rewrite <- Hack. rewrite <- (firstn_skipn a content) at 2.
        rewrite nth_error_app1; [reflexivity|].
        rewrite length_firstn.
        assert (a < length content) by (apply nth_error_Some; congruence).
        lia. }
      destruct (Hskip _ b Hb) as (lb & ->). apply Hclean.
    + apply Nat.ltb_ge in Eba. replace b with a by lia.
      rewrite skipn_all2; [reflexivity|]. rewrite length_firstn. lia.
  - destruct (Hskip content a Happ) as (la & ->).
    split; [reflexivity|apply Hclean].
  - destruct (Hskip content b Hack) as (lb & ->).
    split; [apply Hclean|reflexivity].
  - split; reflexivity.
Qed.

(** ** extract_title *)

(** What a run of literal characters matches. *)
Lemma in_ends_chars fl s (w : str) : forall p m,
  In m (ends fl s (seqs (map (fun c => One (CChar c)) w)) p) ->
  m = p + length w
  /\ forall i c, nth_error w i = Some c ->
       exists a, nth_error s (p + i) = Some a
                 /\ cset_match fl (CChar c) a = true.
Proof.
  induction w as [|c0 w IH]; intros p m H.
  - simpl in H. destruct H as [<-|[]]. split; [simpl; lia|].
    intros [|i] c; discriminate.
  - change (seqs (map (fun c => One (CChar c)) (c0 :: w)))
      with (Seq (One (CChar c0)) (seqs (map (fun c => One (CChar c)) w)))
      in H.
    apply in_ends_seq in H. destruct H as (m1 & H1 & H).
    cbn [ends] in H1. destruct (nth_error s p) as [a|] eqn:Ea;
      [|contradiction].
    destruct (cset_match fl (CChar c0) a) eqn:Ec; [|contradiction].
    destruct H1 as [<-|[]].
    apply IH in H. destruct H as [-> Hw]. split; [simpl; lia|].
    intros [|i] c Hc; simpl in Hc.
    + injection Hc as <-. exists a. rewrite Nat.add_0_r. now split.
    + destruct (Hw i c Hc) as (a' & Ha' & Hm'). exists a'.
      replace (p + S i) with (S p + i) by lia. now split.
Qed.

Lemma ends_chars_exact fl s (w : str) : forall p,
  firstn (length w) (skipn p s) = w ->
  (forall c, In c w -> cset_match fl (CChar c) c = true) ->
  ends fl s (seqs (map (fun c => One (CChar c)) w)) p = [p + length w].
Proof.
  induction w as [|c0 w IH]; intros p Hw Hc.
  - simpl. now rewrite Nat.add_0_r.
  - change (seqs (map (fun c => One (CChar c)) (c0 :: w)))
      with (Seq (One (CChar c0)) (seqs (map (fun c => One (CChar c)) w))).
    destruct (skipn p s) as [|x l] eqn:Es; [discriminate|].
    simpl in Hw. injection Hw as -> Hw.
    pose proof (nth_error_skipn_0 s p _ _ Es) as Hp.
    rewrite (ends_seq_one fl s _ _ p c0 Hp) by (apply Hc; now left).
    rewrite IH.
    + f_equal. simpl. lia.
    + assert (El : skipn (S p) s = l).
      { replace (S p) with (1 + p) by lia.
        rewrite <- skipn_skipn, Es. reflexivity. }
      now rewrite El.
    + intros c Hin. apply Hc. now right.
Qed.

Lemma title_match_shape s p q :
  In q (ends MULTILINE s title_pattern p) ->
  nth_error s p = Some "#"%char
  /\ exists k, q = p + 2 + k
               /\ forallb (cset_match MULTILINE CDot)
                    (firstn k (skipn (p + 2) s)) = true.
Proof.
  unfold title_pattern, seqs. simpl fold_right. intros H.
  apply in_ends_seq in H. destruct H as (m & Hm & H).
  cbn [ends] in Hm. destruct (at_bol MULTILINE s p); [|contradiction].
  destruct Hm as [<-|[]].
  apply in_ends_seq in H. destruct H as (m1 & Hm1 & H).
  apply (in_ends_chars MULTILINE s (lit "# ")) in Hm1.
  destruct Hm1 as [-> Hw].
  destruct (Hw 0 "#"%char eq_refl) as (a & Ha & Hc).
  apply cset_match_hash in Hc. subst a. rewrite Nat.add_0_r in Ha.
  split; [exact Ha|].
  apply in_ends_seq in H. destruct H as (m2 & Hm2 & H).
  cbn [ends] in Hm2. apply in_rep_ends in Hm2.
  destruct Hm2 as (k & -> & _ & Hk & _).
  apply in_ends_seq in H. destruct H as (m3 & Hm3 & H).
  cbn [ends] in Hm3.
  destruct (at_eol MULTILINE s (p + length (lit "# ") + k)); [|contradiction].
  destruct Hm3 as [<-|[]]. cbn [ends] in H. destruct H as [<-|[]].
  exists k. split; [reflexivity|].
  now apply run_firstn_all.
Qed.

Lemma no_nl_dot t :
  ~ In nl t <-> forallb (cset_match MULTILINE CDot) t = true.
Proof.
  rewrite forallb_forall. simpl. split.
  - intros H x Hx. apply negb_true_iff. apply Ascii.eqb_neq.
    intros ->. contradiction.
  - intros H Hin. specialize (H nl Hin). discriminate.
Qed.

Lemma run_app_stop fl c t rest :
  forallb (cset_match fl c) t = true ->
  match rest with x :: _ => cset_match fl c x = false | [] => True end ->
  run fl c (t ++ rest) = length t.
Proof.
  induction t as [|a t IH]; simpl; intros Ht Hr.
  - destruct rest as [|x r]; simpl; [reflexivity|]. now rewrite Hr.
  - apply andb_true_iff in Ht. destruct Ht as [-> Ht]. now rewrite IH.
Qed.

Lemma hd_error_flat_map_first {A B} (f : A -> list B) x z rest :
  forall l, (forall y, In y l -> f y = []) -> f x = [z] ->
            hd_error (flat_map f (l ++ x :: rest)) = Some z.
Proof.
  induction l as [|y l IH]; intros Hl Hx; simpl.
  - rewrite Hx. reflexivity.
  - rewrite (Hl y (or_introl eq_refl)). simpl. apply IH; [|exact Hx].
    intros y' Hy'. apply Hl. now right.
Qed.

(** A first line [# t]: the title pattern matches it from offset 0 to
    the end of the line. *)
Lemma title_match_first_line t rest :
  t <> [] -> ~ In nl t -> line_end rest ->
  re_search MULTILINE title_pattern (lit "# " ++ t ++ rest)
  = Some (0, 2 + length t).
Proof.
  intros Hne Hnl Hrest. set (s := lit "# " ++ t ++ rest).
  unfold re_search. apply search_pos_first; [lia| |intros p Hp; lia].
  unfold match_at, title_pattern, seqs. simpl fold_right.
  cbn [ends at_bol flat_map]. rewrite app_nil_r.
  change (chars "# ") with (seqs (map (fun c => One (CChar c)) (lit "# "))).
  rewrite (ends_chars_exact MULTILINE s (lit "# ") 0);
    [|reflexivity|intros c [<-|[<-|[]]]; reflexivity].
  cbn [flat_map]. rewrite app_nil_r. cbn [ends]. unfold rep_ends.
  change (skipn (0 + length (lit "# ")) s) with (t ++ rest).
  assert (Hdot : forallb (cset_match MULTILINE CDot) t = true)
    by now apply no_nl_dot.
  rewrite (run_app_stop MULTILINE CDot t rest Hdot).
  2:{ destruct Hrest as [->|(r & ->)]; [exact I|reflexivity]. }
  assert (Hlen : length s = 2 + (length t + length rest)).
  { unfold s. rewrite !length_app. reflexivity. }
  assert (Hs : forall k, nth_error s (0 + length (lit "# ") + k)
                         = nth_error (t ++ rest) k).
  { intros k. reflexivity. }
  destruct (length t) as [|n] eqn:En.
  { destruct t; [congruence|discriminate]. }
  replace (S (S n) - 1) with (n + 1) by lia.
  rewrite seq_app, map_app.
  change (seq (1 + n) 1) with [1 + n]. cbn [map].
  apply hd_error_flat_map_first.
  - intros y Hy. apply in_map_iff in Hy. destruct Hy as (k & <- & Hk).
    apply in_seq in Hk. cbn [ends].
    assert (E : at_eol MULTILINE s (0 + length (lit "# ") + k) = false).
    { unfold at_eol. rewrite Hs.
      rewrite nth_error_app1 by lia.
      destruct (nth_error t k) as [a|] eqn:Ea.
      - assert (Ha : a <> nl).
        { intros ->. apply Hnl. eapply nth_error_In. exact Ea. }
        apply Ascii.eqb_neq in Ha. rewrite Ha.
        rewrite andb_false_l, orb_false_r. apply Nat.eqb_neq.
        rewrite Hlen. simpl. lia.
      - apply nth_error_None in Ea. lia. }
    rewrite E. reflexivity.
  - cbn [ends].
    assert (E : at_eol MULTILINE s (0 + length (lit "# ") + (1 + n)) = true).
    { unfold at_eol. rewrite Hs.
      destruct Hrest as [->|(r & ->)].
      - apply orb_true_iff. left. apply Nat.eqb_eq.
        rewrite Hlen. simpl. lia.
      - apply orb_true_iff. right.
        rewrite nth_error_app2 by lia.
        replace (1 + n - length t) with 0 by lia.
        reflexivity. }
    rewrite E. cbn [flat_map app]. f_equal.
Qed.

Lemma title_no_match_without_hash content :
  ~ In "#"%char content -> re_search MULTILINE title_pattern content = None.
Proof.
  intros Hn. unfold re_search. apply search_pos_none; [lia|].
  intros p _. apply match_at_none.
  destruct (ends MULTILINE content title_pattern p) as [|q l] eqn:E;
    [reflexivity|exfalso].
  assert (H : In q (ends MULTILINE content title_pattern p))
    by (rewrite E; now left).
  apply title_match_shape in H. destruct H as [H _].
  apply Hn. eapply nth_error_In. exact H.
Qed.

Lemma bibtex_no_match_without_brace content :
  ~ In "{"%char content -> re_search no_flags bibtex_pattern content = None.
Proof.
  intros Hn. unfold re_search. apply search_pos_none; [lia|].
  intros p _. apply match_at_none.
  destruct (ends no_flags content bibtex_pattern p) as [|q l] eqn:E;
    [reflexivity|exfalso].
  assert (H : In q (ends no_flags content bibtex_pattern p))
    by (rewrite E; now left).
  unfold bibtex_pattern, seqs in H. simpl fold_right in H.
  apply in_ends_seq in H. destruct H as (m & Hm & _).
  apply (in_ends_chars no_flags content (lit "title={")) in Hm.
  destruct Hm as [_ Hw].
  destruct (Hw 6 "{"%char eq_refl) as (a & Ha & Hc).
  change (Ascii.eqb "{" a = true) in Hc. apply Ascii.eqb_eq in Hc. subst a.
  apply Hn. eapply nth_error_In. exact Ha.
Qed.

Lemma title_from_heading_no_nl content p q :
  re_search MULTILINE title_pattern content = Some (p, q) ->
  ~ In nl (strip (slice (p + 2) q content)).
Proof.
  intros H Hin. apply in_strip in Hin.
  unfold re_search, search_pos in H.
  apply search_from_some in H. destruct H as (_ & H & _).
  apply match_at_some in H. apply title_match_shape in H.
  destruct H as (_ & k & -> & Hk).
  unfold slice in Hin. replace (p + 2 + k - (p + 2)) with k in Hin by lia.
  apply no_nl_dot in Hk. contradiction.
Qed.

(** ** get_base_filename and the output paths *)

Lemma starts_with_one c l :
  starts_with [c] l = true <-> exists l', l = c :: l'.
Proof.
  destruct l as [|x l]; simpl.
  - split; [discriminate|intros (l' & H); discriminate].
  - rewrite andb_true_r. split.
    + intros H. apply Ascii.eqb_eq in H. subst. now exists l.
    + intros (l' & [= -> _]). apply Ascii.eqb_refl.
Qed.

Lemma skipn_nth_error {A} (l : list A) : forall p x,
  nth_error l p = Some x -> skipn p l = x :: skipn (S p) l.
Proof.
  induction l as [|a l IH]; intros [|p] x; simpl; try discriminate.
  - now intros [= ->].
  - intros H. now rewrite (IH p x H).
Qed.

Lemma starts_with_one_nth c s q :
  starts_with [c] (skipn q s) = true <-> nth_error s q = Some c.
Proof.
  rewrite starts_with_one. split.
  - intros (l' & H). now apply nth_error_skipn_0 in H.
  - intros H. eexists. now apply skipn_nth_error.
Qed.

(** The last occurrence of a character splits a text into a part that
    is empty or ends with it, and a part without it. *)
Lemma after_last_spec c p :
  exists a b, p = a ++ b /\ length a = after_last c p /\ ~ In c b
              /\ (a = [] \/ exists d, a = d ++ [c]).
Proof.
  unfold after_last, rfind. change (length [c]) with 1.
  destruct (rfind_from p [c] (length p - 1)) as [k|] eqn:E.
  - apply rfind_from_some in E. destruct E as (Hk & Ho & Hlast).
    apply starts_with_one_nth in Ho.
    assert (Hlt : k < length p) by (apply nth_error_Some; congruence).
    exists (firstn (S k) p), (skipn (S k) p).
    split; [now rewrite firstn_skipn|].
    split; [rewrite length_firstn; lia|]. split.
    + intros Hin. apply In_nth_error in Hin. destruct Hin as (j & Hj).
      rewrite nth_error_skipn in Hj.
      assert (Hj' : S k + j < length p) by (apply nth_error_Some; congruence).
      apply starts_with_one_nth in Hj.
      rewrite Hlast in Hj by lia. discriminate.
    + right. exists (firstn k p). now apply firstn_S_nth.
  - exists [], p. split; [reflexivity|]. split; [reflexivity|].
    split; [|now left].
    intros Hin. apply In_nth_error in Hin. destruct Hin as (j & Hj).
    assert (Hj' : j < length p) by (apply nth_error_Some; congruence).
    apply starts_with_one_nth in Hj.
    rewrite (rfind_from_none _ _ _ E j) in Hj by lia. discriminate.
Qed.

Lemma last_split_le {A} (c : A) a b a' b' :
  a ++ b = a' ++ b' -> ~ In c b -> (a' = [] \/ exists d, a' = d ++ [c]) ->
  length a' <= length a.
Proof.
  intros E Hb [->|(d & ->)]; [simpl; lia|].
  destruct (Nat.le_gt_cases (length (d ++ [c])) (length a)) as [H|H];
    [exact H|exfalso].
  rewrite length_app in H. simpl in H.
  assert (Hn : nth_error (a ++ b) (length d) = Some c).
  { rewrite E, <- app_assoc. rewrite nth_error_app2 by lia.
    now rewrite Nat.sub_diag. }
  rewrite nth_error_app2 in Hn by lia.
  apply Hb. eapply nth_error_In. exact Hn.
Qed.

Lemma after_last_app c a b :
  (a = [] \/ exists d, a = d ++ [c]) -> ~ In c b ->
  after_last c (a ++ b) = length a.
Proof.
  intros Ha Hb.
  destruct (after_last_spec c (a ++ b)) as (a' & b' & E & <- & Hb' & Ha').
  apply Nat.le_antisymm.
  - now apply (last_split_le c a b a' b').
  - now apply (last_split_le c a' b' a b).
Qed.

Lemma after_last_none c p : ~ In c p -> after_last c p = 0.
Proof. intros H. apply (after_last_app c [] p); [now left|exact H]. Qed.

Lemma rfind_char_app c a b :
  ~ In c b -> rfind (a ++ c :: b) [c] = Some (length a).
Proof.
  intros Hb.
  pose proof (after_last_app c (a ++ [c]) b
                (or_intror (ex_intro _ a eq_refl)) Hb) as H.
  rewrite <- app_assoc in H. simpl in H. unfold after_last in H.
  destruct (rfind (a ++ c :: b) [c]) as [k|].
  - rewrite length_app in H. simpl in H. f_equal. lia.
  - rewrite length_app in H. simpl in H. lia.
Qed.

Lemma rfind_char_none c p : ~ In c p -> rfind p [c] = None.
Proof.
  intros H. pose proof (after_last_none c p H) as E. unfold after_last in E.
  destruct (rfind p [c]); [discriminate|reflexivity].
Qed.

Lemma basename_app prefix name :
  dir_prefix prefix -> ~ In sep name -> basename (prefix ++ name) = name.
Proof.
  intros Hp Hn. unfold basename, slice_from.
  rewrite (after_last_app sep prefix name Hp Hn).
  rewrite skipn_app, skipn_all, Nat.sub_diag. reflexivity.
Qed.

Lemma basename_no_sep p : ~ In sep (basename p).
Proof.
  unfold basename, slice_from.
  destruct (after_last_spec sep p) as (a & b & -> & <- & Hb & _).
  rewrite skipn_app, skipn_all, Nat.sub_diag. exact Hb.
Qed.

Lemma splitext_loop_split p dotIndex : forall fuel filenameIndex,
  (exists j c, filenameIndex <= j < dotIndex /\ nth_error p j = Some c
               /\ c <> extsep) ->
  dotIndex - filenameIndex <= fuel ->
  splitext_loop p dotIndex filenameIndex fuel
  = (slice_to dotIndex p, slice_from dotIndex p).
Proof.
  induction fuel as [|fuel IH]; intros fi (j & c & Hj & Hc & Hne) Hf.
  - lia.
  - cbn [splitext_loop].
    assert (Hlt : (fi <? dotIndex) = true) by (apply Nat.ltb_lt; lia).
    rewrite Hlt. destruct (nth_error p fi) as [x|] eqn:Ex; [|reflexivity].
    destruct (Ascii.eqb x extsep) eqn:Ee; [|reflexivity].
    apply Ascii.eqb_eq in Ee. subst x. apply IH; [|lia].
    exists j, c. repeat split; try assumption; try lia.
    destruct (Nat.eq_dec j fi) as [->|]; [congruence|lia].
Qed.

Lemma splitext_loop_dots p dotIndex : forall fuel filenameIndex,
  (forall j, filenameIndex <= j < dotIndex -> nth_error p j = Some extsep) ->
  splitext_loop p dotIndex filenameIndex fuel = (p, []).
Proof.
  induction fuel as [|fuel IH]; intros fi H; [reflexivity|].
  cbn [splitext_loop].
  destruct (fi <? dotIndex) eqn:Hlt; [|reflexivity].
  apply Nat.ltb_lt in Hlt. rewrite (H fi) by lia.
  rewrite Ascii.eqb_refl. apply IH. intros j Hj. apply H. lia.
Qed.

Lemma splitext_loop_fst p dotIndex : forall fuel filenameIndex,
  exists n, fst (splitext_loop p dotIndex filenameIndex fuel) = firstn n p.
Proof.
  induction fuel as [|fuel IH]; intros fi; cbn [splitext_loop].
  - exists (length p). now rewrite firstn_all.
  - destruct (fi <? dotIndex).
    + destruct (nth_error p fi) as [x|]; [|now exists dotIndex].
      destruct (Ascii.eqb x extsep); [apply IH|now exists dotIndex].
    + exists (length p). now rewrite firstn_all.
Qed.

Lemma splitext_fst p : exists n, fst (splitext p) = firstn n p.
Proof.
  unfold splitext. destruct (rfind p [extsep]) as [d|].
  - destruct (after_last sep p <=? d); [apply splitext_loop_fst|].
    exists (length p). now rewrite firstn_all.
  - exists (length p). now rewrite firstn_all.
Qed.

(** A name with an extension is split at its last dot. *)
Lemma splitext_name_ext name ext :
  ~ In sep name -> ~ In sep ext -> ~ In extsep ext -> has_non_dot name ->
  splitext (name ++ extsep :: ext) = (name, extsep :: ext).
Proof.
  intros Hsn Hse He (c & Hc & Hne). unfold splitext.
  rewrite (rfind_char_app extsep name ext He).
  assert (Hs : after_last sep (name ++ extsep :: ext) = 0).
  { apply after_last_none. rewrite in_app_iff. simpl.
    intros [H|[H|H]]; [now apply Hsn|discriminate|now apply Hse]. }
  rewrite Hs. cbn [Nat.leb].
  rewrite splitext_loop_split.
  - unfold slice_to, slice_from.
    rewrite firstn_app, firstn_all, Nat.sub_diag, skipn_app, skipn_all,
      Nat.sub_diag. simpl. now rewrite app_nil_r.
  - apply In_nth_error in Hc. destruct Hc as (j & Hj).
    assert (Hlt : j < length name) by (apply nth_error_Some; congruence).
    exists j, c. repeat split; try lia; [|exact Hne].
    now rewrite nth_error_app1.
  - rewrite length_app. simpl. lia.
Qed.

Lemma all_dots_nth dots j :
  all_dots dots -> j < length dots -> nth_error dots j = Some extsep.
Proof.
  unfold all_dots. rewrite forallb_forall. intros H Hj.
  destruct (nth_error dots j) as [x|] eqn:E.
  - apply nth_error_In in E. apply H in E. apply Ascii.eqb_eq in E.
    now subst.
  - apply nth_error_None in E. lia.
Qed.

(** A name whose dots are all at its start has no extension. *)
Lemma splitext_leading_dots dots rest :
  all_dots dots -> ~ In extsep rest -> ~ In sep rest ->
  splitext (dots ++ rest) = (dots ++ rest, []).
Proof.
  intros Hd Hr Hs. unfold splitext.
  destruct (rfind (dots ++ rest) [extsep]) as [d|] eqn:E; [|reflexivity].
  destruct (after_last sep (dots ++ rest) <=? d); [|reflexivity].
  apply splitext_loop_dots. intros j Hj.
  assert (Hd' : d < length dots).
  { apply rfind_from_some in E. destruct E as (_ & Ho & _).
    apply starts_with_one_nth in Ho.
    destruct (Nat.lt_ge_cases d (length dots)) as [H|H]; [exact H|].
    rewrite nth_error_app2 in Ho by exact H.
    apply nth_error_In in Ho. contradiction. }
  rewrite nth_error_app1 by lia. apply all_dots_nth; [exact Hd|lia].
Qed.

Lemma all_dots_no_sep dots : all_dots dots -> ~ In sep dots.
Proof.
  unfold all_dots. rewrite forallb_forall. intros H Hin.
  apply H in Hin. discriminate.
Qed.

Lemma lstrip_char_head c x s : x <> c -> lstrip_char c (x :: s) = x :: s.
Proof.
  intros H. simpl. apply Ascii.eqb_neq in H. now rewrite H.
Qed.

Lemma endswith_sep_false d :
  d <> [] -> endswith_sep d = false ->
  exists d' x, d = d' ++ [x] /\ x <> sep.
Proof.
  intros Hne H. unfold endswith_sep in H.
  destruct (rev d) as [|x r] eqn:E.
  - apply (f_equal (@rev ascii)) in E. rewrite rev_involutive in E.
    simpl in E. congruence.
  - exists (rev r), x. split.
    + apply (f_equal (@rev ascii)) in E. rewrite rev_involutive in E.
      exact E.
    + now apply Ascii.eqb_neq.
Qed.

Lemma lstrip_char_same c s : lstrip_char c (c :: s) = lstrip_char c s.
Proof. cbn [lstrip_char]. now rewrite Ascii.eqb_refl. Qed.

Lemma rstrip_char_snoc c x d :
  x <> c -> rstrip_char c ((d ++ [x]) ++ [c]) = d ++ [x].
Proof.
  intros Hx. unfold rstrip_char.
  rewrite (rev_app_distr (d ++ [x]) [c]).
  change (rev [c] ++ rev (d ++ [x])) with (c :: rev (d ++ [x])).
  rewrite lstrip_char_same, (rev_app_distr d [x]).
  change (rev [x] ++ rev d) with (x :: rev d).
  rewrite lstrip_char_head by exact Hx.
  change (rev (x :: rev d)) with (rev (rev d) ++ [x]).
  now rewrite rev_involutive.
Qed.

(** The directory of [d/name] is [d] when [d] does not end with [/]. *)
Lemma dirname_app d name :
  d <> [] -> endswith_sep d = false -> ~ In sep name ->
  dirname (d ++ sep :: name) = d.
Proof.
  intros Hne He Hn. destruct (endswith_sep_false d Hne He) as (d' & x & -> & Hx).
  unfold dirname, slice_to.
  replace ((d' ++ [x]) ++ sep :: name) with (((d' ++ [x]) ++ [sep]) ++ name)
    by (now rewrite <- !app_assoc).
  rewrite after_last_app; [|right; now eexists|exact Hn].
  rewrite firstn_app, firstn_all, Nat.sub_diag. simpl firstn.
  rewrite app_nil_r.
  assert (Hf : forallb (Ascii.eqb sep) ((d' ++ [x]) ++ [sep]) = false).
  { rewrite !forallb_app. cbn [forallb].
    assert (Hs : Ascii.eqb sep x = false).
    { apply Ascii.eqb_neq. congruence. }
    rewrite Hs. cbn [andb]. now rewrite andb_false_r. }
  rewrite Hf. cbn [negb]. now apply rstrip_char_snoc.
Qed.

(** Joining a directory with a name that does not start with [/] puts a
    prefix that depends on the directory only before the name. *)
Lemma join_prefix output_dir :
  exists pre, forall name, starts_with [sep] name = false ->
                           join output_dir name = pre ++ name.
Proof.
  unfold join.
  destruct (match output_dir with [] => true | _ => false end
            || endswith_sep output_dir).
  - exists output_dir. intros name ->. reflexivity.
  - exists (output_dir ++ [sep]). intros name ->.
    now rewrite <- app_assoc.
Qed.

Lemma no_sep_starts_with base suffix :
  ~ In sep base -> starts_with [sep] suffix = false ->
  starts_with [sep] (base ++ suffix) = false.
Proof.
  intros Hb Hs. destruct base as [|x base]; [exact Hs|].
  destruct (starts_with [sep] ((x :: base) ++ suffix)) eqn:E; [|reflexivity].
  apply starts_with_one in E. destruct E as (l' & [= -> _]).
  exfalso. apply Hb. now left.
Qed.

Lemma get_base_filename_no_sep input_file :
  ~ In sep (get_base_filename input_file).
Proof.
  unfold get_base_filename.
  destruct (splitext_fst (basename input_file)) as (n & ->).
  intros Hin. apply (basename_no_sep input_file).
  rewrite <- (firstn_skipn n (basename input_file)).
  apply in_or_app. now left.
Qed.

Lemma base_of_name_ext prefix name ext :
  dir_prefix prefix -> ~ In sep name -> ~ In sep ext -> ~ In extsep ext ->
  has_non_dot name ->
  get_base_filename (prefix ++ name ++ extsep :: ext) = name.
Proof.
  intros Hp Hn He Hd Hc. unfold get_base_filename.
  rewrite basename_app; [|exact Hp|].
  - now rewrite splitext_name_ext.
  - rewrite in_app_iff. simpl.
    intros [H|[H|H]]; [now apply Hn|discriminate|now apply He].
Qed.

Lemma md_no_sep name : ~ In sep name -> ~ In sep (name ++ lit ".md").
Proof.
  intros Hn. rewrite in_app_iff. intros [H|H]; [now apply Hn|].
  simpl in H. repeat (destruct H as [H|H]; [discriminate|]). exact H.
Qed.

Lemma join_dir_name d name :
  d <> [] -> endswith_sep d = false -> starts_with [sep] name = false ->
  join d name = d ++ sep :: name.
Proof.
  intros Hne He Hs. unfold join. rewrite Hs, He.
  destruct d; [congruence|reflexivity].
Qed.

(** * Further properties of the code *)

(** X1: [find_section_boundaries] never raises, and each offset it
    returns is the offset of a [#] of the document.  The appendix slice
    taken at a returned appendix boundary starts with that [#]; the
    backmatter slice taken at a returned backmatter boundary starts
    with its [#] too, unless the two boundaries are equal: it is then
    the empty text. *)
Theorem boundaries_point_at_hash content :
  match find_section_boundaries content with
  | Ok (ack_start, appendix_start) =>
      at_hash content ack_start /\ at_hash content appendix_start
      /\ let '(_, back, appx) :=
           raw_split content ack_start appendix_start in
         match appendix_start with
         | Some _ => starts_with_hash appx
         | None => appx = None
         end
         /\ match ack_start with
            | Some b =>
                if backmatter_expected ack_start appendix_start
                then starts_with_hash back
                else appendix_start = Some b /\ back = Some []
            | None => back = None
            end
  | Raise _ => False
  end.
Proof.
  destruct (find_section_boundaries_spec content)
    as (ack0 & app & ack & _ & -> & Hack & Happ & Hord).
  split; [exact Hack|]. split; [exact Happ|].
  assert (Hskip : forall (s : str) n,
             nth_error s n = Some "#"%char ->
             starts_with_hash (Some (skipn n s))).
  { intros s n Hn. exists (skipn (S n) s). f_equal.
    now apply skipn_nth_error. }
  unfold raw_split, slice_to, slice_from.
  destruct app as [a|], ack as [b|]; cbn [at_hash ordered] in *.
  - assert (E : (a <? b) = false) by (apply Nat.ltb_ge; lia).
    rewrite E. cbn [backmatter_expected]. split; [now apply Hskip|].
    destruct (b <? a) eqn:Eb.
    + apply Nat.ltb_lt in Eb. apply Hskip.
      rewrite <- (firstn_skipn a content) in Hack.
      rewrite nth_error_app1 in Hack; [exact Hack|].
      rewrite length_firstn.
      assert (a < length content) by (apply nth_error_Some; congruence).
      lia.
    + apply Nat.ltb_ge in Eb. assert (a = b) by lia. subst b.
      split; [reflexivity|]. f_equal. apply skipn_all2.
      rewrite length_firstn. lia.
  - split; [now apply Hskip|reflexivity].
  - split; [reflexivity|]. cbn [backmatter_expected]. now apply Hskip.
  - split; reflexivity.
Qed.

(** X2: the raw main segment holds no heading of the Backmatter patterns
    and none of the Appendix patterns other than the two generic ones:
    none of these patterns matches in it. *)
Theorem main_segment_free_of_headings content :
  match find_section_boundaries content with
  | Ok (ack_start, appendix_start) =>
      let '(main, _, _) := raw_split content ack_start appendix_start in
      forall p, In p (ack_patterns ++ appendix_patterns) ->
                is_generic p = false -> search_start p main = None
  | Raise _ => False
  end.
Proof.
  destruct (adjusted_bounds content)
    as (ack0 & app & Hloc & Hh0 & Hha & Back & Bapp).
  assert (Hkey : forall e p,
            nth_error content e = Some "#"%char ->
            In p (ack_patterns ++ appendix_patterns) ->
            is_generic p = false ->
            (forall b, ack0 = Some b -> e <= b) ->
            (forall a, app = Some a -> e <= a) ->
            search_start p (slice_to e content) = None).
  { intros e p He Hin G Hb Ha.
    destruct (search_start p (slice_to e content)) as [m|] eqn:Em;
      [exfalso|reflexivity].
    destruct (all_patterns_heading p Hin) as [Hh Hn].
    destruct (search_start_prefix_heading p content e m Hh Hn He Em)
      as (Hlt & m' & Hm' & Hle).
    apply in_app_or in Hin. destruct Hin as [Hin|Hin].
    - destruct (Back p m' Hin Hm') as (b & Eb & Hbm).
      specialize (Hb b Eb). lia.
    - destruct (Bapp p m' Hin G Hm') as (a & Ea & Ham).
      specialize (Ha a Ea). lia. }
  destruct (boundaries_from_adjusted content ack0 app Hloc)
    as [[-> Hord]|(-> & b & a & -> & -> & Hlt)].
  - pose proof (raw_split_main content ack0 app Hord) as Hmain.
    destruct (raw_split content ack0 app) as [[main back] appx].
    simpl in Hmain. subst main. intros p Hin G.
    destruct ack0 as [b|]; [|destruct app as [a|]].
    + apply Hkey; auto.
      * now intros b' [= <-].
      * intros a ->. exact Hord.
    + apply Hkey; auto; [discriminate|now intros a' [= <-]].
    + destruct (search_start p content) as [m|] eqn:Em; [exfalso|reflexivity].
      apply in_app_or in Hin. destruct Hin as [Hin|Hin].
      * destruct (Back p m Hin Em) as (b & [=] & _).
      * destruct (Bapp p m Hin G Em) as (a & [=] & _).
  - pose proof (raw_split_main content None (Some a) I) as Hmain.
    destruct (raw_split content None (Some a)) as [[main back] appx].
    simpl in Hmain. subst main. intros p Hin G.
    apply Hkey; auto.
    + intros b' [= <-]. lia.
    + now intros a' [= <-].
Qed.

(** X3: when a Backmatter heading is found at [k], no Appendix pattern
    other than the generic ones matches, and the first match of each
    generic pattern is not after [k], no appendix boundary is reported,
    whatever comes after [k]: only the first match of a generic pattern
    is looked at. *)
Theorem generic_heading_before_backmatter_rejected content k :
  category_search ack_patterns content = Some k ->
  (forall p, In p appendix_patterns -> is_generic p = false ->
             search_start p content = None) ->
  (forall p m, In p appendix_patterns -> is_generic p = true ->
               search_start p content = Some m -> m <= k) ->
  exists b, find_section_boundaries content = Ok (Some b, None) /\ b <= k.
Proof.
  intros Hk Hn Hg.
  destruct (locate_adjusted_spec content)
    as (raw_app & ack & app & Hraw & Hloc & Hmb1 & Hmb2 & _).
  rewrite Hk in Hraw, Hmb1. unfold find_appendix in Hraw.
  rewrite (for_each_appendix_rejected content k appendix_patterns Hn Hg)
    in Hraw.
  injection Hraw as <-.
  destruct app as [a|]; [contradiction|].
  destruct ack as [b|]; [|contradiction]. simpl in Hmb1.
  exists b. unfold find_section_boundaries. rewrite Hloc. now split.
Qed.

Lemma generic_heading_before_backmatter_witness :
  exists b, find_section_boundaries doc_generic_both_sides = Ok (Some b, None)
            /\ b <= 11.
Proof.
  apply (generic_heading_before_backmatter_rejected doc_generic_both_sides 11).
  - vm_compute. reflexivity.
  - intros p Hp G. simpl in Hp.
    repeat (destruct Hp as [<-|Hp]; [try (vm_compute; reflexivity);
                                     try discriminate G|]).
    contradiction.
  - intros p m Hp G Hm. simpl in Hp.
    repeat (destruct Hp as [<-|Hp];
            [try discriminate G; vm_compute in Hm;
             try discriminate Hm; try (injection Hm as <-; lia)|]).
    contradiction.
Defined.

(** X4: a document without any [#] has no boundary, and with a title
    free of backslashes it is written as one file, the main one, that
    holds the trimmed document unchanged. *)
Theorem plain_text_main_only content title :
  ~ In "#"%char content ->
  no_backslash title ->
  find_section_boundaries content = Ok (None, None)
  /\ assemble content None None title
     = Ok {| main_file := trim_separator content;
             backmatter_file := None;
             appendix_file := None |}.
Proof.
  intros Hn Hb. split.
  - apply no_match_boundaries. intros p Hp.
    apply no_hash_no_heading; [exact Hn|].
    now apply all_patterns_heading.
  - rewrite assemble_any. cbn [raw_split seg_clean].
    rewrite retitle_ok by exact Hb. cbn [bind].
    rewrite no_hash_retitled; [reflexivity|].
    intros H. apply Hn. now apply in_trim_separator.
Qed.

Lemma plain_text_main_only_witness :
  find_section_boundaries doc_plain = Ok (None, None)
  /\ assemble doc_plain None None (lit "Untitled_Paper")
     = Ok {| main_file := trim_separator doc_plain;
             backmatter_file := None;
             appendix_file := None |}.
Proof.
  apply (plain_text_main_only doc_plain (lit "Untitled_Paper")).
  - intros H. vm_compute in H. repeat (destruct H as [H|H]; [discriminate|]).
    contradiction.
  - intros H. vm_compute in H. repeat (destruct H as [H|H]; [discriminate|]).
    contradiction.
Defined.

(** X5: when [split_paper] completes, an appendix file is written exactly
    when an appendix boundary was found, and a backmatter file exactly
    when a backmatter boundary was found that is not the appendix
    boundary. *)
Theorem files_follow_boundaries content out :
  split_paper_core content = Ok out ->
  match find_section_boundaries content with
  | Ok (ack_start, appendix_start) =>
      is_some (appendix_file out) = is_some appendix_start
      /\ is_some (backmatter_file out)
         = backmatter_expected ack_start appendix_start
  | Raise _ => False
  end.
Proof.
  unfold split_paper_core.
  destruct (find_section_boundaries_spec content)
    as (ack0 & app & ack & _ & -> & Hack & Happ & Hord).
  cbn [bind]. rewrite assemble_any.
  pose proof (raw_split_nonempty content ack app Hack Happ Hord) as Hne.
  destruct (raw_split content ack app) as [[main back] appx].
  destruct (retitle (extract_title content) (trim_separator main))
    as [main'|e]; cbn [bind]; [|discriminate].
  intros [= <-]. cbn [appendix_file backmatter_file].
  destruct Hne as [Hb Ha]. split.
  - rewrite <- Ha. destruct (seg_clean appx); reflexivity.
  - rewrite <- Hb. destruct (seg_clean back); reflexivity.
Qed.

Lemma files_follow_boundaries_witness :
  match find_section_boundaries doc_three_regions with
  | Ok (ack_start, appendix_start) =>
      is_some (appendix_file
                 {| main_file := [];
                    backmatter_file :=
                      emitted (lit "Untitled_Paper") "Backmatter"
                        (Some (slice 0 29 doc_three_regions));
                    appendix_file :=
                      emitted (lit "Untitled_Paper") "Appendix"
                        (Some (slice_from 29 doc_three_regions)) |})
      = is_some appendix_start
      /\ is_some (backmatter_file
                    {| main_file := [];
                       backmatter_file :=
                         emitted (lit "Untitled_Paper") "Backmatter"
                           (Some (slice 0 29 doc_three_regions));
                       appendix_file :=
                         emitted (lit "Untitled_Paper") "Appendix"
                           (Some (slice_from 29 doc_three_regions)) |})
         = backmatter_expected ack_start appendix_start
  | Raise _ => False
  end.
Proof.
  apply (files_follow_boundaries doc_three_regions).
  vm_compute. reflexivity.
Defined.

(** X6: [split_paper] raises nothing on a document whose extracted title
    holds no backslash: the replacement template of line 222 is the only
    place where it can. *)
Theorem core_completes_without_backslash content :
  no_backslash (extract_title content) ->
  exists out, split_paper_core content = Ok out.
Proof. apply split_paper_core_total. Qed.

Lemma core_completes_without_backslash_witness :
  exists out, split_paper_core doc_title_and_funding = Ok out.
Proof.
  apply (core_completes_without_backslash doc_title_and_funding).
  intros H. vm_compute in H. repeat (destruct H as [H|H]; [discriminate|]).
  contradiction.
Defined.

(** X7: the cleanup of a segment (lines 209-213) raises nothing and only
    trims the two ends: the result is a part of the text, what is cut
    before it is whitespace, what is cut after it is whitespace and
    dashes, and the result has no whitespace left at either end. *)
Theorem cleanup_trims_ends_only text :
  exists t pre post,
    cleanup text = Ok t
    /\ text = pre ++ t ++ post
    /\ blank pre /\ blank_or_dash post
    /\ stripped t.
Proof.
  destruct (trim_separator_infix text) as (pre & post & Ht & Hpre & Hpost).
  exists (trim_separator text), pre, post.
  split; [apply cleanup_ok|]. split; [exact Ht|].
  split; [exact Hpre|]. split; [exact Hpost|].
  apply trim_separator_stripped.
Qed.

(** X8: the title that [extract_title] returns never starts or ends
    with whitespace, whichever of its three sources it comes from. *)
Theorem extract_title_stripped content : stripped (extract_title content).
Proof.
  unfold extract_title.
  destruct (re_search MULTILINE title_pattern content) as [[p q]|];
    [apply strip_stripped|].
  destruct (re_search no_flags bibtex_pattern content) as [[p q]|];
    [apply strip_stripped|].
  split; reflexivity.
Qed.

(** X9: when the document starts with a line [# t], with [t] not empty,
    the title is [t] without the whitespace around it, whatever follows
    that line: a BibTeX title further down is not looked at. *)
Theorem extract_title_first_line t rest :
  t <> [] -> ~ In nl t -> line_end rest ->
  extract_title (lit "# " ++ t ++ rest) = strip t.
Proof.
  intros Hne Hnl Hrest. unfold extract_title.
  rewrite (title_match_first_line t rest Hne Hnl Hrest).
  unfold slice. change (skipn (0 + 2) (lit "# " ++ t ++ rest)) with (t ++ rest).
  replace (2 + length t - (0 + 2)) with (length t) by lia.
  rewrite firstn_app, firstn_all, Nat.sub_diag. simpl firstn.
  now rewrite app_nil_r.
Qed.

Lemma extract_title_first_line_witness :
  extract_title doc_heading_and_bibtex = lit "My Paper".
Proof.
  apply (extract_title_first_line (lit " My Paper ")
           (nl :: lit "text" ++ nl :: lit "title={Other}")).
  - discriminate.
  - intros H. simpl in H.
    repeat (destruct H as [H|H]; [discriminate|]). exact H.
  - right. eexists. reflexivity.
Defined.

(** X10: a document with no [#] and no opening brace has no heading and
    no BibTeX title: the title is the placeholder. *)
Theorem extract_title_placeholder content :
  ~ In "#"%char content -> ~ In "{"%char content ->
  extract_title content = lit "Untitled_Paper".
Proof.
  intros Hh Hb. unfold extract_title.
  rewrite (title_no_match_without_hash content Hh).
  now rewrite (bibtex_no_match_without_brace content Hb).
Qed.

Lemma extract_title_placeholder_witness :
  extract_title doc_plain = lit "Untitled_Paper".
Proof.
  apply (extract_title_placeholder doc_plain);
    intros H; vm_compute in H;
    repeat (destruct H as [H|H]; [discriminate|]); exact H.
Defined.

(** X11: a title taken from a level-1 heading is a single line: it
    holds no newline.  (A BibTeX title may.) *)
Theorem heading_title_single_line content :
  re_search MULTILINE title_pattern content <> None ->
  ~ In nl (extract_title content).
Proof.
  intros H. unfold extract_title.
  destruct (re_search MULTILINE title_pattern content) as [[p q]|] eqn:E;
    [|congruence].
  now apply title_from_heading_no_nl.
Qed.

Lemma heading_title_single_line_witness :
  ~ In nl (extract_title doc_title_and_funding).
Proof.
  apply (heading_title_single_line doc_title_and_funding).
  vm_compute. discriminate.
Defined.

(** X12: the base file name holds no [/], so the output files are put
    in the output directory itself. *)
Theorem base_filename_has_no_separator input_file :
  ~ In sep (get_base_filename input_file).
Proof. apply get_base_filename_no_sep. Qed.

(** X13: for a path made of a directory part, a name that is not made of
    dots only, a dot and an extension without dot, the base file name is
    the name: the directory and the last extension are removed, and only
    they. *)
Theorem base_filename_of_name_with_extension prefix name ext :
  dir_prefix prefix -> ~ In sep name -> ~ In sep ext -> ~ In extsep ext ->
  has_non_dot name ->
  get_base_filename (prefix ++ name ++ extsep :: ext) = name.
Proof. apply base_of_name_ext. Qed.

Lemma base_filename_of_name_with_extension_witness :
  get_base_filename (lit "papers/" ++ lit "my.paper" ++ extsep :: lit "md")
  = lit "my.paper".
Proof.
  apply (base_filename_of_name_with_extension
           (lit "papers/") (lit "my.paper") (lit "md")).
  - right. exists (lit "papers"). reflexivity.
  - intros H; simpl in H;
      repeat (destruct H as [H|H]; [discriminate|]); exact H.
  - intros H; simpl in H;
      repeat (destruct H as [H|H]; [discriminate|]); exact H.
  - intros H; simpl in H;
      repeat (destruct H as [H|H]; [discriminate|]); exact H.
  - exists "m"%char. split; [now left|discriminate].
Defined.

(** X14: a file name whose only dots are at its start (no dot at all, or
    a hidden file such as [.bashrc]) has no extension to remove: the
    base file name is the whole name. *)
Theorem base_filename_without_extension prefix dots rest :
  dir_prefix prefix -> all_dots dots -> ~ In extsep rest -> ~ In sep rest ->
  get_base_filename (prefix ++ dots ++ rest) = dots ++ rest.
Proof.
  intros Hp Hd Hr Hs. unfold get_base_filename.
  rewrite basename_app; [|exact Hp|].
  - now rewrite splitext_leading_dots.
  - rewrite in_app_iff. intros [H|H]; [|now apply Hs].
    now apply (all_dots_no_sep dots Hd).
Qed.

Lemma base_filename_without_extension_witness :
  get_base_filename (lit "a/" ++ lit "." ++ lit "bashrc") = lit ".bashrc".
Proof.
  apply (base_filename_without_extension (lit "a/") (lit ".") (lit "bashrc")).
  - right. exists (lit "a"). reflexivity.
  - reflexivity.
  - intros H; simpl in H;
      repeat (destruct H as [H|H]; [discriminate|]); exact H.
  - intros H; simpl in H;
      repeat (destruct H as [H|H]; [discriminate|]); exact H.
Defined.

(** X15: the paths of the main, backmatter and appendix files are
    pairwise distinct, for every input path and output directory: no
    output file overwrites another. *)
Theorem output_paths_distinct input_file output_dir :
  let '(main_path, backmatter_path, appendix_path) :=
    output_paths input_file output_dir in
  main_path <> backmatter_path
  /\ main_path <> appendix_path
  /\ backmatter_path <> appendix_path.
Proof.
  unfold output_paths.
  set (od := match output_dir with
             | None => match dirname input_file with
                       | [] => lit "."
                       | d => d
                       end
             | Some d => d
             end).
  destruct (join_prefix od) as (pre & Hpre).
  pose proof (get_base_filename_no_sep input_file) as Hb.
  rewrite !Hpre by (apply no_sep_starts_with; [exact Hb|reflexivity]).
  repeat split; intros E; apply app_inv_head in E; apply app_inv_head in E;
    discriminate.
Qed.

(** X16: when no output directory is given and the input path is
    [d/name.md], the main file is written to the input path itself:
    the input file is overwritten by its main part. *)
Theorem main_path_is_input_path d name :
  d <> [] -> endswith_sep d = false -> ~ In sep name -> has_non_dot name ->
  fst (fst (output_paths (d ++ sep :: name ++ lit ".md") None))
  = d ++ sep :: name ++ lit ".md".
Proof.
  intros Hne He Hn Hc. unfold output_paths. cbn [fst].
  rewrite (dirname_app d (name ++ lit ".md") Hne He (md_no_sep name Hn)).
  assert (Hb : get_base_filename (d ++ sep :: name ++ lit ".md") = name).
  { change (d ++ sep :: name ++ lit ".md")
      with (d ++ [sep] ++ name ++ extsep :: lit "md").
    rewrite app_assoc. apply base_of_name_ext; try assumption.
    - right. now exists d.
    - intros H; simpl in H;
        repeat (destruct H as [H|H]; [discriminate|]); exact H.
    - intros H; simpl in H;
        repeat (destruct H as [H|H]; [discriminate|]); exact H. }
  rewrite Hb. destruct d as [|x d']; [congruence|].
  apply join_dir_name; [discriminate|exact He|].
  apply no_sep_starts_with; [exact Hn|reflexivity].
Qed.

Lemma main_path_is_input_path_witness :
  fst (fst (output_paths (lit "papers" ++ sep :: lit "p" ++ lit ".md") None))
  = lit "papers" ++ sep :: lit "p" ++ lit ".md".
Proof.
  apply (main_path_is_input_path (lit "papers") (lit "p")).
  - discriminate.
  - reflexivity.
  - intros H; simpl in H;
      repeat (destruct H as [H|H]; [discriminate|]); exact H.
  - exists "p"%char. split; [now left|discriminate].
Defined.

(** X17: the Backmatter candidate of lines 70-77 is the leftmost first
    match among all the Backmatter patterns, whatever their order in the
    list: it is the first match of one of them, no pattern has its first
    match before it, and there is no candidate only when no pattern
    matches. *)
Theorem backmatter_candidate_is_leftmost content :
  match category_search ack_patterns content with
  | Some b =>
      (exists p, In p ack_patterns /\ search_start p content = Some b)
      /\ forall p m, In p ack_patterns ->
                     search_start p content = Some m -> b <= m
  | None =>
      forall p, In p ack_patterns -> search_start p content = None
  end.
Proof.
  destruct (category_search ack_patterns content) as [b|] eqn:E.
  - now apply category_search_some.
  - now apply category_search_none.
Qed.

(** X18: a heading that matches an Appendix pattern other than the two
    generic ones is never missed: an appendix boundary is returned, at or
    before the first match of that pattern, whatever the Backmatter
    headings of the document. *)
Theorem appendix_heading_always_located content p m :
  In p appendix_patterns -> is_generic p = false ->
  search_start p content = Some m ->
  exists ack a, find_section_boundaries content = Ok (ack, Some a) /\ a <= m.
Proof.
  intros Hin G Hm.
  destruct (adjusted_bounds content) as (ack0 & app & Hloc & _ & _ & _ & Bapp).
  destruct (Bapp p m Hin G Hm) as (a & -> & Ha).
  destruct (boundaries_from_adjusted content ack0 (Some a) Hloc)
    as [[E _]|[E _]].
  - exists ack0, a. now split.
  - exists None, a. now split.
Qed.

Lemma appendix_heading_always_located_witness :
  exists ack a,
    find_section_boundaries doc_ack_in_appendix = Ok (ack, Some a) /\ a <= 0.
Proof.
  apply (appendix_heading_always_located doc_ack_in_appendix
           {| source := "^#+\s+(Appendix|Appendices|appendix|appendices)\b";
              re := heading [words "Appendix"
                               ["Appendices"; "appendix"; "appendices"];
                             WordB] |} 0).
  - left. reflexivity.
  - reflexivity.
  - vm_compute. reflexivity.
Defined.
